(** * Jingle file-transfer negotiation and in-band bytestreams of profanity

    A shallow embedding of [src/xmpp/jingle.c] (XEP-0166 session handling)
    and [src/xmpp/ibb.c] (XEP-0047 in-band bytestreams), followed by the
    properties of the two handlers that the specification states.

    The C code is a pair of callbacks driven by inbound stanzas.  They read
    and mutate two process-wide hash tables ([jingle_sessions] and
    [ibb_sessions]), send stanzas with [iq_send_stanza] and write to
    [FILE] streams.  Here the hash tables are [gmap]s, the stanzas sent are
    collected in order in an outbox, the streams live in a store indexed by
    handle, and every handler is a function from the state before to an
    [outcome]: the state after, a dereference of [NULL], or a loop that never
    ends. *)

From Stdlib Require Import ZArith Lia Ascii String List.
From Stdlib.Strings Require Import Byte.
From stdpp Require Import base option list strings gmap fin_maps.

Local Open Scope Z_scope.

(** ** The C library calls the two files rely on *)

Module Libc.

Definition isspace (c : ascii) : bool :=
  let n := N_of_ascii c in (n =? 32)%N || ((9 <=? n)%N && (n <=? 13)%N).

Definition isdigit (c : ascii) : bool :=
  let n := N_of_ascii c in (48 <=? n)%N && (n <=? 57)%N.

Definition digit_value (c : ascii) : Z := Z.of_N (N_of_ascii c) - 48.

Definition digit_char (d : Z) : ascii := ascii_of_N (Z.to_N (48 + d)).

Fixpoint skip_space (s : string) : string :=
  match s with
  | String c r => if isspace c then skip_space r else s
  | EmptyString => s
  end.

(** The value of the longest prefix of decimal digits, read left to right
    onto [acc], and what follows it. *)
Fixpoint digits (acc : Z) (s : string) : Z * string :=
  match s with
  | String c r => if isdigit c then digits (acc * 10 + digit_value c) r else (acc, s)
  | EmptyString => (acc, s)
  end.

Definition starts_with_digit (s : string) : bool :=
  match s with
  | String c _ => isdigit c
  | EmptyString => false
  end.

(** [long] is 64 bits wide (LP64). *)
Definition LONG_MAX : Z := 2 ^ 63 - 1.
Definition LONG_MIN : Z := - 2 ^ 63.

Record strtol_t := { value : Z; endptr : string; erange : bool }.

(** [strtol(nptr, &endptr, 10)]: white space, an optional sign, then
    digits.  Without a digit nothing is converted and [endptr] is [nptr];
    a value outside [long] is clamped and [errno] becomes [ERANGE]. *)
Definition strtol (nptr : string) : strtol_t :=
  let s := skip_space nptr in
  let '(neg, s1) :=
    match s with
    | String c r =>
        if Ascii.eqb c "-" then (true, r)
        else if Ascii.eqb c "+" then (false, r)
        else (false, s)
    | EmptyString => (false, s)
    end in
  if starts_with_digit s1 then
    let '(v, rest) := digits 0 s1 in
    let v := if neg : bool then - v else v in
    if v >? LONG_MAX then {| value := LONG_MAX; endptr := rest; erange := true |}
    else if v <? LONG_MIN then {| value := LONG_MIN; endptr := rest; erange := true |}
    else {| value := v; endptr := rest; erange := false |}
  else {| value := 0; endptr := nptr; erange := false |}.

(** [atoi(nptr)] is [(int) strtol(nptr, NULL, 10)]; the result is given
    here as the [int] the conversion of the [long] leaves. *)
Definition atoi (nptr : string) : Z :=
  (value (strtol nptr) + 2 ^ 31) mod 2 ^ 32 - 2 ^ 31.

(** Conversion of an [int] to [unsigned int]. *)
Definition to_uint (i : Z) : Z := i mod 2 ^ 32.

(** Conversion of a [size_t] to [int]. *)
Definition to_int (n : Z) : Z := (n + 2 ^ 31) mod 2 ^ 32 - 2 ^ 31.

(** Conversion of a [long] to [unsigned long], which a comparison of the
    two applies to the [long]. *)
Definition to_ulong (i : Z) : Z := i mod 2 ^ 64.

(** The digits of [n], least significant first, pushed onto [acc]. *)
Fixpoint utoa (fuel : nat) (n : Z) (acc : string) : string :=
  match fuel with
  | O => acc
  | S fuel =>
      let acc := String (digit_char (n mod 10)) acc in
      if n / 10 =? 0 then acc else utoa fuel (n / 10) acc
  end.

(** What [printf] writes for ["%u"]: an [unsigned int] has at most ten
    decimal digits. *)
Definition sprintf_u (n : Z) : string := utoa 10 n EmptyString.

Fixpoint until_nul (data : list byte) : list byte :=
  match data with
  | [] => []
  | b :: r => if Byte.eqb b x00 then [] else b :: until_nul r
  end.

(** What [printf] writes for ["%.*s"] with the precision [(int)data_size]
    and the [data_size] bytes at [data], which a zero byte follows: the
    bytes up to the first zero byte, at most [precision] of them when the
    precision is not negative. *)
Definition sprintf_precision_s (data : list byte) : list byte :=
  let precision := to_int (Z.of_nat (length data)) in
  if precision <? 0 then until_nul data
  else until_nul (take (Z.to_nat precision) data).

End Libc.

(** ** Stanzas, as libstrophe presents them *)

#[local] Unset Elimination Schemes.
Inductive xmpp_stanza_t : Type :=
| XMPP_STANZA_TEXT (data : string)
| XMPP_STANZA_TAG (name : string) (attributes : list (string * string))
                  (children : list xmpp_stanza_t).
#[local] Set Elimination Schemes.

Module Strophe.

Fixpoint hash_get (attributes : list (string * string)) (key : string) : option string :=
  match attributes with
  | [] => None
  | (k, v) :: r => if String.eqb k key then Some v else hash_get r key
  end.

(** Setting an attribute replaces the value the key had. *)
Fixpoint hash_add (attributes : list (string * string)) (key value : string)
  : list (string * string) :=
  match attributes with
  | [] => [(key, value)]
  | (k, v) :: r =>
      if String.eqb k key then (k, value) :: r else (k, v) :: hash_add r key value
  end.

Definition xmpp_stanza_get_name (stanza : xmpp_stanza_t) : option string :=
  match stanza with
  | XMPP_STANZA_TEXT _ => None
  | XMPP_STANZA_TAG name _ _ => Some name
  end.

Definition xmpp_stanza_get_attribute (stanza : xmpp_stanza_t) (name : string)
  : option string :=
  match stanza with
  | XMPP_STANZA_TEXT _ => None
  | XMPP_STANZA_TAG _ attributes _ => hash_get attributes name
  end.

Definition xmpp_stanza_get_ns stanza := xmpp_stanza_get_attribute stanza "xmlns".
Definition xmpp_stanza_get_id stanza := xmpp_stanza_get_attribute stanza "id".
Definition xmpp_stanza_get_from stanza := xmpp_stanza_get_attribute stanza "from".

(** The first child; [xmpp_stanza_get_next] walks the rest of the list. *)
Definition xmpp_stanza_get_children (stanza : xmpp_stanza_t) : list xmpp_stanza_t :=
  match stanza with
  | XMPP_STANZA_TEXT _ => []
  | XMPP_STANZA_TAG _ _ children => children
  end.

Definition text_of (child : xmpp_stanza_t) : string :=
  match child with
  | XMPP_STANZA_TEXT data => data
  | XMPP_STANZA_TAG _ _ _ => EmptyString
  end.

(** The text of a tag is the text of its text children, joined; it is
    [NULL] when that is empty. *)
Definition xmpp_stanza_get_text (stanza : xmpp_stanza_t) : option string :=
  match stanza with
  | XMPP_STANZA_TEXT data => Some data
  | XMPP_STANZA_TAG _ _ children =>
      let text := String.concat EmptyString (map text_of children) in
      if String.eqb text EmptyString then None else Some text
  end.

Definition has_name (name : string) (child : xmpp_stanza_t) : bool :=
  match xmpp_stanza_get_name child with
  | Some n => String.eqb name n
  | None => false
  end.

Definition has_ns (ns : string) (child : xmpp_stanza_t) : bool :=
  match xmpp_stanza_get_ns child with
  | Some n => String.eqb ns n
  | None => false
  end.

Definition xmpp_stanza_get_child_by_name (stanza : xmpp_stanza_t) (name : string) :=
  List.find (has_name name) (xmpp_stanza_get_children stanza).

Definition xmpp_stanza_get_child_by_ns (stanza : xmpp_stanza_t) (ns : string) :=
  List.find (has_ns ns) (xmpp_stanza_get_children stanza).

Definition xmpp_stanza_get_child_by_name_and_ns (stanza : xmpp_stanza_t) (name ns : string) :=
  List.find (fun child => has_name name child && has_ns ns child)
            (xmpp_stanza_get_children stanza).

(** [xmpp_stanza_new] followed by [xmpp_stanza_set_name]. *)
Definition xmpp_stanza_new (name : string) : xmpp_stanza_t := XMPP_STANZA_TAG name [] [].

Definition xmpp_stanza_set_attribute (stanza : xmpp_stanza_t) (key value : string)
  : xmpp_stanza_t :=
  match stanza with
  | XMPP_STANZA_TEXT _ => stanza
  | XMPP_STANZA_TAG name attributes children =>
      XMPP_STANZA_TAG name (hash_add attributes key value) children
  end.

Definition xmpp_stanza_set_ns stanza ns := xmpp_stanza_set_attribute stanza "xmlns" ns.
Definition xmpp_stanza_set_type stanza type := xmpp_stanza_set_attribute stanza "type" type.
Definition xmpp_stanza_set_to stanza to := xmpp_stanza_set_attribute stanza "to" to.

(** A child is added after the children already there. *)
Definition xmpp_stanza_add_child (stanza child : xmpp_stanza_t) : xmpp_stanza_t :=
  match stanza with
  | XMPP_STANZA_TEXT _ => stanza
  | XMPP_STANZA_TAG name attributes children =>
      XMPP_STANZA_TAG name attributes (children ++ [child])
  end.

(** [xmpp_iq_new(ctx, type, id)]: the id is set when there is one. *)
Definition xmpp_iq_new (type : string) (id : option string) : xmpp_stanza_t :=
  let iq := xmpp_stanza_set_type (xmpp_stanza_new "iq") type in
  match id with
  | Some id => xmpp_stanza_set_attribute iq "id" id
  | None => iq
  end.

End Strophe.

(** Modelled from the spec: the names and namespaces of [xmpp/stanza.h]
    and [strophe.h], headers that are not among the sources, as section 6
    of the specification and the XMPP documents it follows give them. *)
Definition STANZA_NS_JINGLE : string := "urn:xmpp:jingle:1".
Definition STANZA_NS_JINGLE_FT5 : string := "urn:xmpp:jingle:apps:file-transfer:5".
Definition STANZA_NS_JINGLE_RTP : string := "urn:xmpp:jingle:apps:rtp:1".
Definition STANZA_NS_JINGLE_TRANSPORTS_IBB : string := "urn:xmpp:jingle:transports:ibb:1".
Definition STANZA_NS_JINGLE_TRANSPORTS_S5B : string := "urn:xmpp:jingle:transports:s5b:1".
Definition STANZA_NS_IBB : string := "http://jabber.org/protocol/ibb".
Definition XMPP_FEATURE_IBB : string := "http://jabber.org/protocol/ibb".
Definition XMPP_NS_STANZAS_IETF : string := "urn:ietf:params:xml:ns:xmpp-stanzas".
Definition STANZA_NAME_ERROR : string := "error".
Definition STANZA_TYPE_SET : string := "set".
Definition STANZA_TYPE_RESULT : string := "result".
Definition STANZA_TYPE_ERROR : string := "error".

(** ** The records of [xmpp/jingle.h] and [ibb.c]

    [jingle.h] is not among the sources: the enumerations have the members
    the two files name, and the records the fields they read and write. *)

Inductive prof_jingle_state_t :=
| PROF_JINGLE_STATE_INITIATED
| PROF_JINGLE_STATE_ACCEPTED
| PROF_JINGLE_STATE_TRANSFER_FINISHED.

Inductive prof_jingle_creator_t :=
| PROF_JINGLE_CREATOR_INITIATOR
| PROF_JINGLE_CREATOR_RESPONDER
| PROF_JINGLE_CREATOR_UNKNOWN.

Inductive prof_jingle_senders_t :=
| PROF_JINGLE_SENDERS_BOTH
| PROF_JINGLE_SENDERS_INITIATOR
| PROF_JINGLE_SENDERS_RESPONDER
| PROF_JINGLE_SENDERS_NONE
| PROF_JINGLE_SENDERS_UNKNOWN.

Inductive prof_jingle_description_type_t :=
| PROF_JINGLE_DESCRIPTION_TYPE_FILETRANSFER
| PROF_JINGLE_DESCRIPTION_TYPE_RTP.

Inductive prof_jingle_transport_type_t :=
| PROF_JINGLE_TRANSPORT_TYPE_INBANDBYTESTREAM
| PROF_JINGLE_TRANSPORT_TYPE_SOCKS5.

(** Every field is a [char*] that [_get_child_text] may leave [NULL]. *)
Record prof_jingle_file_info_t := {
  file_type : option string;
  file_date : option string;
  file_name : option string;
  file_size : option string;
  file_hash : option string }.

(** [description] is a [void*]; the one payload this code stores is a
    file info. *)
Record prof_jingle_description_t := {
  description_type : prof_jingle_description_type_t;
  description : prof_jingle_file_info_t }.

(** [blocksize] is a [uint]; [candidates] stays [NULL]. *)
Record prof_jingle_transport_t := {
  transport_type : prof_jingle_transport_type_t;
  transport_sid : string;
  blocksize : Z }.

(** [content_state] is [None] as long as the field the [malloc] left
    unset has not been assigned. *)
Record prof_jingle_content_t := {
  content_name : string;
  content_creator : prof_jingle_creator_t;
  content_senders : prof_jingle_senders_t;
  content_description : prof_jingle_description_t;
  content_transport : prof_jingle_transport_t;
  content_state : option prof_jingle_state_t }.

Record prof_jingle_session_t := {
  jingle_sid : string;
  initiator : string;
  session_state : prof_jingle_state_t;
  content_table : gmap string prof_jingle_content_t }.

(** [file] points into the content that owns the file info, which is not
    written to once parsed; the model holds the value it points to, which
    is what the pointer yields as long as that content lives.  [seq] is a
    [uint16_t]; [stream] is the handle of a [FILE] in the store, or
    [NULL]. *)
Record ibb_session_t := {
  file : prof_jingle_file_info_t;
  seq : Z;
  stream : option nat }.

Record FILE := {
  written : list byte;
  closed : bool }.

(** ** The process state and what a handler can come to *)

Record world := {
  jingle_sessions : gmap string prof_jingle_session_t;
  ibb_sessions : gmap string ibb_session_t;
  outbox : list xmpp_stanza_t;
  files : list FILE;
  stanza_ids : nat }.

Definition set_jingle_sessions (w : world) (t : gmap string prof_jingle_session_t) : world :=
  {| jingle_sessions := t; ibb_sessions := ibb_sessions w; outbox := outbox w;
     files := files w; stanza_ids := stanza_ids w |}.

Definition set_ibb_sessions (w : world) (t : gmap string ibb_session_t) : world :=
  {| jingle_sessions := jingle_sessions w; ibb_sessions := t; outbox := outbox w;
     files := files w; stanza_ids := stanza_ids w |}.

Definition set_files (w : world) (f : list FILE) : world :=
  {| jingle_sessions := jingle_sessions w; ibb_sessions := ibb_sessions w;
     outbox := outbox w; files := f; stanza_ids := stanza_ids w |}.

(** [iq_send_stanza]: the stanza goes out after those sent before. *)
Definition iq_send_stanza (w : world) (stanza : xmpp_stanza_t) : world :=
  {| jingle_sessions := jingle_sessions w; ibb_sessions := ibb_sessions w;
     outbox := outbox w ++ [stanza]; files := files w; stanza_ids := stanza_ids w |}.

Inductive outcome (A : Type) : Type :=
| Done (a : A)
| Segfault
| Hang.
Arguments Done {A} a.
Arguments Segfault {A}.
Arguments Hang {A}.

#[export] Instance outcome_ret : MRet outcome := fun A a => Done a.
#[export] Instance outcome_bind : MBind outcome := fun A B k m =>
  match m with
  | Done a => k a
  | Segfault => Segfault
  | Hang => Hang
  end.

(** What the handlers take from the rest of the program and from the
    machine: GLib's base64 decoder (never [NULL] for a text that is not),
    [string_to_ul] of [common.c], whether
    [_get_file_location_by_file_name] and [fopen] yield a stream for a file
    name, the account's bare JID, the stanza ids, and what a state field
    that was never assigned happens to hold. *)
Record Env := {
  g_base64_decode : string -> list byte;
  string_to_ul : option string -> option Z;
  fopen_download : option string -> bool;
  connection_get_barejid : string;
  connection_create_stanza_id : nat -> string;
  indeterminate_state : prof_jingle_state_t }.

Definition create_stanza_id (E : Env) (w : world) : string * world :=
  (connection_create_stanza_id E (stanza_ids w),
   {| jingle_sessions := jingle_sessions w; ibb_sessions := ibb_sessions w;
      outbox := outbox w; files := files w; stanza_ids := S (stanza_ids w) |}).

Definition is_finished (s : prof_jingle_state_t) : bool :=
  match s with
  | PROF_JINGLE_STATE_TRANSFER_FINISHED => true
  | _ => false
  end.

(** ** jingle.c *)

Module Jingle.
Section Jingle.
Import Strophe.
Context (E : Env).

(** The inner loop of [_get_item_by_transport_id]: the first content, in
    the order the table is iterated, whose transport has this sid.  Every
    content this code builds has a transport. *)
Definition content_by_transport_id
    (contents : gmap string prof_jingle_content_t) (transport_id : string)
  : option prof_jingle_content_t :=
  snd <$> List.find
    (fun kv => String.eqb (transport_sid (content_transport (snd kv))) transport_id)
    (map_to_list contents).

Fixpoint session_by_transport_id
    (sessions : list (string * prof_jingle_session_t)) (transport_id : string)
  : option (string * prof_jingle_session_t * prof_jingle_content_t) :=
  match sessions with
  | [] => None
  | (key, session) :: sessions =>
      match content_by_transport_id (content_table session) transport_id with
      | Some content => Some (key, session, content)
      | None => session_by_transport_id sessions transport_id
      end
  end.

(** The item comes with the key its session is stored under. *)
Definition _get_item_by_transport_id (w : world) (transport_id : string)
  : option (string * prof_jingle_session_t * prof_jingle_content_t) :=
  session_by_transport_id (map_to_list (jingle_sessions w)) transport_id.

Definition get_content_by_transport_id (w : world) (transport_id : string)
  : option prof_jingle_content_t :=
  snd <$> _get_item_by_transport_id w transport_id.

Definition _xmpp_jingle_new (action sid : string) : xmpp_stanza_t :=
  let jingle := xmpp_stanza_new "jingle" in
  let jingle := xmpp_stanza_set_ns jingle STANZA_NS_JINGLE in
  let jingle := xmpp_stanza_set_attribute jingle "sid" sid in
  xmpp_stanza_set_attribute jingle "action" action.

Definition _terminate_session (w : world) (session : prof_jingle_session_t)
    (reason : string) : world :=
  let '(id, w) := create_stanza_id E w in
  let iq_stanza := xmpp_iq_new STANZA_TYPE_SET (Some id) in
  let iq_stanza := xmpp_stanza_set_attribute iq_stanza "to" (initiator session) in
  let reason_name_stanza := xmpp_stanza_new reason in
  let reason_stanza := xmpp_stanza_add_child (xmpp_stanza_new "reason") reason_name_stanza in
  let jingle_stanza := _xmpp_jingle_new "session-terminate" (jingle_sid session) in
  let jingle_stanza := xmpp_stanza_add_child jingle_stanza reason_stanza in
  let iq_stanza := xmpp_stanza_add_child iq_stanza jingle_stanza in
  let w := iq_send_stanza w iq_stanza in
  set_jingle_sessions w (delete (jingle_sid session) (jingle_sessions w)).

Definition set_state (transport_id : string) (state : prof_jingle_state_t)
    (content : prof_jingle_content_t) : prof_jingle_content_t :=
  if String.eqb (transport_sid (content_transport content)) transport_id then
    {| content_name := content_name content;
       content_creator := content_creator content;
       content_senders := content_senders content;
       content_description := content_description content;
       content_transport := content_transport content;
       content_state := Some state |}
  else content.

Definition read_state (content : prof_jingle_content_t) : prof_jingle_state_t :=
  default (indeterminate_state E) (content_state content).

(** The session is the one [_get_item_by_transport_id] finds; without one
    the loop header reads [session->content_table] through [NULL]. *)
Definition set_content_state_by_transport_id (w : world) (transport_id : string)
    (state : prof_jingle_state_t) : outcome world :=
  match _get_item_by_transport_id w transport_id with
  | None => Segfault
  | Some (key, session, _) =>
      let contents := set_state transport_id state <$> content_table session in
      let all_downloads_finished :=
        forallb (fun kv => is_finished (read_state (snd kv))) (map_to_list contents) in
      let session :=
        {| jingle_sid := jingle_sid session; initiator := initiator session;
           session_state := session_state session; content_table := contents |} in
      let w := set_jingle_sessions w (<[key := session]> (jingle_sessions w)) in
      if all_downloads_finished then Done (_terminate_session w session "success")
      else Done w
  end.

(** This file's [_send_ack] passes what it is given on. *)
Definition _send_ack (w : world) (id : option string) (target : string) : world :=
  let iq := xmpp_iq_new STANZA_TYPE_RESULT id in
  iq_send_stanza w (xmpp_stanza_set_to iq target).

Definition _get_child_text (stanza : xmpp_stanza_t) (child_name : string) : option string :=
  match xmpp_stanza_get_child_by_name stanza child_name with
  | None => None
  | Some child => xmpp_stanza_get_text child
  end.

(** [xmpp_stanza_set_text] copies its argument with [strlen]: a [NULL]
    text is a fault.  The result is the parent with the child added. *)
Definition _add_child_with_text (parent : xmpp_stanza_t) (child_name : string)
    (child_text : option string) : outcome xmpp_stanza_t :=
  match child_text with
  | None => Segfault
  | Some text =>
      let child_stanza := xmpp_stanza_new child_name in
      let child_stanza := xmpp_stanza_add_child child_stanza (XMPP_STANZA_TEXT text) in
      Done (xmpp_stanza_add_child parent child_stanza)
  end.

Definition _parse_content_creator (creator_raw : option string) : prof_jingle_creator_t :=
  match creator_raw with
  | None => PROF_JINGLE_CREATOR_UNKNOWN
  | Some creator_raw =>
      if String.eqb creator_raw "initiator" then PROF_JINGLE_CREATOR_INITIATOR
      else if String.eqb creator_raw "responder" then PROF_JINGLE_CREATOR_RESPONDER
      else PROF_JINGLE_CREATOR_UNKNOWN
  end.

Definition _parse_content_senders (senders_raw : option string) : prof_jingle_senders_t :=
  match senders_raw with
  | None => PROF_JINGLE_SENDERS_UNKNOWN
  | Some senders_raw =>
      if String.eqb senders_raw "both" then PROF_JINGLE_SENDERS_BOTH
      else if String.eqb senders_raw "initiator" then PROF_JINGLE_SENDERS_INITIATOR
      else if String.eqb senders_raw "responder" then PROF_JINGLE_SENDERS_RESPONDER
      else if String.eqb senders_raw "none" then PROF_JINGLE_SENDERS_NONE
      else PROF_JINGLE_SENDERS_UNKNOWN
  end.

Definition _stringify_senders (senders : prof_jingle_senders_t) : string :=
  match senders with
  | PROF_JINGLE_SENDERS_BOTH => "both"
  | PROF_JINGLE_SENDERS_INITIATOR => "initiator"
  | PROF_JINGLE_SENDERS_RESPONDER => "responder"
  | PROF_JINGLE_SENDERS_NONE => "none"
  | PROF_JINGLE_SENDERS_UNKNOWN => "unknown"
  end.

Definition uint_to_str (value : Z) : string := Libc.sprintf_u value.

Definition _jingle_transport_type_to_ns (transport_type : prof_jingle_transport_type_t)
  : string :=
  match transport_type with
  | PROF_JINGLE_TRANSPORT_TYPE_INBANDBYTESTREAM => STANZA_NS_JINGLE_TRANSPORTS_IBB
  | PROF_JINGLE_TRANSPORT_TYPE_SOCKS5 => STANZA_NS_JINGLE_TRANSPORTS_S5B
  end.

Definition _jingle_description_type_to_ns
    (description_type : prof_jingle_description_type_t) : string :=
  match description_type with
  | PROF_JINGLE_DESCRIPTION_TYPE_FILETRANSFER => STANZA_NS_JINGLE_FT5
  | PROF_JINGLE_DESCRIPTION_TYPE_RTP => STANZA_NS_JINGLE_RTP
  end.

(** One turn of the [while] loop of [_handle_session_init] ends in one of
    three ways: [content_stanza] moves on to its next sibling, after a
    content was inserted or not; a [continue] is reached that leaves
    [content_stanza] where it is; or [atoi] or [strdup] is handed [NULL]. *)
Inductive iteration :=
| Next (inserted : option prof_jingle_content_t)
| Again
| Fault.

Definition content_iteration (content_stanza : xmpp_stanza_t) : iteration :=
  match xmpp_stanza_get_name content_stanza with
  | None => Next None
  | Some tag =>
  if negb (String.eqb tag "content") then Next None else
  match xmpp_stanza_get_child_by_name content_stanza "description" with
  | None => Again
  | Some description_stanza =>
  match xmpp_stanza_get_child_by_name content_stanza "transport" with
  | None => Again
  | Some transport_stanza =>
  match xmpp_stanza_get_ns transport_stanza with
  | None => Next None
  | Some transport_ns =>
  match xmpp_stanza_get_ns description_stanza with
  | None => Again
  | Some description_ns =>
  if negb (String.eqb description_ns STANZA_NS_JINGLE_FT5) then Again else
  match xmpp_stanza_get_attribute content_stanza "name" with
  | None => Again
  | Some content_name =>
  let content_creator_raw := xmpp_stanza_get_attribute content_stanza "creator" in
  match _parse_content_creator content_creator_raw with
  | PROF_JINGLE_CREATOR_UNKNOWN => Again
  | content_creator =>
  let content_senders_raw := xmpp_stanza_get_attribute content_stanza "senders" in
  let content_senders := _parse_content_senders content_senders_raw in
  match xmpp_stanza_get_child_by_name description_stanza "file" with
  | None => Next None
  | Some file_stanza =>
  let file_info :=
    {| file_type := _get_child_text file_stanza "media-type";
       file_date := _get_child_text file_stanza "date";
       file_name := _get_child_text file_stanza "name";
       file_size := _get_child_text file_stanza "size";
       file_hash := _get_child_text file_stanza "hash" |} in
  let description :=
    {| description_type := PROF_JINGLE_DESCRIPTION_TYPE_FILETRANSFER;
       description := file_info |} in
  if negb (String.eqb transport_ns STANZA_NS_JINGLE_TRANSPORTS_IBB) then Next None else
  let transport_sid := xmpp_stanza_get_attribute transport_stanza "sid" in
  let transport_block_size_raw := xmpp_stanza_get_attribute transport_stanza "block-size" in
  match transport_block_size_raw with
  | None => Fault
  | Some transport_block_size_raw =>
  let transport_block_size := Libc.to_uint (Libc.atoi transport_block_size_raw) in
  match transport_sid with
  | None => Fault
  | Some transport_sid =>
  let transport :=
    {| transport_type := PROF_JINGLE_TRANSPORT_TYPE_INBANDBYTESTREAM;
       transport_sid := transport_sid;
       blocksize := transport_block_size |} in
  Next (Some {| content_name := content_name;
                content_creator := content_creator;
                content_senders := content_senders;
                content_description := description;
                content_transport := transport;
                content_state := None |})
  end end end end end end end end end end.

(** The [while (content_stanza)] loop over the children of the jingle
    element.  A turn that ends in [continue] without moving
    [content_stanza] has changed nothing the next turn reads, so the loop
    goes through that same turn for ever. *)
Fixpoint content_loop (content_stanza : list xmpp_stanza_t)
    (contents : gmap string prof_jingle_content_t)
  : outcome (gmap string prof_jingle_content_t) :=
  match content_stanza with
  | [] => Done contents
  | stanza :: next =>
      match content_iteration stanza with
      | Next None => content_loop next contents
      | Next (Some content) =>
          content_loop next (<[content_name content := content]> contents)
      | Again => Hang
      | Fault => Segfault
      end
  end.

(** The same loop, turn by turn: [turns] bounds how many times the
    condition is tested; [None] when that was not enough to leave it. *)
Fixpoint content_loop_turns (turns : nat) (content_stanza : list xmpp_stanza_t)
    (contents : gmap string prof_jingle_content_t)
  : option (outcome (gmap string prof_jingle_content_t)) :=
  match turns with
  | O => None
  | S turns =>
      match content_stanza with
      | [] => Some (Done contents)
      | stanza :: next =>
          match content_iteration stanza with
          | Next None => content_loop_turns turns next contents
          | Next (Some content) =>
              content_loop_turns turns next (<[content_name content := content]> contents)
          | Again => content_loop_turns turns content_stanza contents
          | Fault => Some Segfault
          end
      end
  end.

(** The body of the loop of [_accept_session]: the content element of one
    content, added to [jingle_stanza]. *)
Definition accept_content (jingle_stanza : xmpp_stanza_t)
    (content : prof_jingle_content_t) : outcome xmpp_stanza_t :=
  let block_size := uint_to_str (blocksize (content_transport content)) in
  let content_stanza := xmpp_stanza_new "content" in
  let content_stanza := xmpp_stanza_set_attribute content_stanza "creator" "initiator" in
  let content_stanza :=
    xmpp_stanza_set_attribute content_stanza "senders"
      (_stringify_senders (content_senders content)) in
  let content_stanza := xmpp_stanza_set_attribute content_stanza "name" (content_name content) in
  let description_stanza := xmpp_stanza_new "description" in
  let description_stanza :=
    xmpp_stanza_set_ns description_stanza
      (_jingle_description_type_to_ns (description_type (content_description content))) in
  description_data_stanza ←
    match description_type (content_description content) with
    | PROF_JINGLE_DESCRIPTION_TYPE_FILETRANSFER =>
        let file_info := description (content_description content) in
        let file_stanza := xmpp_stanza_new "file" in
        file_stanza ← _add_child_with_text file_stanza "name" (file_name file_info);
        file_stanza ← _add_child_with_text file_stanza "media-type" (file_type file_info);
        file_stanza ← _add_child_with_text file_stanza "date" (file_date file_info);
        file_stanza ← _add_child_with_text file_stanza "size" (file_size file_info);
        match file_hash file_info with
        | Some hash => _add_child_with_text file_stanza "hash" (Some hash)
        | None => Done file_stanza
        end
    | PROF_JINGLE_DESCRIPTION_TYPE_RTP => Done (xmpp_stanza_new EmptyString)
    end;
  let description_stanza := xmpp_stanza_add_child description_stanza description_data_stanza in
  let content_stanza := xmpp_stanza_add_child content_stanza description_stanza in
  let transport_stanza := xmpp_stanza_new "transport" in
  let transport_stanza :=
    xmpp_stanza_set_ns transport_stanza
      (_jingle_transport_type_to_ns (transport_type (content_transport content))) in
  let transport_stanza := xmpp_stanza_set_attribute transport_stanza "block-size" block_size in
  let transport_stanza :=
    xmpp_stanza_set_attribute transport_stanza "sid"
      (transport_sid (content_transport content)) in
  let content_stanza := xmpp_stanza_add_child content_stanza transport_stanza in
  Done (xmpp_stanza_add_child jingle_stanza content_stanza).

Fixpoint accept_loop (contents : list (string * prof_jingle_content_t))
    (jingle_stanza : xmpp_stanza_t) : outcome xmpp_stanza_t :=
  match contents with
  | [] => Done jingle_stanza
  | (_, content) :: contents =>
      jingle_stanza ← accept_content jingle_stanza content;
      accept_loop contents jingle_stanza
  end.

(** [session] is the record the registry holds under its sid. *)
Definition _accept_session (w : world) (session : prof_jingle_session_t) : outcome world :=
  let my_jid := connection_get_barejid E in
  let '(id, w) := create_stanza_id E w in
  let iq_stanza := xmpp_iq_new STANZA_TYPE_SET (Some id) in
  let iq_stanza := xmpp_stanza_set_attribute iq_stanza "to" (initiator session) in
  let jingle_stanza := _xmpp_jingle_new "session-accept" (jingle_sid session) in
  let jingle_stanza := xmpp_stanza_set_attribute jingle_stanza "responder" my_jid in
  jingle_stanza ← accept_loop (map_to_list (content_table session)) jingle_stanza;
  let iq_stanza := xmpp_stanza_add_child iq_stanza jingle_stanza in
  let w := iq_send_stanza w iq_stanza in
  let session :=
    {| jingle_sid := jingle_sid session; initiator := initiator session;
       session_state := PROF_JINGLE_STATE_ACCEPTED;
       content_table := content_table session |} in
  Done (set_jingle_sessions w (<[jingle_sid session := session]> (jingle_sessions w))).

Definition _handle_session_init (w : world) (stanza : xmpp_stanza_t) : outcome world :=
  let from := xmpp_stanza_get_from stanza in
  match xmpp_stanza_get_child_by_name_and_ns stanza "jingle" STANZA_NS_JINGLE with
  | None => Segfault
  | Some jingle =>
  match xmpp_stanza_get_attribute jingle "sid" with
  | None => Done w
  | Some sid =>
  match xmpp_stanza_get_attribute jingle "initiator" with
  | None => Done w
  | Some initiator =>
  if negb (bool_decide (Some initiator = from)) then Done w else
  let content_stanza := xmpp_stanza_get_children jingle in
  let w := _send_ack w (xmpp_stanza_get_id stanza) initiator in
  let session :=
    {| jingle_sid := sid; initiator := initiator;
       session_state := PROF_JINGLE_STATE_INITIATED; content_table := ∅ |} in
  let w := set_jingle_sessions w (<[sid := session]> (jingle_sessions w)) in
  match content_stanza with
  | [] => Done (_terminate_session w session "cancel")
  | _ =>
      contents ← content_loop content_stanza (content_table session);
      let session :=
        {| jingle_sid := sid; initiator := initiator;
           session_state := PROF_JINGLE_STATE_INITIATED; content_table := contents |} in
      let w := set_jingle_sessions w (<[sid := session]> (jingle_sessions w)) in
      _accept_session w session
  end
  end end end.

Definition _handle_terminate_session (stanza : xmpp_stanza_t) : bool := true.

Definition handle_jingle_iq (w : world) (stanza : xmpp_stanza_t) : outcome (bool * world) :=
  match xmpp_stanza_get_child_by_name_and_ns stanza "jingle" STANZA_NS_JINGLE with
  | None => Done (false, w)
  | Some jingle =>
  match xmpp_stanza_get_attribute jingle "action" with
  | None => Done (false, w)
  | Some action =>
      if String.eqb action "session-initiate" then
        w ← _handle_session_init w stanza; Done (true, w)
      else if String.eqb action "session-terminate" then
        let _ := _handle_terminate_session stanza in Done (true, w)
      else Done (true, w)
  end end.

End Jingle.
End Jingle.

(** ** ibb.c *)

Module Ibb.
Section Ibb.
Import Strophe.
Context (E : Env).

Definition _send_ack (w : world) (id target : option string) : world :=
  match id, target with
  | Some id, Some target =>
      let iq := xmpp_iq_new STANZA_TYPE_RESULT (Some id) in
      iq_send_stanza w (xmpp_stanza_set_to iq target)
  | _, _ => w
  end.

(** The error type and name are literals at every call. *)
Definition _send_error (w : world) (id target : option string)
    (error_type error_name : string) : world :=
  match id, target with
  | Some id, Some target =>
      let iq := xmpp_iq_new STANZA_TYPE_ERROR (Some id) in
      let iq := xmpp_stanza_set_to iq target in
      let error := xmpp_stanza_set_type (xmpp_stanza_new STANZA_NAME_ERROR) error_type in
      let error_child := xmpp_stanza_set_ns (xmpp_stanza_new error_name) XMPP_NS_STANZAS_IETF in
      let error := xmpp_stanza_add_child error error_child in
      iq_send_stanza w (xmpp_stanza_add_child iq error)
  | _, _ => w
  end.

Definition fclose (f : FILE) : FILE := {| written := written f; closed := true |}.

(** The value destructor of [ibb_sessions]. *)
Definition _ibb_session_destroy (w : world) (session : ibb_session_t) : world :=
  match stream session with
  | Some handle => set_files w (alter fclose handle (files w))
  | None => w
  end.

(** [g_hash_table_remove(ibb_sessions, sid)]. *)
Definition remove_session (w : world) (sid : string) (session : ibb_session_t) : world :=
  _ibb_session_destroy (set_ibb_sessions w (delete sid (ibb_sessions w))) session.

Definition _send_close (w : world) (id target sid : option string) : outcome world :=
  match id, target, sid with
  | Some id, Some target, Some sid =>
      let iq := xmpp_iq_new STANZA_TYPE_SET (Some id) in
      let iq := xmpp_stanza_set_to iq target in
      let close_stanza := xmpp_stanza_new "close" in
      let close_stanza := xmpp_stanza_set_ns close_stanza STANZA_NS_IBB in
      let close_stanza := xmpp_stanza_set_attribute close_stanza "sid" sid in
      let w := iq_send_stanza w (xmpp_stanza_add_child iq close_stanza) in
      match ibb_sessions w !! sid with
      | None => Done w
      | Some session =>
          let w := remove_session w sid session in
          Jingle.set_content_state_by_transport_id E w sid
            PROF_JINGLE_STATE_TRANSFER_FINISHED
      end
  | _, _, _ => Done w
  end.

Definition _convert_str_to_uint16 (str : string) : option Z :=
  let r := Libc.strtol str in
  if Libc.erange r || negb (String.eqb (Libc.endptr r) EmptyString) then None
  else if (Libc.value r <? 0) || (Libc.value r >? 65535) then None
  else Some (Libc.value r).

(** [g_hash_table_contains] hashes its key: a [NULL] sid is a fault. *)
Definition _on_bytestream_open (w : world) (stanza : xmpp_stanza_t) : outcome world :=
  match xmpp_stanza_get_child_by_ns stanza STANZA_NS_IBB with
  | None => Segfault
  | Some ibb_stanza =>
  let id := xmpp_stanza_get_id stanza in
  let from := xmpp_stanza_get_from stanza in
  match xmpp_stanza_get_attribute ibb_stanza "sid" with
  | None => Segfault
  | Some sid =>
  if bool_decide (is_Some (ibb_sessions w !! sid)) then
    Done (_send_error w id from "cancel" "not-acceptable")
  else
  let stanza_block_size := xmpp_stanza_get_attribute ibb_stanza "block-size" in
  match Jingle.get_content_by_transport_id w sid with
  | None => Done (_send_error w id from "cancel" "not-acceptable")
  | Some content =>
  match transport_type (content_transport content) with
  | PROF_JINGLE_TRANSPORT_TYPE_SOCKS5 =>
      Done (_send_error w id from "cancel" "not-acceptable")
  | PROF_JINGLE_TRANSPORT_TYPE_INBANDBYTESTREAM =>
  let content_block_size := Libc.sprintf_u (blocksize (content_transport content)) in
  if negb (bool_decide (Some content_block_size = stanza_block_size)) then
    Done (_send_error w id from "modify" "resource-constraint")
  else
  let session :=
    {| file := description (content_description content); seq := 0; stream := None |} in
  let w := set_ibb_sessions w (<[sid := session]> (ibb_sessions w)) in
  Done (_send_ack w id from)
  end end end end.

(** An assignment to a field of the session the table holds under [sid]. *)
Definition store (w : world) (sid : string) (session : ibb_session_t) : world :=
  set_ibb_sessions w (<[sid := session]> (ibb_sessions w)).

Definition fprintf (data : list byte) (f : FILE) : FILE :=
  {| written := written f ++ Libc.sprintf_precision_s data; closed := closed f |}.

(** [ftell] on a stream that was opened empty and only written to. *)
Definition ftell (w : world) (handle : nat) : Z :=
  match files w !! handle with
  | Some f => Z.of_nat (length (written f))
  | None => -1
  end.

(** [_on_bytestream_data] from the test of [session->stream] on. *)
Definition write_data (w : world) (id from : option string) (sid : string)
    (session : ibb_session_t) (data : list byte) : outcome world :=
  match stream session with
  | None => _send_close w id from (Some sid)
  | Some handle =>
  match string_to_ul E (file_size (file session)) with
  | None => _send_close w id from (Some sid)
  | Some file_size =>
  let w := set_files w (alter (fprintf data) handle (files w)) in
  let pos := ftell w handle in
  let w := _send_ack w id from in
  if Libc.to_ulong pos >=? file_size then _send_close w id from (Some sid) else Done w
  end end.

Definition _on_bytestream_data (w : world) (stanza : xmpp_stanza_t) : outcome world :=
  let id := xmpp_stanza_get_id stanza in
  let from := xmpp_stanza_get_from stanza in
  match xmpp_stanza_get_child_by_name_and_ns stanza "data" XMPP_FEATURE_IBB with
  | None => Done w
  | Some data_stanza =>
  match xmpp_stanza_get_attribute data_stanza "sid" with
  | None => Done w
  | Some sid =>
  match xmpp_stanza_get_attribute data_stanza "seq" ≫= _convert_str_to_uint16 with
  | None => Done w
  | Some seq_ =>
  let raw_data := xmpp_stanza_get_text data_stanza in
  match g_base64_decode E <$> raw_data with
  | None => Done (_send_error w id from "cancel" "bad-request")
  | Some data =>
  match ibb_sessions w !! sid with
  | None => Done (_send_error w id from "cancel" "item-not-found")
  | Some session =>
  if seq_ =? 0 then
    if negb (seq session =? 0) then _send_close w id from (Some sid)
    else if fopen_download E (file_name (file session)) then
      let handle := length (files w) in
      let w := set_files w (files w ++ [{| written := []; closed := false |}]) in
      let session :=
        {| file := file session; seq := seq session; stream := Some handle |} in
      write_data (store w sid session) id from sid session data
    else
      let session := {| file := file session; seq := seq session; stream := None |} in
      _send_close (store w sid session) id from (Some sid)
  else if negb (seq session + 1 =? seq_) then _send_close w id from (Some sid)
  else
    let session :=
      {| file := file session; seq := (seq session + 1) mod 65536;
         stream := stream session |} in
    write_data (store w sid session) id from sid session data
  end end end end end.

Definition _on_bytestream_close (w : world) (stanza : xmpp_stanza_t) : outcome world :=
  let id := xmpp_stanza_get_id stanza in
  let from := xmpp_stanza_get_from stanza in
  match xmpp_stanza_get_child_by_name stanza "close" with
  | None => Segfault
  | Some close_stanza =>
  match xmpp_stanza_get_attribute close_stanza "sid" with
  | None => Done (_send_error w id from "cancel" "item-not-found")
  | Some sid =>
  match ibb_sessions w !! sid with
  | None => Done (_send_error w id from "cancel" "item-not-found")
  | Some session =>
      let w := remove_session w sid session in
      w ← Jingle.set_content_state_by_transport_id E w sid
             PROF_JINGLE_STATE_TRANSFER_FINISHED;
      Done (_send_ack w id from)
  end end end.

Definition handle_ibb (w : world) (stanza : xmpp_stanza_t) : outcome world :=
  match xmpp_stanza_get_child_by_ns stanza STANZA_NS_IBB with
  | None => Done w
  | Some ibb_stanza =>
  match xmpp_stanza_get_name ibb_stanza with
  | None => Done w
  | Some tag_name =>
      if String.eqb tag_name "open" then _on_bytestream_open w stanza
      else if String.eqb tag_name "data" then _on_bytestream_data w stanza
      else if String.eqb tag_name "close" then _on_bytestream_close w stanza
      else Done w
  end end.

End Ibb.
End Ibb.

(** ** An environment to run the handlers in *)

Module Glib.

(** The rank of a character in the base64 alphabet; ['='] ranks 0 and a
    character outside the alphabet has none. *)
Definition mime_base64_rank (c : ascii) : option Z :=
  let n := Z.of_N (N_of_ascii c) in
  if (65 <=? n) && (n <=? 90) then Some (n - 65)
  else if (97 <=? n) && (n <=? 122) then Some (n - 71)
  else if (48 <=? n) && (n <=? 57) then Some (n + 4)
  else if n =? 43 then Some 62
  else if n =? 47 then Some 63
  else if n =? 61 then Some 0
  else None.

Definition guchar (v : Z) : byte := default x00 (Byte.of_N (Z.to_N (v mod 256))).

(** [g_base64_decode_step]: a character without a rank is skipped; every
    fourth ranked character yields up to three bytes, fewer after ['=']. *)
Fixpoint g_base64_decode_step (text : string) (v : Z) (i : nat) (last1 last0 : ascii)
  : list byte :=
  match text with
  | EmptyString => []
  | String c text =>
      match mime_base64_rank c with
      | None => g_base64_decode_step text v i last1 last0
      | Some rank =>
          let v := Z.lor (Z.shiftl v 6) rank mod 2 ^ 32 in
          match i with
          | 3%nat =>
              (guchar (Z.shiftr v 16)
               :: (if Ascii.eqb last0 "=" then [] else [guchar (Z.shiftr v 8)])
               ++ (if Ascii.eqb c "=" then [] else [guchar v]))
              ++ g_base64_decode_step text v 0 last0 c
          | _ => g_base64_decode_step text v (S i) last0 c
          end
      end
  end.

Definition g_base64_decode (text : string) : list byte :=
  g_base64_decode_step text 0 0 zero zero.

End Glib.

(** A decimal numeral without sign, or nothing. *)
Definition decimal_to_ul (str : option string) : option Z :=
  match str with
  | None => None
  | Some str =>
      if Libc.starts_with_digit str then
        let '(v, rest) := Libc.digits 0 str in
        if String.eqb rest EmptyString && (v <? 2 ^ 64) then Some v else None
      else None
  end.

Definition juliet : Env :=
  {| g_base64_decode := Glib.g_base64_decode;
     string_to_ul := decimal_to_ul;
     fopen_download := fun _ => true;
     connection_get_barejid := "juliet@capulet.com";
     connection_create_stanza_id := fun n => String.append "prof_" (Libc.sprintf_u (Z.of_nat n));
     indeterminate_state := PROF_JINGLE_STATE_INITIATED |}.

Definition boot : world :=
  {| jingle_sessions := ∅; ibb_sessions := ∅; outbox := []; files := []; stanza_ids := 0 |}.

(** ** Stanzas a peer sends *)

Module Peer.

Definition romeo : string := "romeo@montague.net/orchard".

Definition text_element (name text : string) : xmpp_stanza_t :=
  XMPP_STANZA_TAG name [] [XMPP_STANZA_TEXT text].

Definition file_element (name size : string) : xmpp_stanza_t :=
  XMPP_STANZA_TAG "file" []
    [text_element "media-type" "application/octet-stream";
     text_element "date" "2023-07-01T10:00:00Z";
     text_element "name" name;
     text_element "size" size].

Definition content (name creator transport_ns sid block_size file size : string)
  : xmpp_stanza_t :=
  XMPP_STANZA_TAG "content"
    [("creator", creator); ("senders", "initiator"); ("name", name)]
    [XMPP_STANZA_TAG "description" [("xmlns", STANZA_NS_JINGLE_FT5)]
       [file_element file size];
     XMPP_STANZA_TAG "transport"
       [("xmlns", transport_ns); ("block-size", block_size); ("sid", sid)] []].

Definition jingle_iq (id action sid : string) (children : list xmpp_stanza_t)
  : xmpp_stanza_t :=
  XMPP_STANZA_TAG "iq" [("from", romeo); ("id", id); ("type", "set")]
    [XMPP_STANZA_TAG "jingle"
       [("xmlns", STANZA_NS_JINGLE); ("action", action); ("initiator", romeo); ("sid", sid)]
       children].

Definition open (id sid block_size : string) : xmpp_stanza_t :=
  XMPP_STANZA_TAG "iq" [("from", romeo); ("id", id); ("type", "set")]
    [XMPP_STANZA_TAG "open"
       [("xmlns", STANZA_NS_IBB); ("block-size", block_size); ("sid", sid); ("stanza", "iq")]
       []].

Definition data (id sid seq text : string) : xmpp_stanza_t :=
  XMPP_STANZA_TAG "iq" [("from", romeo); ("id", id); ("type", "set")]
    [XMPP_STANZA_TAG "data" [("xmlns", STANZA_NS_IBB); ("seq", seq); ("sid", sid)]
       [XMPP_STANZA_TEXT text]].

(** A file offer over IBB: one content named ["a"], transport sid ["t1"],
    block size 4096. *)
Definition offer (file size : string) : xmpp_stanza_t :=
  jingle_iq "i1" "session-initiate" "s1"
    [content "a" "initiator" STANZA_NS_JINGLE_TRANSPORTS_IBB "t1" "4096" file size].

End Peer.

(** Running a handler on what the handler before it left. *)
Definition and_then (o : outcome world) (handler : world -> xmpp_stanza_t -> outcome world)
    (stanza : xmpp_stanza_t) : outcome world :=
  w ← o; handler w stanza.

#[export] Instance outcome_fmap : FMap outcome := fun A B f m =>
  match m with
  | Done a => Done (f a)
  | Segfault => Segfault
  | Hang => Hang
  end.

(** [handle_jingle_iq], for the state it leaves. *)
Definition on_jingle_iq (E : Env) (w : world) (stanza : xmpp_stanza_t) : outcome world :=
  snd <$> Jingle.handle_jingle_iq E w stanza.

(** ** The envelopes of section 4.4 of the specification *)

Definition ack_iq (id to : string) : xmpp_stanza_t :=
  XMPP_STANZA_TAG "iq" [("type", "result"); ("id", id); ("to", to)] [].

Definition error_iq (id to type condition : string) : xmpp_stanza_t :=
  XMPP_STANZA_TAG "iq" [("type", "error"); ("id", id); ("to", to)]
    [XMPP_STANZA_TAG "error" [("type", type)]
       [XMPP_STANZA_TAG condition [("xmlns", XMPP_NS_STANZAS_IETF)] []]].

Definition close_iq (id to sid : string) : xmpp_stanza_t :=
  XMPP_STANZA_TAG "iq" [("type", "set"); ("id", id); ("to", to)]
    [XMPP_STANZA_TAG "close" [("xmlns", STANZA_NS_IBB); ("sid", sid)] []].

(** The action of the jingle element an envelope carries. *)
Definition jingle_action (iq : xmpp_stanza_t) : option string :=
  jingle ← Strophe.xmpp_stanza_get_child_by_name_and_ns iq "jingle" STANZA_NS_JINGLE;
  Strophe.xmpp_stanza_get_attribute jingle "action".

(** The children of the jingle element an envelope carries. *)
Definition jingle_children (iq : xmpp_stanza_t) : list xmpp_stanza_t :=
  match Strophe.xmpp_stanza_get_child_by_name_and_ns iq "jingle" STANZA_NS_JINGLE with
  | Some jingle => Strophe.xmpp_stanza_get_children jingle
  | None => []
  end.

(** ** Worlds the scenarios start from *)

Ltac evaluate := vm_compute; reflexivity.

(** The state a handler left, for a handler that returned. *)
Definition left_by (o : outcome world) : world :=
  match o with
  | Done w => w
  | _ => boot
  end.

(** Juliet has handled the offer of [kitten.jpg], 8192 bytes. *)
Definition offered : world :=
  left_by (on_jingle_iq juliet boot (Peer.offer "kitten.jpg" "8192")).

(** Romeo has then opened the bytestream ["t1"]. *)
Definition opened : world :=
  left_by (Ibb.handle_ibb juliet offered (Peer.open "o1" "t1" "4096")).

(** The first block, [ABC], has then arrived. *)
Definition receiving : world :=
  left_by (Ibb.handle_ibb juliet opened (Peer.data "d0" "t1" "0" "QUJD")).

(** ** What the content loop is compared with *)

(** The content a child of the jingle element is parsed to, when the turn
    of the loop that examines it inserts one. *)
Definition parsed (stanza : xmpp_stanza_t) : option prof_jingle_content_t :=
  match Jingle.content_iteration stanza with
  | Jingle.Next inserted => inserted
  | _ => None
  end.

(** The last of the children that is parsed to a content of this name. *)
Fixpoint last_offer (name : string) (children : list xmpp_stanza_t)
  : option prof_jingle_content_t :=
  match children with
  | [] => None
  | stanza :: next =>
      match last_offer name next with
      | Some content => Some content
      | None =>
          match parsed stanza with
          | Some content =>
              if String.eqb (content_name content) name then Some content else None
          | None => None
          end
      end
  end.

(** ** A transfer of more than 65536 blocks *)

(** The offer of scenario 1 for a file of a million bytes; the bytestream
    is opened and the first block, [ABC], has arrived. *)
Definition big_offered : world :=
  left_by (on_jingle_iq juliet boot (Peer.offer "film.mkv" "1000000")).
Definition big_opened : world :=
  left_by (Ibb.handle_ibb juliet big_offered (Peer.open "o1" "t1" "4096")).
Definition big_receiving : world :=
  left_by (Ibb.handle_ibb juliet big_opened (Peer.data "d0" "t1" "0" "QUJD")).

(** The blocks with the sequence numbers 1 to [n], three bytes each. *)
Fixpoint blocks (n : nat) (w : world) : outcome world :=
  match n with
  | O => Done w
  | S m =>
      w ← blocks m w;
      Ibb.handle_ibb juliet w (Peer.data "d" "t1" (Libc.sprintf_u (Z.of_nat (S m))) "QUJD")
  end.

Definition film : prof_jingle_file_info_t :=
  {| file_type := Some "application/octet-stream";
     file_date := Some "2023-07-01T10:00:00Z";
     file_name := Some "film.mkv";
     file_size := Some "1000000";
     file_hash := None |}.

(** The transfer ["t1"] has taken the blocks 0 to [n]. *)
Definition in_sequence (n : Z) (w : world) : Prop :=
  jingle_sessions w = jingle_sessions big_receiving /\
  ibb_sessions w !! "t1" = Some {| file := film; seq := n; stream := Some 0%nat |} /\
  exists f, files w !! 0%nat = Some f /\ Z.of_nat (length (written f)) = 3 * (n + 1).

(** ** The stanzas of the scenarios *)

Definition kitten : prof_jingle_file_info_t :=
  {| file_type := Some "application/octet-stream";
     file_date := Some "2023-07-01T10:00:00Z";
     file_name := Some "kitten.jpg";
     file_size := Some "8192";
     file_hash := None |}.

(** A session-terminate for the session of scenario 1. *)
Definition terminate_s1 : xmpp_stanza_t :=
  Peer.jingle_iq "x1" "session-terminate" "s1"
    [XMPP_STANZA_TAG "reason" [] [XMPP_STANZA_TAG "success" [] []]].

(** Two contents named ["a"], the first over the bytestream ["t1"] and the
    second over ["t2"]. *)
Definition first_a : xmpp_stanza_t :=
  Peer.content "a" "initiator" STANZA_NS_JINGLE_TRANSPORTS_IBB "t1" "4096" "one.txt" "10".
Definition second_a : xmpp_stanza_t :=
  Peer.content "a" "initiator" STANZA_NS_JINGLE_TRANSPORTS_IBB "t2" "4096" "two.txt" "20".

(** A second offer under the sid of the first. *)
Definition second_offer : xmpp_stanza_t :=
  Peer.jingle_iq "i2" "session-initiate" "s1"
    [Peer.content "b" "initiator" STANZA_NS_JINGLE_TRANSPORTS_IBB "t2" "4096" "puppy.jpg" "100"].

(** An offer whose one content names a SOCKS5 bytestream as its transport. *)
Definition socks5_offer : xmpp_stanza_t :=
  Peer.jingle_iq "i1" "session-initiate" "s1"
    [Peer.content "a" "initiator" STANZA_NS_JINGLE_TRANSPORTS_S5B "t1" "4096"
       "kitten.jpg" "8192"].

(** The offer of scenario 1 with a content whose creator is the responder. *)
Definition responder_offer : xmpp_stanza_t :=
  Peer.jingle_iq "i1" "session-initiate" "s1"
    [Peer.content "a" "responder" STANZA_NS_JINGLE_TRANSPORTS_IBB "t1" "4096"
       "kitten.jpg" "8192"].

(** ** Reading a session-accept back *)

(** A text that [xmpp_stanza_get_text] can have returned. *)
Definition some_text (field : option string) : Prop :=
  exists text, field = Some text /\ text <> EmptyString.

(** The content as it is read back from the session-accept. *)
Definition read_back (content : prof_jingle_content_t) : prof_jingle_content_t :=
  {| content_name := content_name content;
     content_creator := PROF_JINGLE_CREATOR_INITIATOR;
     content_senders := content_senders content;
     content_description := content_description content;
     content_transport := content_transport content;
     content_state := None |}.

(** A content [_accept_session] can write an element for and the loop of
    [_handle_session_init] can read: a file transfer over IBB whose texts
    are there and whose block size is a [uint]. *)
Definition acceptable (content : prof_jingle_content_t) : Prop :=
  let file_info := description (content_description content) in
  description_type (content_description content) = PROF_JINGLE_DESCRIPTION_TYPE_FILETRANSFER /\
  transport_type (content_transport content) = PROF_JINGLE_TRANSPORT_TYPE_INBANDBYTESTREAM /\
  0 <= blocksize (content_transport content) < 2 ^ 32 /\
  some_text (file_name file_info) /\ some_text (file_type file_info) /\
  some_text (file_date file_info) /\ some_text (file_size file_info) /\
  (file_hash file_info = None \/ some_text (file_hash file_info)).


(** ** What the further properties speak of *)

(** A session of the registry holds, under some name, this content, whose
    transport has this sid. *)
Definition holds_transport (w : world) (key : string) (session : prof_jingle_session_t)
    (content : prof_jingle_content_t) (transport_id : string) : Prop :=
  jingle_sessions w !! key = Some session /\
  (exists name, content_table session !! name = Some content) /\
  transport_sid (content_transport content) = transport_id.

(** The contents of a session once those carried by a transport are
    marked. *)
Definition marked (transport_id : string) (state : prof_jingle_state_t)
    (session : prof_jingle_session_t) : prof_jingle_session_t :=
  {| jingle_sid := jingle_sid session; initiator := initiator session;
     session_state := session_state session;
     content_table := Jingle.set_state transport_id state <$> content_table session |}.

(** The content and the session of scenario 1 as the registry holds them. *)
Definition kitten_content : prof_jingle_content_t :=
  {| content_name := "a";
     content_creator := PROF_JINGLE_CREATOR_INITIATOR;
     content_senders := PROF_JINGLE_SENDERS_INITIATOR;
     content_description :=
       {| description_type := PROF_JINGLE_DESCRIPTION_TYPE_FILETRANSFER;
          description := kitten |};
     content_transport :=
       {| transport_type := PROF_JINGLE_TRANSPORT_TYPE_INBANDBYTESTREAM;
          transport_sid := "t1"; blocksize := 4096 |};
     content_state := None |}.

Definition kitten_session : prof_jingle_session_t :=
  {| jingle_sid := "s1"; initiator := Peer.romeo;
     session_state := PROF_JINGLE_STATE_ACCEPTED;
     content_table := {["a" := kitten_content]} |}.

(** A close for the bytestream ["t1"]. *)
Definition close_t1 : xmpp_stanza_t :=
  XMPP_STANZA_TAG "iq" [("from", Peer.romeo); ("id", "c1"); ("type", "set")]
    [XMPP_STANZA_TAG "close" [("xmlns", STANZA_NS_IBB); ("sid", "t1")] []].

(** The bytestream ["t1"] is open and its session has been displaced by
    the second offer, which does not offer ["t1"]. *)
Definition orphaned : world :=
  left_by (Jingle._handle_session_init juliet opened second_offer).


Definition note_opened : world :=
  left_by (Ibb.handle_ibb juliet
             (left_by (on_jingle_iq juliet boot (Peer.offer "note.txt" "6")))
             (Peer.open "o1" "t1" "4096")).

Definition note_receiving : world :=
  left_by (Ibb.handle_ibb juliet note_opened (Peer.data "d0" "t1" "0" "QUJD")).





Definition sizeless_opened : world :=
  left_by (Ibb.handle_ibb juliet
             (left_by (on_jingle_iq juliet boot (Peer.offer "kitten.jpg" "lots")))
             (Peer.open "o1" "t1" "4096")).

(** Every stream a registered transfer holds is in the store and open, and
    no two transfers hold the same stream. *)
Definition owned (transfers : gmap string ibb_session_t) (streams : list FILE) : Prop :=
  (forall sid session handle,
     transfers !! sid = Some session -> stream session = Some handle ->
     exists f, streams !! handle = Some f /\ closed f = false) /\
  (forall sid1 sid2 session1 session2 handle,
     transfers !! sid1 = Some session1 -> transfers !! sid2 = Some session2 ->
     stream session1 = Some handle -> stream session2 = Some handle -> sid1 = sid2).

Definition streams_owned (w : world) : Prop := owned (ibb_sessions w) (files w).

(** ** What the registry of sessions holds *)

(** A content as the loop of [_handle_session_init] stores it: under its
    name, a file transfer over an in-band bytestream, whose creator is
    known. *)
Definition file_over_ibb (name : string) (content : prof_jingle_content_t) : Prop :=
  content_name content = name /\
  description_type (content_description content) = PROF_JINGLE_DESCRIPTION_TYPE_FILETRANSFER /\
  transport_type (content_transport content) = PROF_JINGLE_TRANSPORT_TYPE_INBANDBYTESTREAM /\
  content_creator content <> PROF_JINGLE_CREATOR_UNKNOWN.

(** A session as the registry holds it between two stanzas: under its own
    sid, accepted, with such contents. *)
Definition session_accepted (key : string) (session : prof_jingle_session_t) : Prop :=
  jingle_sid session = key /\
  session_state session = PROF_JINGLE_STATE_ACCEPTED /\
  map_Forall file_over_ibb (content_table session).

Definition sessions_accepted (w : world) : Prop :=
  map_Forall session_accepted (jingle_sessions w).

(** The registry of sessions is as it was, or as one call of
    [set_content_state_by_transport_id] with [TRANSFER_FINISHED] left it. *)
Definition marks_at_most (E : Env) (w w' : world) : Prop :=
  jingle_sessions w' = jingle_sessions w \/
  exists w1 w2 transport_id,
    jingle_sessions w1 = jingle_sessions w /\
    Jingle.set_content_state_by_transport_id E w1 transport_id
      PROF_JINGLE_STATE_TRANSFER_FINISHED = Done w2 /\
    jingle_sessions w' = jingle_sessions w2.

(** Romeo offers a file in the name of Tybalt. *)
Definition forged_offer : xmpp_stanza_t :=
  XMPP_STANZA_TAG "iq" [("from", Peer.romeo); ("id", "i1"); ("type", "set")]
    [XMPP_STANZA_TAG "jingle"
       [("xmlns", STANZA_NS_JINGLE); ("action", "session-initiate");
        ("initiator", "tybalt@capulet.net/yard"); ("sid", "s1")]
       [Peer.content "a" "initiator" STANZA_NS_JINGLE_TRANSPORTS_IBB "t1" "4096"
          "kitten.jpg" "8192"]].

(** An offer whose second content has no description. *)
Definition bare_content : xmpp_stanza_t :=
  XMPP_STANZA_TAG "content" [("creator", "initiator"); ("name", "b")]
    [XMPP_STANZA_TAG "transport"
       [("xmlns", STANZA_NS_JINGLE_TRANSPORTS_IBB); ("block-size", "4096"); ("sid", "t2")] []].

Definition stalling_offer : xmpp_stanza_t :=
  Peer.jingle_iq "i1" "session-initiate" "s1"
    [Peer.content "a" "initiator" STANZA_NS_JINGLE_TRANSPORTS_IBB "t1" "4096"
       "kitten.jpg" "8192";
     bare_content].

(** The four texts of a file that [_accept_session] writes whether or not
    they are there. *)
Definition file_texts (content : prof_jingle_content_t) : bool :=
  let file_info := description (content_description content) in
  match file_name file_info, file_type file_info, file_date file_info, file_size file_info with
  | Some _, Some _, Some _, Some _ => true
  | _, _, _, _ => false
  end.

(** The offer of scenario 1 without the date of the file. *)
Definition undated_offer : xmpp_stanza_t :=
  Peer.jingle_iq "i1" "session-initiate" "s1"
    [XMPP_STANZA_TAG "content"
       [("creator", "initiator"); ("senders", "initiator"); ("name", "a")]
       [XMPP_STANZA_TAG "description" [("xmlns", STANZA_NS_JINGLE_FT5)]
          [XMPP_STANZA_TAG "file" []
             [Peer.text_element "media-type" "application/octet-stream";
              Peer.text_element "name" "kitten.jpg";
              Peer.text_element "size" "8192"]];
        XMPP_STANZA_TAG "transport"
          [("xmlns", STANZA_NS_JINGLE_TRANSPORTS_IBB); ("block-size", "4096"); ("sid", "t1")]
          []]].

Definition undated_content : prof_jingle_content_t :=
  {| content_name := "a";
     content_creator := PROF_JINGLE_CREATOR_INITIATOR;
     content_senders := PROF_JINGLE_SENDERS_INITIATOR;
     content_description :=
       {| description_type := PROF_JINGLE_DESCRIPTION_TYPE_FILETRANSFER;
          description :=
            {| file_type := Some "application/octet-stream";
               file_date := None;
               file_name := Some "kitten.jpg";
               file_size := Some "8192";
               file_hash := None |} |};
     content_transport :=
       {| transport_type := PROF_JINGLE_TRANSPORT_TYPE_INBANDBYTESTREAM;
          transport_sid := "t1"; blocksize := 4096 |};
     content_state := None |}.

(** ** Streams that no transfer holds *)

(** The stream is in the store as [f] and no registered transfer holds
    it. *)
Definition unheld (handle : nat) (f : FILE) (w : world) : Prop :=
  files w !! handle = Some f /\
  forall sid session, ibb_sessions w !! sid = Some session -> stream session <> Some handle.

(** A second block 0, [DEF], has arrived after the first. *)
Definition reopened : world :=
  left_by (Ibb.handle_ibb juliet receiving (Peer.data "d1" "t1" "0" "REVG")).
(** * Properties *)

(** ** Decimal numerals and the text [printf] writes *)

Section Decimal.
Import Libc.

(** The ten digit characters are digits, and neither white space nor a
    sign. *)
Lemma digit_char_spec (d : Z) :
  0 <= d < 10 ->
  isdigit (digit_char d) = true /\ digit_value (digit_char d) = d /\
  isspace (digit_char d) = false /\
  Ascii.eqb (digit_char d) "-" = false /\ Ascii.eqb (digit_char d) "+" = false.
Proof.
  intros Hd.
  assert (d = 0 \/ d = 1 \/ d = 2 \/ d = 3 \/ d = 4 \/ d = 5 \/ d = 6 \/ d = 7
          \/ d = 8 \/ d = 9) as Hc by lia.
  repeat (destruct Hc as [-> | Hc]); try subst d; repeat split; reflexivity.
Qed.

(** Reading the numeral [utoa] writes onto [acc] shifts the value read so
    far and adds [n]. *)
Lemma digits_utoa (fuel : nat) : forall (n : Z) (acc : string) (a : Z),
  0 <= n < 10 ^ Z.of_nat fuel ->
  exists k, 0 <= k /\ digits a (utoa fuel n acc) = digits (a * 10 ^ k + n) acc.
Proof.
  induction fuel as [|fuel IH]; intros n acc a Hn.
  - exists 0. split; [lia|]. simpl in *. f_equal. lia.
  - cbn [utoa].
    assert (Hm : 0 <= n mod 10 < 10) by (apply Z.mod_pos_bound; lia).
    destruct (digit_char_spec _ Hm) as (Hdig & Hval & _).
    destruct (Z.eqb_spec (n / 10) 0) as [Hq | Hq].
    + exists 1. split; [lia|]. cbn [digits]. rewrite Hdig, Hval. f_equal.
      pose proof (Z.div_mod n 10). lia.
    + destruct (IH (n / 10) (String (digit_char (n mod 10)) acc) a) as (k & Hk & Heq).
      { rewrite Nat2Z.inj_succ, Z.pow_succ_r in Hn by lia.
        split; [apply Z.div_pos; lia | apply Z.div_lt_upper_bound; lia]. }
      exists (k + 1). split; [lia|]. rewrite Heq. cbn [digits]. rewrite Hdig, Hval.
      f_equal. rewrite Z.pow_add_r by lia. pose proof (Z.div_mod n 10). lia.
Qed.

(** A numeral starts with a digit. *)
Lemma utoa_head (fuel : nat) : forall (n : Z) (acc : string),
  exists d r, 0 <= d < 10 /\ utoa (S fuel) n acc = String (digit_char d) r.
Proof.
  induction fuel as [|fuel IH]; intros n acc.
  - exists (n mod 10), acc. split; [apply Z.mod_pos_bound; lia|].
    cbn [utoa]. destruct (n / 10 =? 0); reflexivity.
  - remember (S fuel) as f. cbn [utoa]. destruct (n / 10 =? 0).
    + exists (n mod 10), acc. split; [apply Z.mod_pos_bound; lia | reflexivity].
    + subst f. apply IH.
Qed.

(** [strtol] reads what ["%u"] writes back in full, to the same value. *)
Lemma strtol_sprintf_u (n : Z) :
  0 <= n < 2 ^ 32 ->
  strtol (sprintf_u n) = {| value := n; endptr := EmptyString; erange := false |}.
Proof.
  intros Hn. unfold sprintf_u.
  destruct (utoa_head 9 n EmptyString) as (d & r & Hd & Hhead).
  destruct (digit_char_spec d Hd) as (Hdig & _ & Hsp & Hminus & Hplus).
  destruct (digits_utoa 10 n EmptyString 0) as (k & Hk & Hdigits); [simpl; lia|].
  unfold strtol. rewrite Hhead. cbn [skip_space]. rewrite Hsp, Hminus, Hplus.
  cbn [starts_with_digit]. rewrite Hdig. rewrite <- Hhead, Hdigits.
  cbn [digits]. replace (0 * 10 ^ k + n) with n by lia.
  unfold LONG_MAX, LONG_MIN.
  destruct (Z.gtb_spec n (2 ^ 63 - 1)); [lia|].
  destruct (Z.ltb_spec n (- 2 ^ 63)); [lia|]. reflexivity.
Qed.

(** ["%.*s"] writes at most the bytes it is given, and all of them when
    none is zero and their number fits an [int]. *)
Lemma until_nul_length (data : list byte) : (length (until_nul data) <= length data)%nat.
Proof.
  induction data as [|b r IH]; [reflexivity|]. cbn [until_nul].
  destruct (Byte.eqb b x00); simpl; lia.
Qed.

Lemma until_nul_id (data : list byte) : x00 ∉ data -> until_nul data = data.
Proof.
  induction data as [|b r IH]; intros Hn; [reflexivity|]. cbn [until_nul].
  destruct (Byte.eqb b x00) eqn:Hb.
  - apply Byte.byte_dec_bl in Hb. subst b. exfalso. apply Hn. left.
  - f_equal. apply IH. intros Hin. apply Hn. by right.
Qed.

Lemma sprintf_precision_s_length (data : list byte) :
  (length (sprintf_precision_s data) <= length data)%nat.
Proof.
  unfold sprintf_precision_s. destruct (_ <? 0).
  - apply until_nul_length.
  - etransitivity; [apply until_nul_length|]. rewrite length_take. lia.
Qed.

Lemma until_nul_cut (data : list byte) :
  x00 ∈ data -> (length (until_nul data) < length data)%nat.
Proof.
  induction data as [|b r IH]; intros Hin; [by apply elem_of_nil in Hin|].
  cbn [until_nul]. destruct (Byte.eqb b x00) eqn:Hb; [simpl; lia|].
  apply elem_of_cons in Hin as [Heq|Hin]; [subst b; discriminate Hb|].
  apply IH in Hin. simpl. lia.
Qed.

Lemma sprintf_precision_s_cut (data : list byte) :
  x00 ∈ data -> Z.of_nat (length data) < 2 ^ 31 ->
  (length (sprintf_precision_s data) < length data)%nat.
Proof.
  intros Hin Hlen. unfold sprintf_precision_s, to_int.
  rewrite Z.mod_small by lia.
  destruct (Z.ltb_spec (Z.of_nat (length data) + 2 ^ 31 - 2 ^ 31) 0); [lia|].
  replace (Z.of_nat (length data) + 2 ^ 31 - 2 ^ 31) with (Z.of_nat (length data)) by lia.
  rewrite Nat2Z.id, firstn_all. by apply until_nul_cut.
Qed.

Lemma sprintf_precision_s_id (data : list byte) :
  x00 ∉ data -> Z.of_nat (length data) < 2 ^ 31 -> sprintf_precision_s data = data.
Proof.
  intros Hn Hlen. unfold sprintf_precision_s, to_int.
  rewrite Z.mod_small by lia.
  destruct (Z.ltb_spec (Z.of_nat (length data) + 2 ^ 31 - 2 ^ 31) 0); [lia|].
  replace (Z.of_nat (length data) + 2 ^ 31 - 2 ^ 31) with (Z.of_nat (length data)) by lia.
  rewrite Nat2Z.id, firstn_all. by apply until_nul_id.
Qed.
End Decimal.

(** The block size a content is parsed to from the numeral of a [uint] is
    that [uint], and a sequence number is converted from its numeral. *)
Lemma atoi_sprintf_u (n : Z) :
  0 <= n < 2 ^ 32 -> Libc.to_uint (Libc.atoi (Libc.sprintf_u n)) = n.
Proof.
  intros Hn. unfold Libc.to_uint, Libc.atoi. rewrite strtol_sprintf_u by done.
  cbn [Libc.value]. rewrite Zminus_mod_idemp_l.
  replace (n + 2 ^ 31 - 2 ^ 31) with n by lia. apply Z.mod_small. lia.
Qed.

Lemma _convert_str_to_uint16_sprintf_u (n : Z) :
  0 <= n <= 65535 -> Ibb._convert_str_to_uint16 (Libc.sprintf_u n) = Some n.
Proof.
  intros Hn. unfold Ibb._convert_str_to_uint16. rewrite strtol_sprintf_u by lia.
  cbn [Libc.erange Libc.endptr Libc.value]. cbn [String.eqb negb orb].
  destruct (Z.ltb_spec n 0); [lia|]. destruct (Z.gtb_spec n 65535); [lia|]. reflexivity.
Qed.

(** ** The scenarios are what the handlers leave *)

Lemma offered_reached :
  on_jingle_iq juliet boot (Peer.offer "kitten.jpg" "8192") = Done offered.
Proof. evaluate. Qed.

Lemma opened_reached :
  Ibb.handle_ibb juliet offered (Peer.open "o1" "t1" "4096") = Done opened.
Proof. evaluate. Qed.

Lemma receiving_reached :
  Ibb.handle_ibb juliet opened (Peer.data "d0" "t1" "0" "QUJD") = Done receiving.
Proof. evaluate. Qed.

Lemma big_receiving_reached :
  on_jingle_iq juliet boot (Peer.offer "film.mkv" "1000000") = Done big_offered /\
  Ibb.handle_ibb juliet big_offered (Peer.open "o1" "t1" "4096") = Done big_opened /\
  Ibb.handle_ibb juliet big_opened (Peer.data "d0" "t1" "0" "QUJD") = Done big_receiving.
Proof. repeat split; evaluate. Qed.

(** A content the loop inserts has a block size in the range of [uint]. *)
Lemma parsed_blocksize_range (stanza : xmpp_stanza_t) (content : prof_jingle_content_t) :
  parsed stanza = Some content -> 0 <= blocksize (content_transport content) < 2 ^ 32.
Proof.
  unfold parsed, Jingle.content_iteration.
  destruct (Strophe.xmpp_stanza_get_name stanza) as [tag|]; [|discriminate].
  destruct (negb (String.eqb tag "content")); [discriminate|].
  destruct (Strophe.xmpp_stanza_get_child_by_name stanza "description") as [description_stanza|];
    [|discriminate].
  destruct (Strophe.xmpp_stanza_get_child_by_name stanza "transport") as [transport_stanza|];
    [|discriminate].
  destruct (Strophe.xmpp_stanza_get_ns transport_stanza) as [transport_ns|]; [|discriminate].
  destruct (Strophe.xmpp_stanza_get_ns description_stanza) as [description_ns|]; [|discriminate].
  destruct (negb (String.eqb description_ns STANZA_NS_JINGLE_FT5)); [discriminate|].
  destruct (Strophe.xmpp_stanza_get_attribute stanza "name") as [content_name|]; [|discriminate].
  destruct (Jingle._parse_content_creator _); [| |discriminate].
  all: destruct (Strophe.xmpp_stanza_get_child_by_name description_stanza "file"); [|discriminate].
  all: destruct (negb (String.eqb transport_ns _)); [discriminate|].
  all: destruct (Strophe.xmpp_stanza_get_attribute transport_stanza "block-size"); [|discriminate].
  all: destruct (Strophe.xmpp_stanza_get_attribute transport_stanza "sid"); [|discriminate].
  all: intros [= <-]; cbn [content_transport blocksize]; apply Z.mod_pos_bound; lia.
Qed.

(** ** What the senders of [ibb.c] put in the outbox *)

Lemma _send_ack_ack_iq (w : world) (id to : string) :
  Ibb._send_ack w (Some id) (Some to) = iq_send_stanza w (ack_iq id to).
Proof. reflexivity. Qed.

Lemma _send_error_error_iq (w : world) (id to type condition : string) :
  Ibb._send_error w (Some id) (Some to) type condition
  = iq_send_stanza w (error_iq id to type condition).
Proof. reflexivity. Qed.

(** ** Data for a transfer that is not registered *)

Section UnknownTransfer.
Import Strophe.
Context (E : Env).

(** C9, as the code has it: for a data stanza with an id and a sender whose
    sid is not in the transfer registry, the sequence number is examined
    first and the text second, and the registry is consulted only then.
    Without a sequence number that converts nothing is sent; without a
    text the reply is cancel / bad-request; otherwise it is
    cancel / item-not-found.  Whichever it is, the registries and the
    files are as they were. *)
Theorem data_for_unknown_sid (w : world) (stanza data_stanza : xmpp_stanza_t)
    (id from sid : string) :
  xmpp_stanza_get_id stanza = Some id ->
  xmpp_stanza_get_from stanza = Some from ->
  xmpp_stanza_get_child_by_name_and_ns stanza "data" XMPP_FEATURE_IBB = Some data_stanza ->
  xmpp_stanza_get_attribute data_stanza "sid" = Some sid ->
  ibb_sessions w !! sid = None ->
  exists w',
    Ibb._on_bytestream_data E w stanza = Done w' /\
    jingle_sessions w' = jingle_sessions w /\
    ibb_sessions w' = ibb_sessions w /\
    files w' = files w /\
    outbox w' =
      match xmpp_stanza_get_attribute data_stanza "seq" ≫= Ibb._convert_str_to_uint16 with
      | None => outbox w
      | Some _ =>
          match xmpp_stanza_get_text data_stanza with
          | None => outbox w ++ [error_iq id from "cancel" "bad-request"]
          | Some _ => outbox w ++ [error_iq id from "cancel" "item-not-found"]
          end
      end.
Proof.
  intros Hid Hfrom Hdata Hsid Hnone. unfold Ibb._on_bytestream_data.
  rewrite Hid, Hfrom, Hdata, Hsid.
  destruct (xmpp_stanza_get_attribute data_stanza "seq" ≫= Ibb._convert_str_to_uint16)
    as [seq_|]; [|by exists w].
  destruct (xmpp_stanza_get_text data_stanza) as [text|]; cbn [fmap option_fmap option_map].
  - rewrite Hnone, _send_error_error_iq. by eexists.
  - rewrite _send_error_error_iq. by eexists.
Qed.

End UnknownTransfer.

(** Witness of [data_for_unknown_sid]: the data stanza of scenario 5 in
    front of empty registries. *)
Lemma data_for_unknown_sid_witness :
  exists w',
    Ibb._on_bytestream_data juliet boot (Peer.data "d0" "bogus" "0" "QUJD") = Done w' /\
    jingle_sessions w' = jingle_sessions boot /\
    ibb_sessions w' = ibb_sessions boot /\
    files w' = files boot /\
    outbox w' = [error_iq "d0" Peer.romeo "cancel" "item-not-found"].
Proof.
  apply (data_for_unknown_sid juliet boot (Peer.data "d0" "bogus" "0" "QUJD")
           (XMPP_STANZA_TAG "data" [("xmlns", STANZA_NS_IBB); ("seq", "0"); ("sid", "bogus")]
              [XMPP_STANZA_TEXT "QUJD"])
           "d0" Peer.romeo "bogus"); reflexivity.
Defined.

(** C9 as the specification words it fails: the sid is unknown, and yet a
    sequence number that does not convert leaves the stanza unanswered, and
    a stanza without text is answered with bad-request. *)
Lemma data_for_unknown_sid_not_first :
  ibb_sessions boot !! "bogus" = None /\
  outbox <$> Ibb.handle_ibb juliet boot (Peer.data "d0" "bogus" "x" "QUJD") = Done [] /\
  outbox <$> Ibb.handle_ibb juliet boot
    (XMPP_STANZA_TAG "iq" [("from", Peer.romeo); ("id", "d0"); ("type", "set")]
       [XMPP_STANZA_TAG "data" [("xmlns", STANZA_NS_IBB); ("seq", "0"); ("sid", "bogus")] []])
  = Done [error_iq "d0" Peer.romeo "cancel" "bad-request"] /\
  error_iq "d0" Peer.romeo "cancel" "bad-request"
  <> error_iq "d0" Peer.romeo "cancel" "item-not-found".
Proof. repeat split; try (vm_compute; reflexivity). discriminate. Qed.

(** ** Opening a bytestream *)

Section Open.
Import Strophe.

(** C6, as the code has it: for an open with an id and a sender, whose sid
    is not yet in the transfer registry and resolves to a content with an
    IBB transport, the block-size attribute is compared as text with the
    negotiated block size written in decimal by ["%u"].  When the two
    texts are the same, a transfer that expects sequence number 0 and has
    no stream is registered under the sid and the open is acknowledged.
    In every other case, and so whenever the attribute read as a decimal
    integer differs from the negotiated size, the reply is
    modify / resource-constraint and nothing else changes. *)
Theorem open_compares_block_size_as_text (w : world)
    (stanza ibb_stanza : xmpp_stanza_t) (id from sid : string)
    (content : prof_jingle_content_t) :
  xmpp_stanza_get_id stanza = Some id ->
  xmpp_stanza_get_from stanza = Some from ->
  xmpp_stanza_get_child_by_ns stanza STANZA_NS_IBB = Some ibb_stanza ->
  xmpp_stanza_get_attribute ibb_stanza "sid" = Some sid ->
  ibb_sessions w !! sid = None ->
  Jingle.get_content_by_transport_id w sid = Some content ->
  transport_type (content_transport content) = PROF_JINGLE_TRANSPORT_TYPE_INBANDBYTESTREAM ->
  0 <= blocksize (content_transport content) < 2 ^ 32 ->
  let negotiated := blocksize (content_transport content) in
  let block_size := xmpp_stanza_get_attribute ibb_stanza "block-size" in
  let transfer :=
    {| file := description (content_description content); seq := 0; stream := None |} in
  let refused := Done (iq_send_stanza w (error_iq id from "modify" "resource-constraint")) in
  (block_size = Some (Libc.sprintf_u negotiated) ->
   Ibb._on_bytestream_open w stanza
   = Done (iq_send_stanza (set_ibb_sessions w (<[sid := transfer]> (ibb_sessions w)))
             (ack_iq id from))) /\
  (block_size <> Some (Libc.sprintf_u negotiated) ->
   Ibb._on_bytestream_open w stanza = refused) /\
  (forall raw : string,
     block_size = Some raw -> Libc.value (Libc.strtol raw) <> negotiated ->
     Ibb._on_bytestream_open w stanza = refused).
Proof.
  intros Hid Hfrom Hibb Hsid Hnone Hcontent Htype Hrange negotiated block_size transfer refused.
  assert (Hno : block_size <> Some (Libc.sprintf_u negotiated) ->
                Ibb._on_bytestream_open w stanza = refused).
  { intros Hneq. unfold Ibb._on_bytestream_open.
    rewrite Hibb, Hsid, Hid, Hfrom, Hnone, Hcontent, Htype.
    rewrite bool_decide_eq_false_2 by (intros [? ?]; discriminate).
    fold negotiated block_size.
    rewrite (bool_decide_eq_false_2 (Some _ = block_size)) by congruence.
    cbn [negb]. by rewrite _send_error_error_iq. }
  split; [|split; [exact Hno|]].
  - intros Heq. unfold Ibb._on_bytestream_open.
    rewrite Hibb, Hsid, Hid, Hfrom, Hnone, Hcontent, Htype.
    rewrite bool_decide_eq_false_2 by (intros [? ?]; discriminate).
    fold negotiated block_size.
    rewrite (bool_decide_eq_true_2 (Some _ = block_size)) by congruence.
    cbn [negb]. by rewrite _send_ack_ack_iq.
  - intros raw Hraw Hvalue. apply Hno. rewrite Hraw. intros [= ->].
    apply Hvalue. by rewrite strtol_sprintf_u.
Qed.

End Open.

(** Witness of [open_compares_block_size_as_text]: the open of scenario 1
    after the offer of scenario 1. *)
Lemma open_compares_block_size_as_text_witness :
  Ibb._on_bytestream_open offered (Peer.open "o1" "t1" "4096")
  = Done (iq_send_stanza
            (set_ibb_sessions offered
               (<["t1" := {| file := {| file_type := Some "application/octet-stream";
                                        file_date := Some "2023-07-01T10:00:00Z";
                                        file_name := Some "kitten.jpg";
                                        file_size := Some "8192";
                                        file_hash := None |};
                             seq := 0; stream := None |}]> (ibb_sessions offered)))
            (ack_iq "o1" Peer.romeo)).
Proof.
  refine (proj1 (open_compares_block_size_as_text offered (Peer.open "o1" "t1" "4096")
    (XMPP_STANZA_TAG "open"
       [("xmlns", STANZA_NS_IBB); ("block-size", "4096"); ("sid", "t1"); ("stanza", "iq")] [])
    "o1" Peer.romeo "t1"
    {| content_name := "a";
       content_creator := PROF_JINGLE_CREATOR_INITIATOR;
       content_senders := PROF_JINGLE_SENDERS_INITIATOR;
       content_description :=
         {| description_type := PROF_JINGLE_DESCRIPTION_TYPE_FILETRANSFER;
            description := {| file_type := Some "application/octet-stream";
                              file_date := Some "2023-07-01T10:00:00Z";
                              file_name := Some "kitten.jpg";
                              file_size := Some "8192";
                              file_hash := None |} |};
       content_transport :=
         {| transport_type := PROF_JINGLE_TRANSPORT_TYPE_INBANDBYTESTREAM;
            transport_sid := "t1"; blocksize := 4096 |};
       content_state := None |}
    _ _ _ _ _ _ _ _) _); try (vm_compute; reflexivity).
  cbn. lia.
Defined.

(** C6 as the specification words it fails: after the offer the negotiated
    block size is 4096 and the attribute ["04096"] is 4096 read as a decimal
    integer, and yet the open is refused and no transfer is registered. *)
Lemma open_with_leading_zero_refused :
  (blocksize ∘ content_transport) <$> Jingle.get_content_by_transport_id offered "t1"
  = Some 4096 /\
  Libc.value (Libc.strtol "04096") = 4096 /\
  Ibb.handle_ibb juliet offered (Peer.open "o1" "t1" "04096")
  = Done (iq_send_stanza offered (error_iq "o1" Peer.romeo "modify" "resource-constraint")) /\
  ibb_sessions (left_by (Ibb.handle_ibb juliet offered (Peer.open "o1" "t1" "04096"))) !! "t1"
  = None.
Proof. repeat split; vm_compute; reflexivity. Qed.

(** ** The content loop of [_handle_session_init] *)

Section ContentLoop.
Import Jingle.
Implicit Types (contents : gmap string prof_jingle_content_t).

(** Under each name the table ends up with the last content offered
    under it, or with what it held when no child offers that name. *)
Lemma content_loop_last_offer (children : list xmpp_stanza_t) :
  forall contents contents' (name : string),
    content_loop children contents = Done contents' ->
    contents' !! name = from_option Some (contents !! name) (last_offer name children).
Proof.
  induction children as [|stanza next IH]; intros contents contents' name Hloop.
  - injection Hloop as <-. reflexivity.
  - cbn [content_loop] in Hloop. cbn [last_offer]. unfold parsed.
    destruct (content_iteration stanza) as [[content|]| |]; try discriminate.
    + rewrite (IH _ _ name Hloop). destruct (last_offer name next); [reflexivity|].
      cbn [from_option]. destruct (String.eqb_spec (content_name content) name) as [->|Hne].
      * apply lookup_insert_eq.
      * by apply lookup_insert_ne.
    + rewrite (IH _ _ name Hloop). by destruct (last_offer name next).
Qed.

(** C7, as the code has it: a content child that parses to a content whose
    name the table already holds is not rejected.  The loop goes on with
    the remaining children and with the table in which the later content
    has taken the place of the earlier one, under the same names as
    before, and when the loop is left the table holds, under that name,
    this content or the last of the remaining children that offered the
    name again. *)
Theorem duplicate_content_replaces (stanza : xmpp_stanza_t) (next : list xmpp_stanza_t)
    contents (content earlier : prof_jingle_content_t) :
  content_iteration stanza = Next (Some content) ->
  contents !! content_name content = Some earlier ->
  content_loop (stanza :: next) contents
  = content_loop next (<[content_name content := content]> contents) /\
  (<[content_name content := content]> contents) !! content_name content = Some content /\
  dom (<[content_name content := content]> contents) = dom contents /\
  forall contents',
    content_loop (stanza :: next) contents = Done contents' ->
    contents' !! content_name content
    = Some (default content (last_offer (content_name content) next)).
Proof.
  intros Hparsed Hearlier. split; [|split; [|split]].
  - cbn [content_loop]. by rewrite Hparsed.
  - apply lookup_insert_eq.
  - by apply dom_insert_lookup_L.
  - intros contents' Hloop. cbn [content_loop] in Hloop. rewrite Hparsed in Hloop.
    rewrite (content_loop_last_offer _ _ _ (content_name content) Hloop).
    rewrite lookup_insert_eq. by destruct (last_offer _ next).
Qed.

(** The loop turn by turn agrees with [content_loop]: [Done] and
    [Segfault] are reached within one turn per child and one more, and a
    loop that hangs is never left. *)
Lemma content_loop_turns_enough (children : list xmpp_stanza_t) :
  forall contents (turns : nat),
    (length children < turns)%nat ->
    content_loop children contents <> Hang ->
    content_loop_turns turns children contents = Some (content_loop children contents).
Proof.
  induction children as [|stanza next IH]; intros contents turns Hturns Hdone;
    (destruct turns as [|turns]; [simpl in Hturns; lia|]).
  - reflexivity.
  - cbn [content_loop content_loop_turns] in *. simpl in Hturns.
    destruct (content_iteration stanza) as [[content|]| |];
      [apply IH; [lia|done] | apply IH; [lia|done] | done | done].
Qed.

Lemma content_loop_turns_hang (turns : nat) :
  forall (children : list xmpp_stanza_t) contents,
    content_loop children contents = Hang ->
    content_loop_turns turns children contents = None.
Proof.
  induction turns as [|turns IH]; intros children contents Hhang; [reflexivity|].
  destruct children as [|stanza next]; [discriminate|].
  cbn [content_loop_turns]. cbn [content_loop] in Hhang.
  destruct (content_iteration stanza) as [[content|]| |] eqn:Hturn; try discriminate.
  - by apply IH.
  - by apply IH.
  - apply IH. cbn [content_loop]. by rewrite Hturn.
Qed.

End ContentLoop.

(** Witness of [duplicate_content_replaces]: [second_a] met when the table
    holds the content of [first_a]. *)
Lemma duplicate_content_replaces_witness :
  exists first second,
    parsed first_a = Some first /\ parsed second_a = Some second /\
    Jingle.content_loop [second_a] {["a" := first]}
    = Jingle.content_loop [] (<["a" := second]> {["a" := first]}) /\
    (<["a" := second]> ({["a" := first]} : gmap string prof_jingle_content_t)) !! "a"
    = Some second /\
    dom (<["a" := second]> ({["a" := first]} : gmap string prof_jingle_content_t))
    = dom ({["a" := first]} : gmap string prof_jingle_content_t) /\
    forall contents',
      Jingle.content_loop [second_a] {["a" := first]} = Done contents' ->
      contents' !! "a" = Some second.
Proof.
  eexists _, _. split; [vm_compute; reflexivity|]. split; [vm_compute; reflexivity|].
  refine (duplicate_content_replaces second_a [] {["a" := _]} _ _ _ _);
    vm_compute; reflexivity.
Defined.

(** C7 as the specification words it fails: both children parse, they have
    the same name and differ, and the table the session is left with holds
    the second one under that name, not the first. *)
Lemma duplicate_content_not_rejected :
  exists first second,
    parsed first_a = Some first /\ parsed second_a = Some second /\
    content_name first = content_name second /\ first <> second /\
    (fun w => s ← jingle_sessions w !! "s1"; content_table s !! "a")
      <$> on_jingle_iq juliet boot
            (Peer.jingle_iq "i1" "session-initiate" "s1" [first_a; second_a])
    = Done (Some second).
Proof.
  eexists _, _. split; [vm_compute; reflexivity|]. split; [vm_compute; reflexivity|].
  split; [reflexivity|]. split; [discriminate|]. vm_compute. reflexivity.
Qed.

(** ** A session-initiate for a sid that is taken *)

Section Replace.
Import Strophe Jingle.
Context (E : Env).

(** [_accept_session] adds children to the jingle element and leaves its
    name and attributes alone. *)
Lemma accept_content_adds (name : string) (attributes : list (string * string))
    (children : list xmpp_stanza_t) (content : prof_jingle_content_t) (jingle' : xmpp_stanza_t) :
  accept_content (XMPP_STANZA_TAG name attributes children) content = Done jingle' ->
  exists child, jingle' = XMPP_STANZA_TAG name attributes (children ++ [child]).
Proof.
  unfold accept_content.
  destruct (match description_type (content_description content) with
            | PROF_JINGLE_DESCRIPTION_TYPE_FILETRANSFER => _
            | PROF_JINGLE_DESCRIPTION_TYPE_RTP => _ end) as [data| |];
    cbn [mbind outcome_bind]; [|discriminate|discriminate].
  intros [= <-]. by eexists.
Qed.

Lemma accept_loop_adds (contents : list (string * prof_jingle_content_t)) :
  forall (name : string) (attributes : list (string * string))
    (children : list xmpp_stanza_t) (jingle' : xmpp_stanza_t),
    accept_loop contents (XMPP_STANZA_TAG name attributes children) = Done jingle' ->
    exists added, jingle' = XMPP_STANZA_TAG name attributes (children ++ added).
Proof.
  induction contents as [|[key content] contents IH]; intros name attributes children jingle'.
  - intros [= <-]. exists []. by rewrite app_nil_r.
  - cbn [accept_loop].
    destruct (accept_content _ content) as [jingle1| |] eqn:Hone;
      cbn [mbind outcome_bind]; [|discriminate|discriminate].
    apply accept_content_adds in Hone as [child ->].
    intros Hrest. apply IH in Hrest as [added ->]. exists (child :: added).
    by rewrite <- app_assoc.
Qed.

(** What handling a valid session-initiate comes to when the handler
    returns. *)
Lemma session_initiate_outcome (w : world) (stanza jingle : xmpp_stanza_t)
    (sid initiator : string) :
  xmpp_stanza_get_child_by_name_and_ns stanza "jingle" STANZA_NS_JINGLE = Some jingle ->
  xmpp_stanza_get_attribute jingle "sid" = Some sid ->
  xmpp_stanza_get_attribute jingle "initiator" = Some initiator ->
  xmpp_stanza_get_from stanza = Some initiator ->
  forall w',
    _handle_session_init E w stanza = Done w' ->
    ibb_sessions w' = ibb_sessions w /\ files w' = files w /\
    exists reply,
      outbox w'
      = outbox w ++ [xmpp_stanza_set_to
                       (xmpp_iq_new STANZA_TYPE_RESULT (xmpp_stanza_get_id stanza)) initiator;
                     reply] /\
      ((xmpp_stanza_get_children jingle = [] /\
        jingle_action reply = Some "session-terminate" /\
        jingle_sessions w' = delete sid (jingle_sessions w)) \/
       (exists contents,
          xmpp_stanza_get_children jingle <> [] /\
          content_loop (xmpp_stanza_get_children jingle) ∅ = Done contents /\
          jingle_action reply = Some "session-accept" /\
          jingle_sessions w'
          = <[sid := {| jingle_sid := sid; initiator := initiator;
                        session_state := PROF_JINGLE_STATE_ACCEPTED;
                        content_table := contents |}]> (jingle_sessions w))).
Proof.
  intros Hjingle Hsid Hinit Hfrom w'.
  unfold _handle_session_init. rewrite Hjingle, Hsid, Hinit, Hfrom.
  rewrite bool_decide_eq_true_2 by done. cbn [negb].
  destruct (xmpp_stanza_get_children jingle) as [|child children] eqn:Hchildren.
  - intros [= <-]. cbn. split; [reflexivity|]. split; [reflexivity|]. eexists. split.
    + rewrite <- app_assoc. reflexivity.
    + left. split; [done|]. split; [reflexivity|]. apply delete_insert_eq.
  - cbn [content_table].
    destruct (content_loop (child :: children) ∅) as [contents| |] eqn:Hloop;
      cbn [mbind outcome_bind]; [|discriminate|discriminate].
    unfold _accept_session. cbn [create_stanza_id].
    destruct (accept_loop _ _) as [jingle'| |] eqn:Haccept;
      cbn [mbind outcome_bind]; [|discriminate|discriminate].
    apply accept_loop_adds in Haccept as [added ->].
    intros [= <-]. cbn. split; [reflexivity|]. split; [reflexivity|]. eexists. split.
    + rewrite <- app_assoc. reflexivity.
    + right. exists contents. split; [done|]. split; [done|]. split; [reflexivity|].
      by rewrite !insert_insert_eq.
Qed.

(** C10: when the sid of a valid session-initiate already keys a session,
    the handler does what it does when the registry holds no session under
    that sid: the displaced session leaves no trace, in the outbox or in
    the registries.  When the handler returns, the transfers and the
    files are untouched and two envelopes have gone out, the
    acknowledgement of the initiate and one more for the new session:
    its session-terminate when the jingle element has no child, after
    which no session is registered under the sid, and its session-accept
    otherwise, after which the sid keys the new session, accepted, with
    exactly the contents parsed from this stanza into an empty table. *)
Theorem session_initiate_replaces (w : world) (stanza jingle : xmpp_stanza_t)
    (sid initiator : string) (displaced : prof_jingle_session_t) :
  xmpp_stanza_get_child_by_name_and_ns stanza "jingle" STANZA_NS_JINGLE = Some jingle ->
  xmpp_stanza_get_attribute jingle "sid" = Some sid ->
  xmpp_stanza_get_attribute jingle "initiator" = Some initiator ->
  xmpp_stanza_get_from stanza = Some initiator ->
  jingle_sessions w !! sid = Some displaced ->
  _handle_session_init E w stanza
  = _handle_session_init E (set_jingle_sessions w (delete sid (jingle_sessions w))) stanza /\
  forall w',
    _handle_session_init E w stanza = Done w' ->
    ibb_sessions w' = ibb_sessions w /\ files w' = files w /\
    exists reply,
      outbox w'
      = outbox w ++ [xmpp_stanza_set_to
                       (xmpp_iq_new STANZA_TYPE_RESULT (xmpp_stanza_get_id stanza)) initiator;
                     reply] /\
      ((xmpp_stanza_get_children jingle = [] /\
        jingle_action reply = Some "session-terminate" /\
        jingle_sessions w' = delete sid (jingle_sessions w)) \/
       (exists contents,
          xmpp_stanza_get_children jingle <> [] /\
          content_loop (xmpp_stanza_get_children jingle) ∅ = Done contents /\
          jingle_action reply = Some "session-accept" /\
          jingle_sessions w'
          = <[sid := {| jingle_sid := sid; initiator := initiator;
                        session_state := PROF_JINGLE_STATE_ACCEPTED;
                        content_table := contents |}]> (jingle_sessions w))).
Proof.
  intros Hjingle Hsid Hinit Hfrom Hdisplaced. split.
  - unfold _handle_session_init. rewrite Hjingle, Hsid, Hinit, Hfrom.
    rewrite bool_decide_eq_true_2 by done. cbn [negb].
    unfold _send_ack, iq_send_stanza, set_jingle_sessions. cbn.
    by rewrite insert_delete_eq.
  - by apply session_initiate_outcome.
Qed.
End Replace.

(** Witness of [session_initiate_replaces]: [second_offer] after the offer
    of scenario 1. *)
Lemma session_initiate_replaces_witness :
  Jingle._handle_session_init juliet offered second_offer
  = Jingle._handle_session_init juliet
      (set_jingle_sessions offered (delete "s1" (jingle_sessions offered))) second_offer.
Proof.
  refine (proj1 (session_initiate_replaces juliet offered second_offer
    (XMPP_STANZA_TAG "jingle"
       [("xmlns", STANZA_NS_JINGLE); ("action", "session-initiate");
        ("initiator", Peer.romeo); ("sid", "s1")]
       [Peer.content "b" "initiator" STANZA_NS_JINGLE_TRANSPORTS_IBB "t2" "4096"
          "puppy.jpg" "100"])
    "s1" Peer.romeo _ _ _ _ _ _)); vm_compute; reflexivity.
Defined.

(** ** Data for a registered transfer *)

Section Data.
Import Strophe.
Context (E : Env).

(** A block whose sequence number is the successor of the transfer's, for
    a transfer with a stream, is written and acknowledged, and the
    transfer moves on by one, as long as the file is not complete. *)
Lemma data_next_in_sequence (w : world) (stanza data_stanza : xmpp_stanza_t)
    (id from sid seq_raw text : string) (session : ibb_session_t) (handle : nat)
    (f : FILE) (size : Z) :
  xmpp_stanza_get_id stanza = Some id ->
  xmpp_stanza_get_from stanza = Some from ->
  xmpp_stanza_get_child_by_name_and_ns stanza "data" XMPP_FEATURE_IBB = Some data_stanza ->
  xmpp_stanza_get_attribute data_stanza "sid" = Some sid ->
  xmpp_stanza_get_attribute data_stanza "seq" = Some seq_raw ->
  Ibb._convert_str_to_uint16 seq_raw = Some (seq session + 1) ->
  xmpp_stanza_get_text data_stanza = Some text ->
  ibb_sessions w !! sid = Some session ->
  0 <= seq session ->
  stream session = Some handle ->
  files w !! handle = Some f ->
  string_to_ul E (file_size (file session)) = Some size ->
  Z.of_nat (length (written (Ibb.fprintf (g_base64_decode E text) f))) < size ->
  Ibb._on_bytestream_data E w stanza
  = Done (iq_send_stanza
            (set_files
               (Ibb.store w sid {| file := file session;
                                   seq := (seq session + 1) mod 65536;
                                   stream := stream session |})
               (<[handle := Ibb.fprintf (g_base64_decode E text) f]> (files w)))
            (ack_iq id from)).
Proof.
  intros Hid Hfrom Hdata Hsid Hseq Hconv Htext Hsession Hpos Hstream Hfile Hsize Hless.
  unfold Ibb._on_bytestream_data. rewrite Hid, Hfrom, Hdata, Hsid, Hseq. cbn [mbind option_bind].
  rewrite Hconv, Htext. cbn [fmap option_fmap option_map]. rewrite Hsession.
  destruct (Z.eqb_spec (seq session + 1) 0); [lia|].
  rewrite Z.eqb_refl. cbn [negb]. unfold Ibb.write_data. cbn [stream file].
  rewrite Hstream, Hsize.
  assert (Halter : alter (Ibb.fprintf (g_base64_decode E text)) handle (files w)
                   = <[handle := Ibb.fprintf (g_base64_decode E text) f]> (files w)).
  { apply list_eq. intros i. destruct (decide (i = handle)) as [->|Hne].
    - rewrite list_lookup_alter_eq, Hfile. symmetry. apply list_lookup_insert_eq.
      by eapply lookup_lt_Some.
    - by rewrite list_lookup_alter_ne, list_lookup_insert_ne. }
  unfold Ibb.ftell, Ibb.store. cbn [files set_files set_ibb_sessions].
  rewrite Halter.
  rewrite list_lookup_insert_eq by (by eapply lookup_lt_Some).
  set (pos := Z.of_nat (length (written (Ibb.fprintf (g_base64_decode E text) f)))) in *.
  assert (Hpos' : Libc.to_ulong pos <= pos) by (apply Z.mod_le; lia).
  destruct (Z.geb_spec (Libc.to_ulong pos) size); [lia|].
  by rewrite _send_ack_ack_iq.
Qed.
End Data.

(** The induction that takes the transfer to sequence number 65535. *)
Lemma in_sequence_start : in_sequence 0 big_receiving.
Proof.
  split; [reflexivity|]. split; [vm_compute; reflexivity|].
  eexists. split; vm_compute; reflexivity.
Qed.

(** What a block adds to the length of the stream. *)
Lemma fprintf_length (data : list byte) (f : FILE) :
  length (written (Ibb.fprintf data f))
  = (length (written f) + length (Libc.sprintf_precision_s data))%nat.
Proof. unfold Ibb.fprintf. cbn [written]. apply length_app. Qed.

(** The text [QUJD] is the three bytes [ABC]. *)
Lemma abc_length : length (Libc.sprintf_precision_s (g_base64_decode juliet "QUJD")) = 3%nat.
Proof. reflexivity. Qed.

(** One more block in sequence. *)
Lemma in_sequence_next (n : Z) (w : world) :
  0 <= n < 65535 -> in_sequence n w ->
  exists w',
    Ibb.handle_ibb juliet w (Peer.data "d" "t1" (Libc.sprintf_u (n + 1)) "QUJD") = Done w' /\
    in_sequence (n + 1) w'.
Proof.
  intros Hn (Hjingle & Hsession & f & Hfile & Hlen).
  eexists. split.
  - change (Ibb.handle_ibb juliet w ?s) with (Ibb._on_bytestream_data juliet w s).
    eapply (data_next_in_sequence juliet w _ _ "d" Peer.romeo "t1"
              (Libc.sprintf_u (n + 1)) "QUJD"
              {| file := film; seq := n; stream := Some 0%nat |} 0%nat f 1000000);
      try reflexivity; try exact Hsession; try exact Hfile.
    + cbn [seq]. apply _convert_str_to_uint16_sprintf_u. lia.
    + cbn [seq]. lia.
    + rewrite fprintf_length, abc_length. lia.
  - split; [exact Hjingle|]. split.
    + cbn [ibb_sessions iq_send_stanza set_files Ibb.store set_ibb_sessions seq file stream].
      rewrite lookup_insert_eq, Z.mod_small by lia. reflexivity.
    + eexists. split.
      * cbn [files iq_send_stanza set_files]. apply list_lookup_insert_eq.
        by eapply lookup_lt_Some.
      * rewrite fprintf_length, abc_length. lia.
Qed.

(** After the blocks 1 to [n] the transfer is at [n]. *)
Lemma blocks_in_sequence (n : nat) :
  Z.of_nat n <= 65535 ->
  exists w, blocks n big_receiving = Done w /\ in_sequence (Z.of_nat n) w.
Proof.
  induction n as [|n IH]; intros Hn.
  - exists big_receiving. split; [reflexivity | apply in_sequence_start].
  - destruct IH as (w & Hblocks & Hseq); [lia|].
    destruct (in_sequence_next (Z.of_nat n) w) as (w' & Hstep & Hseq'); [lia|done|].
    exists w'. split.
    + cbn [blocks]. rewrite Hblocks. cbn [mbind outcome_bind].
      rewrite Nat2Z.inj_succ. exact Hstep.
    + by rewrite Nat2Z.inj_succ.
Qed.

Section Close.
Import Strophe.
Context (E : Env).

(** A block with the sequence number 0 for a transfer that is past 0, or
    with any other number that is not the successor of the transfer's, is
    handed to [_send_close]. *)
Lemma data_out_of_sequence (w : world) (stanza data_stanza : xmpp_stanza_t)
    (sid seq_raw text : string) (n : Z) (session : ibb_session_t) :
  xmpp_stanza_get_child_by_name_and_ns stanza "data" XMPP_FEATURE_IBB = Some data_stanza ->
  xmpp_stanza_get_attribute data_stanza "sid" = Some sid ->
  xmpp_stanza_get_attribute data_stanza "seq" = Some seq_raw ->
  Ibb._convert_str_to_uint16 seq_raw = Some n ->
  xmpp_stanza_get_text data_stanza = Some text ->
  ibb_sessions w !! sid = Some session ->
  (n = 0 /\ seq session <> 0) \/ (n <> 0 /\ n <> seq session + 1) ->
  Ibb._on_bytestream_data E w stanza
  = Ibb._send_close E w (xmpp_stanza_get_id stanza) (xmpp_stanza_get_from stanza) (Some sid).
Proof.
  intros Hdata Hsid Hseq Hconv Htext Hsession Hother.
  unfold Ibb._on_bytestream_data. rewrite Hdata, Hsid, Hseq. cbn [mbind option_bind].
  rewrite Hconv, Htext. cbn [fmap option_fmap option_map]. rewrite Hsession.
  destruct Hother as [[-> Hne] | [Hne0 Hne]].
  - cbn [Z.eqb]. destruct (Z.eqb_spec (seq session) 0); [done|]. reflexivity.
  - destruct (Z.eqb_spec n 0); [done|].
    destruct (Z.eqb_spec (seq session + 1) n); [congruence|]. reflexivity.
Qed.

(** [_send_close] for a registered transfer whose content a session still
    holds: the close goes out, the transfer leaves the registry and its
    stream is closed. *)
Lemma _send_close_registered (w : world) (id from sid : string) (session : ibb_session_t) :
  ibb_sessions w !! sid = Some session ->
  is_Some (Jingle._get_item_by_transport_id w sid) ->
  exists w',
    Ibb._send_close E w (Some id) (Some from) (Some sid) = Done w' /\
    ibb_sessions w' = delete sid (ibb_sessions w) /\
    files w' = files (Ibb._ibb_session_destroy w session) /\
    exists more, outbox w' = outbox w ++ close_iq id from sid :: more.
Proof.
  intros Hsession [[[key owner] content] Hitem].
  unfold Ibb._send_close. cbn [ibb_sessions iq_send_stanza]. rewrite Hsession.
  unfold Jingle.set_content_state_by_transport_id.
  replace (Jingle._get_item_by_transport_id _ sid) with (Some (key, owner, content)).
  2:{ rewrite <- Hitem. unfold Jingle._get_item_by_transport_id, Ibb.remove_session,
        Ibb._ibb_session_destroy. by destruct (stream session). }
  destruct (forallb _ _); eexists; (split; [reflexivity|]);
    unfold Ibb.remove_session, Ibb._ibb_session_destroy; destruct (stream session);
    cbn; repeat split; eexists;
    first [reflexivity | rewrite <- app_assoc; reflexivity].
Qed.

End Close.

(** Sequence number 0 for a transfer past 0 closes it. *)
Lemma rewind_closes (n : Z) (w : world) :
  n <> 0 -> in_sequence n w ->
  exists w',
    Ibb.handle_ibb juliet w (Peer.data "d" "t1" "0" "QUJD") = Done w' /\
    ibb_sessions w' !! "t1" = None /\
    (exists more, outbox w' = outbox w ++ close_iq "d" Peer.romeo "t1" :: more) /\
    written <$> files w' !! 0%nat = written <$> files w !! 0%nat.
Proof.
  intros Hn (Hjingle & Hsession & f & Hfile & Hlen).
  destruct (_send_close_registered juliet w "d" Peer.romeo "t1" _ Hsession)
    as (w' & Hclose & Hibb & Hfiles & Hout).
  { unfold Jingle._get_item_by_transport_id. rewrite Hjingle. eexists. vm_compute. reflexivity. }
  exists w'. split; [|split; [|split]].
  - change (Ibb.handle_ibb juliet w ?s) with (Ibb._on_bytestream_data juliet w s).
    rewrite <- Hclose.
    apply (data_out_of_sequence juliet w (Peer.data "d" "t1" "0" "QUJD")
             (XMPP_STANZA_TAG "data" [("xmlns", STANZA_NS_IBB); ("seq", "0"); ("sid", "t1")]
                [XMPP_STANZA_TEXT "QUJD"])
             "t1" "0" "QUJD" 0 {| file := film; seq := n; stream := Some 0%nat |});
      try reflexivity.
    + exact Hsession.
    + left. by split.
  - rewrite Hibb. apply lookup_delete_eq.
  - exact Hout.
  - rewrite Hfiles. cbn. rewrite list_lookup_alter_eq. by rewrite Hfile.
Qed.

(** C4 at the wrap: 65535 blocks after the first leave the transfer at
    sequence number 65535, whose successor modulo 65536 is 0; the block
    with sequence number 0 that follows is not accepted.  A close goes out,
    the transfer leaves the registry and nothing is written. *)
Theorem sequence_does_not_wrap :
  exists w w',
    blocks (Z.to_nat 65535) big_receiving = Done w /\
    seq <$> ibb_sessions w !! "t1" = Some 65535 /\
    (65535 + 1) mod 65536 = 0 /\
    Ibb.handle_ibb juliet w (Peer.data "d" "t1" "0" "QUJD") = Done w' /\
    ibb_sessions w' !! "t1" = None /\
    (exists more, outbox w' = outbox w ++ close_iq "d" Peer.romeo "t1" :: more) /\
    written <$> files w' !! 0%nat = written <$> files w !! 0%nat.
Proof.
  destruct (blocks_in_sequence (Z.to_nat 65535)) as (w & Hblocks & Hseq); [lia|].
  rewrite Z2Nat.id in Hseq by lia.
  destruct (rewind_closes 65535 w) as (w' & Hclose & Hgone & Hout & Hfile); [lia|done|].
  exists w, w'. split; [done|]. split.
  { destruct Hseq as (_ & -> & _). reflexivity. }
  split; [reflexivity|]. by repeat split.
Qed.

(** What a block adds to the stream is what ["%.*s"] prints of it: never
    more than the block, less than the block when it holds a zero byte, and
    the whole block when it holds none. *)
Lemma fprintf_at_most_block (data : list byte) (f : FILE) :
  (length (written (Ibb.fprintf data f)) <= length (written f) + length data)%nat.
Proof. rewrite fprintf_length. pose proof (sprintf_precision_s_length data). lia. Qed.

Lemma fprintf_cut_block (data : list byte) (f : FILE) :
  x00 ∈ data -> Z.of_nat (length data) < 2 ^ 31 ->
  (length (written (Ibb.fprintf data f)) < length (written f) + length data)%nat.
Proof.
  intros Hin Hlen. rewrite fprintf_length.
  pose proof (sprintf_precision_s_cut data Hin Hlen). lia.
Qed.

Lemma fprintf_whole_block (data : list byte) (f : FILE) :
  x00 ∉ data -> Z.of_nat (length data) < 2 ^ 31 ->
  written (Ibb.fprintf data f) = written f ++ data.
Proof. intros Hn Hlen. unfold Ibb.fprintf. cbn [written]. by rewrite sprintf_precision_s_id. Qed.

(** C1 at a block with a zero byte: the text [QQBC] decodes to the three
    bytes 41 00 42; the block is accepted and acknowledged, and the stream
    holds one byte, at position 1. *)
Theorem block_is_cut_at_zero_byte :
  g_base64_decode juliet "QQBC" = [x41; x00; x42] /\
  exists w,
    Ibb.handle_ibb juliet opened (Peer.data "d0" "t1" "0" "QQBC") = Done w /\
    outbox w = outbox opened ++ [ack_iq "d0" Peer.romeo] /\
    ibb_sessions w !! "t1" = Some {| file := kitten; seq := 0; stream := Some 0%nat |} /\
    files w = [{| written := [x41]; closed := false |}] /\
    Ibb.ftell w 0 = 1.
Proof. split; [reflexivity|]. eexists. repeat split; vm_compute; reflexivity. Qed.


(** C5 at a second block with sequence number 0: the transfer has taken
    its first block, [ABC], and has its stream open.  The block [DEF] with
    sequence number 0 is accepted and acknowledged: no close goes out, the
    transfer stays registered, a second stream is opened for it and the
    first one is left open. *)
Theorem second_block_zero_reopens :
  ibb_sessions receiving !! "t1" = Some {| file := kitten; seq := 0; stream := Some 0%nat |} /\
  files receiving = [{| written := [x41; x42; x43]; closed := false |}] /\
  exists w,
    Ibb.handle_ibb juliet receiving (Peer.data "d1" "t1" "0" "REVG") = Done w /\
    outbox w = outbox receiving ++ [ack_iq "d1" Peer.romeo] /\
    ibb_sessions w !! "t1" = Some {| file := kitten; seq := 0; stream := Some 1%nat |} /\
    files w = [{| written := [x41; x42; x43]; closed := false |};
               {| written := [x44; x45; x46]; closed := false |}].
Proof.
  split; [vm_compute; reflexivity|]. split; [vm_compute; reflexivity|].
  eexists. repeat split; vm_compute; reflexivity.
Qed.

(** ** session-terminate *)

(** [handle_jingle_iq] reports a session-terminate as handled and leaves
    the state as it found it. *)
Lemma handle_jingle_iq_terminate (E : Env) (w : world) (stanza jingle : xmpp_stanza_t) :
  Strophe.xmpp_stanza_get_child_by_name_and_ns stanza "jingle" STANZA_NS_JINGLE = Some jingle ->
  Strophe.xmpp_stanza_get_attribute jingle "action" = Some "session-terminate" ->
  Jingle.handle_jingle_iq E w stanza = Done (true, w).
Proof. intros Hjingle Haction. unfold Jingle.handle_jingle_iq. by rewrite Hjingle, Haction. Qed.

(** C2 in the middle of a transfer: the session-terminate for the session
    ["s1"] leaves the state as it was, with the session and its transfer
    registered and nothing sent; the block that follows on ["t1"] is
    written and acknowledged. *)
Theorem session_terminate_is_ignored :
  Jingle.handle_jingle_iq juliet receiving terminate_s1 = Done (true, receiving) /\
  is_Some (jingle_sessions receiving !! "s1") /\
  is_Some (ibb_sessions receiving !! "t1") /\
  exists w,
    Ibb.handle_ibb juliet receiving (Peer.data "d1" "t1" "1" "REVG") = Done w /\
    outbox w = outbox receiving ++ [ack_iq "d1" Peer.romeo] /\
    files w = [{| written := [x41; x42; x43; x44; x45; x46]; closed := false |}].
Proof.
  split; [reflexivity|]. split; [eexists; vm_compute; reflexivity|].
  split; [eexists; vm_compute; reflexivity|].
  eexists. repeat split; vm_compute; reflexivity.
Qed.

(** ** A session without contents *)

(** C3 at an offer whose one content is skipped: the loop ends with an
    empty table, and the session is accepted all the same.  What goes out
    after the acknowledgement is a session-accept without a content, and
    the session stays registered, accepted and empty. *)
Theorem session_without_content_is_accepted :
  Jingle.content_loop (jingle_children socks5_offer) ∅ = Done ∅ /\
  exists w accept,
    on_jingle_iq juliet boot socks5_offer = Done w /\
    outbox w = [ack_iq "i1" Peer.romeo; accept] /\
    jingle_action accept = Some "session-accept" /\
    jingle_children accept = [] /\
    jingle_sessions w !! "s1"
    = Some {| jingle_sid := "s1"; initiator := Peer.romeo;
              session_state := PROF_JINGLE_STATE_ACCEPTED; content_table := ∅ |}.
Proof.
  split; [vm_compute; reflexivity|].
  eexists _, _. repeat split; vm_compute; reflexivity.
Qed.

(** ** The session-accept read back *)

Section RoundTrip.
Import Strophe Jingle.

(** The senders are read back from the text they are written as. *)
Lemma _parse_content_senders_stringify (senders : prof_jingle_senders_t) :
  _parse_content_senders (Some (_stringify_senders senders)) = senders.
Proof. by destruct senders. Qed.

(** The text of an element with one text child that is not empty. *)
Lemma xmpp_stanza_get_text_element (name text : string) :
  text <> EmptyString ->
  xmpp_stanza_get_text (XMPP_STANZA_TAG name [] [XMPP_STANZA_TEXT text]) = Some text.
Proof.
  intros Hne. cbn [xmpp_stanza_get_text map text_of String.concat].
  by rewrite (proj2 (String.eqb_neq _ _) Hne).
Qed.

(** The content element [_accept_session] writes for a content is parsed
    by the loop of [_handle_session_init] to that content again, with its
    senders, name, file fields, transport sid and block size, except that
    the creator read back is the initiator whatever it was. *)
Lemma accept_content_round_trip (name : string) (attributes : list (string * string))
    (children : list xmpp_stanza_t) (content : prof_jingle_content_t) :
  let file_info := description (content_description content) in
  description_type (content_description content) = PROF_JINGLE_DESCRIPTION_TYPE_FILETRANSFER ->
  transport_type (content_transport content) = PROF_JINGLE_TRANSPORT_TYPE_INBANDBYTESTREAM ->
  0 <= blocksize (content_transport content) < 2 ^ 32 ->
  some_text (file_name file_info) -> some_text (file_type file_info) ->
  some_text (file_date file_info) -> some_text (file_size file_info) ->
  file_hash file_info = None \/ some_text (file_hash file_info) ->
  exists content_stanza,
    accept_content (XMPP_STANZA_TAG name attributes children) content
    = Done (XMPP_STANZA_TAG name attributes (children ++ [content_stanza])) /\
    parsed content_stanza = Some (read_back content).
Proof.
  destruct content as [cname creator senders [dtype [ftype fdate fname fsize fhash]]
                         [ttype tsid bsize] state].
  cbn [description content_description description_type content_transport transport_type
       blocksize file_name file_type file_date file_size file_hash].
  intros -> -> Hbsize (name_ & -> & Hname) (type_ & -> & Htype) (date_ & -> & Hdate)
    (size_ & -> & Hsize) Hhash.
  assert (Hback : Libc.to_uint (Libc.atoi (uint_to_str bsize)) = bsize)
    by (by apply atoi_sprintf_u).
  destruct Hhash as [-> | (hash_ & -> & Hhash)].
  - eexists. split; [reflexivity|].
    unfold parsed, content_iteration, read_back.
    cbn -[Libc.atoi Libc.to_uint uint_to_str xmpp_stanza_get_text].
    rewrite !xmpp_stanza_get_text_element by done.
    rewrite Hback. by destruct senders.
  - eexists. split; [reflexivity|].
    unfold parsed, content_iteration, read_back.
    cbn -[Libc.atoi Libc.to_uint uint_to_str xmpp_stanza_get_text].
    rewrite !xmpp_stanza_get_text_element by done.
    rewrite Hback. by destruct senders.
Qed.
End RoundTrip.

Section SessionRoundTrip.
Import Strophe Jingle.
Context (E : Env).

(** The loop of [_accept_session] writes one element per content, each
    read back as its content. *)
Lemma accept_loop_round_trip (contents : list (string * prof_jingle_content_t)) :
  Forall (fun kv => acceptable (snd kv)) contents ->
  forall (name : string) (attributes : list (string * string)) (children : list xmpp_stanza_t),
  exists added,
    accept_loop contents (XMPP_STANZA_TAG name attributes children)
    = Done (XMPP_STANZA_TAG name attributes (children ++ added)) /\
    Forall2 (fun kv stanza => parsed stanza = Some (read_back (snd kv))) contents added.
Proof.
  induction 1 as [|[key content] contents Hok _ IH]; intros name attributes children.
  - exists []. split; [by rewrite app_nil_r | constructor].
  - destruct Hok as (Hd & Ht & Hb & Hn & Hty & Hda & Hs & Hh).
    destruct (accept_content_round_trip name attributes children content Hd Ht Hb Hn Hty Hda Hs Hh)
      as (content_stanza & Hone & Hparsed).
    destruct (IH name attributes (children ++ [content_stanza])) as (added & Hrest & Hall).
    exists (content_stanza :: added). split.
    + cbn [accept_loop]. rewrite Hone. cbn [mbind outcome_bind]. rewrite Hrest.
      by rewrite <- app_assoc.
    + by constructor.
Qed.

(** Children that are read back as contents are inserted one after the
    other, each under its name. *)
Lemma content_loop_read_back (contents : list (string * prof_jingle_content_t))
    (added : list xmpp_stanza_t) :
  Forall2 (fun kv stanza => parsed stanza = Some (read_back (snd kv))) contents added ->
  forall table,
    content_loop added table
    = Done (fold_left (fun table kv => <[content_name (snd kv) := read_back (snd kv)]> table)
              contents table).
Proof.
  induction 1 as [|[key content] stanza contents added Hparsed _ IH]; intros table.
  - reflexivity.
  - cbn [content_loop fold_left]. unfold parsed in Hparsed.
    destruct (content_iteration stanza) as [inserted| |]; try discriminate.
    cbn in Hparsed. subst inserted. apply IH.
Qed.

(** Inserting the entries of a list without a repeated key, one after the
    other, yields the entries of the list on top of the table. *)
Lemma fold_left_insert_lookup (g : prof_jingle_content_t -> prof_jingle_content_t)
    (contents : list (string * prof_jingle_content_t)) :
  NoDup (fst <$> contents) ->
  forall (table : gmap string prof_jingle_content_t) (key : string),
    fold_left (fun table kv => <[fst kv := g (snd kv)]> table) contents table !! key
    = from_option (Some ∘ g) (table !! key)
        ((list_to_map contents : gmap string prof_jingle_content_t) !! key).
Proof.
  induction contents as [|[k c] contents IH]; intros Hnodup table key.
  - reflexivity.
  - apply NoDup_cons in Hnodup as [Hfresh Hnodup].
    cbn [fold_left list_to_map foldr fst snd]. rewrite IH by done.
    destruct (decide (k = key)) as [->|Hne].
    + rewrite (not_elem_of_list_to_map_1 _ key) by done.
      by rewrite !lookup_insert_eq.
    + by rewrite !lookup_insert_ne.
Qed.

(** Where every content is stored under its name, inserting under the
    name is inserting under the key. *)
Lemma fold_left_insert_keyed (contents : list (string * prof_jingle_content_t)) :
  Forall (fun kv => content_name (snd kv) = fst kv) contents ->
  forall table : gmap string prof_jingle_content_t,
    fold_left (fun table kv => <[content_name (snd kv) := read_back (snd kv)]> table)
      contents table
    = fold_left (fun table kv => <[fst kv := read_back (snd kv)]> table) contents table.
Proof.
  induction 1 as [|[k c] l Hname _ IH]; intros table; [reflexivity|].
  cbn [fold_left fst snd] in *. rewrite Hname. apply IH.
Qed.

(** The session-accept of a session whose contents are acceptable, each
    stored under its name, is read back as the table of the session with
    every creator replaced by the initiator. *)
Lemma session_accept_round_trip (w : world) (session : prof_jingle_session_t) :
  (forall key content,
     content_table session !! key = Some content ->
     content_name content = key /\ acceptable content) ->
  exists w' accept,
    _accept_session E w session = Done w' /\
    outbox w' = outbox w ++ [accept] /\
    jingle_action accept = Some "session-accept" /\
    content_loop (jingle_children accept) ∅ = Done (read_back <$> content_table session).
Proof.
  intros Hkeyed.
  assert (Hall : Forall (fun kv => acceptable (snd kv)) (map_to_list (content_table session))).
  { apply Forall_forall. intros [key content] Hin. apply elem_of_map_to_list in Hin.
    by apply Hkeyed in Hin as [_ ?]. }
  unfold _accept_session. cbn [create_stanza_id].
  destruct (accept_loop_round_trip _ Hall "jingle"
              [("xmlns", STANZA_NS_JINGLE); ("sid", jingle_sid session);
               ("action", "session-accept"); ("responder", connection_get_barejid E)] [])
    as (added & Hloop & Hparsed).
  change (xmpp_stanza_set_attribute (_xmpp_jingle_new "session-accept" (jingle_sid session))
            "responder" (connection_get_barejid E))
    with (XMPP_STANZA_TAG "jingle"
            [("xmlns", STANZA_NS_JINGLE); ("sid", jingle_sid session);
             ("action", "session-accept"); ("responder", connection_get_barejid E)] []).
  rewrite Hloop. cbn [mbind outcome_bind app].
  eexists _, _. split; [reflexivity|]. split; [reflexivity|]. split; [reflexivity|].
  change (jingle_children _) with added.
  rewrite (content_loop_read_back _ _ Hparsed). f_equal.
  apply map_eq. intros key.
  rewrite lookup_fmap.
  transitivity
    (fold_left (fun (table : gmap string prof_jingle_content_t) kv =>
                  <[fst kv := read_back (snd kv)]> table)
       (map_to_list (content_table session)) ∅ !! key).
  - f_equal. apply fold_left_insert_keyed.
    apply Forall_forall. intros [k c] Hin. apply elem_of_map_to_list in Hin.
    by apply Hkeyed in Hin as [? _].
  - rewrite fold_left_insert_lookup by apply NoDup_fst_map_to_list.
    rewrite list_to_map_to_list, lookup_empty.
    by destruct (content_table session !! key).
Qed.
End SessionRoundTrip.

(** The loop of [_handle_session_init] stores every content under its
    name. *)
Lemma content_loop_keyed (children : list xmpp_stanza_t) :
  forall contents contents' : gmap string prof_jingle_content_t,
    (forall key content, contents !! key = Some content -> content_name content = key) ->
    Jingle.content_loop children contents = Done contents' ->
    forall key content, contents' !! key = Some content -> content_name content = key.
Proof.
  induction children as [|stanza next IH]; intros contents contents' Hkeyed Hloop.
  - by injection Hloop as <-.
  - cbn [Jingle.content_loop] in Hloop.
    destruct (Jingle.content_iteration stanza) as [[inserted|]| |]; try discriminate.
    + refine (IH _ _ _ Hloop). intros key content Hin.
      destruct (decide (content_name inserted = key)) as [<-|Hne].
      * rewrite lookup_insert_eq in Hin. by injection Hin as <-.
      * rewrite lookup_insert_ne in Hin by done. by eapply Hkeyed.
    + by apply (IH _ _ Hkeyed Hloop).
Qed.

(** A valid session-initiate whose children are all examined and yield
    acceptable contents only is handled to the end: the handler returns. *)
Lemma session_initiate_returns (E : Env) (w : world) (stanza jingle : xmpp_stanza_t)
    (sid initiator : string) (contents : gmap string prof_jingle_content_t) :
  Strophe.xmpp_stanza_get_child_by_name_and_ns stanza "jingle" STANZA_NS_JINGLE = Some jingle ->
  Strophe.xmpp_stanza_get_attribute jingle "sid" = Some sid ->
  Strophe.xmpp_stanza_get_attribute jingle "initiator" = Some initiator ->
  Strophe.xmpp_stanza_get_from stanza = Some initiator ->
  Jingle.content_loop (Strophe.xmpp_stanza_get_children jingle) ∅ = Done contents ->
  (forall key content, contents !! key = Some content -> acceptable content) ->
  exists w', Jingle._handle_session_init E w stanza = Done w'.
Proof.
  intros Hjingle Hsid Hinit Hfrom Hloop Hok.
  unfold Jingle._handle_session_init. rewrite Hjingle, Hsid, Hinit, Hfrom.
  rewrite bool_decide_eq_true_2 by done. cbn [negb].
  destruct (Strophe.xmpp_stanza_get_children jingle) as [|child children]; [by eexists|].
  cbn [content_table]. rewrite Hloop. cbn [mbind outcome_bind].
  match goal with
  | |- exists w', Jingle._accept_session E ?w2 ?session = Done w' =>
      destruct (session_accept_round_trip E w2 session) as (w' & _ & Haccept & _)
  end.
  - cbn [content_table]. intros key content Hin. split; [|by eapply Hok].
    eapply (content_loop_keyed _ ∅ contents); [|exact Hloop|exact Hin].
    intros k c Hempty. by rewrite lookup_empty in Hempty.
  - by exists w'.
Qed.

(** The second offer after the first: the session ["s1"] is the new one,
    accepted, with the content ["b"] alone. *)
Lemma second_offer_replaces_first :
  exists w' accept,
    Jingle._handle_session_init juliet offered second_offer = Done w' /\
    outbox w' = outbox offered ++ [ack_iq "i2" Peer.romeo; accept] /\
    jingle_action accept = Some "session-accept" /\
    (dom ∘ content_table) <$> jingle_sessions offered !! "s1" = Some {["a"]} /\
    (dom ∘ content_table) <$> jingle_sessions w' !! "s1" = Some {["b"]}.
Proof. eexists _, _. repeat split; evaluate. Qed.

(** C8 at a content created by the responder: the session stores the
    creator as the responder, the session-accept that goes out parses back
    to a table whose content ["a"] has every field of the stored one except
    the creator, which is the initiator. *)
Theorem accept_names_initiator_as_creator :
  exists w accept stored back,
    on_jingle_iq juliet boot responder_offer = Done w /\
    (s ← jingle_sessions w !! "s1"; content_table s !! "a") = Some stored /\
    content_creator stored = PROF_JINGLE_CREATOR_RESPONDER /\
    outbox w = [ack_iq "i1" Peer.romeo; accept] /\
    jingle_action accept = Some "session-accept" /\
    Jingle.content_loop (jingle_children accept) ∅ = Done back /\
    back !! "a" = Some (read_back stored) /\
    content_creator (read_back stored) = PROF_JINGLE_CREATOR_INITIATOR.
Proof. eexists _, _, _, _. repeat split; vm_compute; reflexivity. Qed.

(** * Further properties of the two files *)

(** ** Sequence numbers and block sizes as text *)

(** X1: [_convert_str_to_uint16] (ibb.c:450-469): a sequence number it accepts
    is a [uint16_t]. *)
Theorem _convert_str_to_uint16_range (str : string) (n : Z) :
  Ibb._convert_str_to_uint16 str = Some n -> 0 <= n <= 65535.
Proof.
  unfold Ibb._convert_str_to_uint16.
  destruct (_ || _); [discriminate|].
  destruct (Z.ltb_spec (Libc.value (Libc.strtol str)) 0); [discriminate|].
  destruct (Z.gtb_spec (Libc.value (Libc.strtol str)) 65535); [discriminate|].
  cbn [orb]. intros [= <-]. lia.
Qed.

Lemma _convert_str_to_uint16_range_witness :
  Ibb._convert_str_to_uint16 " +65535" = Some 65535 /\ 0 <= 65535 <= 65535.
Proof.
  split; [reflexivity|].
  apply (_convert_str_to_uint16_range " +65535" 65535). reflexivity.
Defined.

(** X2: [_convert_str_to_uint16] (ibb.c:450-469): the decimal numeral of an
    [unsigned int] converts to its value when that is at most 65535, and is
    refused when it is more. *)
Theorem _convert_str_to_uint16_numeral (n : Z) :
  0 <= n < 2 ^ 32 ->
  Ibb._convert_str_to_uint16 (Libc.sprintf_u n) = if n <=? 65535 then Some n else None.
Proof.
  intros Hn. unfold Ibb._convert_str_to_uint16. rewrite strtol_sprintf_u by lia.
  cbn [Libc.erange Libc.endptr Libc.value String.eqb negb orb].
  destruct (Z.ltb_spec n 0); [lia|]. cbn [orb].
  destruct (Z.gtb_spec n 65535), (Z.leb_spec n 65535); try lia; reflexivity.
Qed.

Lemma _convert_str_to_uint16_numeral_witness :
  Ibb._convert_str_to_uint16 (Libc.sprintf_u 65536) = None.
Proof. apply (_convert_str_to_uint16_numeral 65536). lia. Defined.

(** X3: [uint_to_str] (jingle.c:623-637): what it writes for a block size is
    parsed by [atoi] in the loop of [_handle_session_init] (jingle.c:355)
    to that block size again. *)
Theorem uint_to_str_read_back (value : Z) :
  0 <= value < 2 ^ 32 ->
  Libc.to_uint (Libc.atoi (Jingle.uint_to_str value)) = value.
Proof. intros Hn. unfold Jingle.uint_to_str. by apply atoi_sprintf_u. Qed.

Lemma uint_to_str_read_back_witness :
  Libc.to_uint (Libc.atoi (Jingle.uint_to_str 4294967295)) = 4294967295.
Proof. apply uint_to_str_read_back. lia. Defined.

(** ** The lookup by transport sid *)

Section Lookup.
Import Jingle.

Lemma content_by_transport_id_Some (contents : gmap string prof_jingle_content_t)
    (transport_id : string) (content : prof_jingle_content_t) :
  content_by_transport_id contents transport_id = Some content ->
  (exists name, contents !! name = Some content) /\
  transport_sid (content_transport content) = transport_id.
Proof.
  unfold content_by_transport_id.
  destruct (List.find _ _) as [[name found]|] eqn:Hfind; [|discriminate].
  intros [= <-]. apply find_some in Hfind as [Hin Heq].
  apply list_elem_of_In, elem_of_map_to_list in Hin.
  split; [by exists name | by apply String.eqb_eq in Heq].
Qed.

Lemma content_by_transport_id_None (contents : gmap string prof_jingle_content_t)
    (transport_id name : string) (content : prof_jingle_content_t) :
  content_by_transport_id contents transport_id = None ->
  contents !! name = Some content ->
  transport_sid (content_transport content) <> transport_id.
Proof.
  unfold content_by_transport_id.
  destruct (List.find _ _) as [found|] eqn:Hfind; [discriminate|].
  intros _ Hin Heq.
  assert (Hno := find_none _ _ Hfind (name, content)). cbn [snd] in Hno.
  rewrite (proj2 (String.eqb_eq _ _) Heq) in Hno. enough (true = false) by discriminate.
  apply Hno. by apply list_elem_of_In, elem_of_map_to_list.
Qed.

Lemma session_by_transport_id_Some (sessions : list (string * prof_jingle_session_t))
    (transport_id key : string) (session : prof_jingle_session_t)
    (content : prof_jingle_content_t) :
  session_by_transport_id sessions transport_id = Some (key, session, content) ->
  (key, session) ∈ sessions /\
  content_by_transport_id (content_table session) transport_id = Some content.
Proof.
  induction sessions as [|[k s] sessions IH]; [discriminate|].
  cbn [session_by_transport_id].
  destruct (content_by_transport_id (content_table s) transport_id) as [c|] eqn:Hc.
  - intros [= <- <- <-]. split; [left | done].
  - intros Hrest. destruct (IH Hrest) as [Hin Hfound]. split; [by right | done].
Qed.

Lemma session_by_transport_id_None (sessions : list (string * prof_jingle_session_t))
    (transport_id key : string) (session : prof_jingle_session_t) :
  session_by_transport_id sessions transport_id = None ->
  (key, session) ∈ sessions ->
  content_by_transport_id (content_table session) transport_id = None.
Proof.
  induction sessions as [|[k s] sessions IH]; intros Hnone Hin.
  - by apply elem_of_nil in Hin.
  - cbn [session_by_transport_id] in Hnone.
    destruct (content_by_transport_id (content_table s) transport_id) as [c|] eqn:Hc;
      [discriminate|].
    apply elem_of_cons in Hin as [[= -> ->]|Hin]; [done | by apply IH].
Qed.

(** What [_get_item_by_transport_id] finds is held by the registry. *)
Lemma _get_item_by_transport_id_Some (w : world) (transport_id key : string)
    (session : prof_jingle_session_t) (content : prof_jingle_content_t) :
  _get_item_by_transport_id w transport_id = Some (key, session, content) ->
  holds_transport w key session content transport_id.
Proof.
  intros Hitem. apply session_by_transport_id_Some in Hitem as [Hin Hfound].
  apply elem_of_map_to_list in Hin.
  apply content_by_transport_id_Some in Hfound as [Hname Hsid]. by split.
Qed.

(** It finds nothing only when no session holds a content with the sid. *)
Lemma _get_item_by_transport_id_None (w : world) (transport_id key : string)
    (session : prof_jingle_session_t) (content : prof_jingle_content_t) :
  _get_item_by_transport_id w transport_id = None ->
  ~ holds_transport w key session content transport_id.
Proof.
  intros Hnone (Hsession & [name Hcontent] & Hsid).
  apply elem_of_map_to_list in Hsession.
  pose proof (session_by_transport_id_None _ _ _ _ Hnone Hsession) as Hc.
  by apply (content_by_transport_id_None _ _ _ _ Hc Hcontent).
Qed.

(** X4: [get_content_by_transport_id] (jingle.c:98-127): when a session of the
    registry holds a content whose transport has the sid, and every content
    of the registry with that sid is this one, the content is what the
    lookup returns. *)
Theorem get_content_by_transport_id_unique (w : world) (transport_id key : string)
    (session : prof_jingle_session_t) (content : prof_jingle_content_t) :
  holds_transport w key session content transport_id ->
  (forall key' session' content',
     holds_transport w key' session' content' transport_id -> content' = content) ->
  get_content_by_transport_id w transport_id = Some content.
Proof.
  intros Hholds Hunique. unfold get_content_by_transport_id.
  destruct (_get_item_by_transport_id w transport_id) as [[[k s] c]|] eqn:Hitem.
  - apply _get_item_by_transport_id_Some in Hitem. cbn. f_equal. by eapply Hunique.
  - by apply (_get_item_by_transport_id_None _ _ key session content) in Hitem.
Qed.

(** X5: [get_content_by_transport_id] (jingle.c:98-127): whatever the lookup
    returns is a content of a registered session, and its transport has the
    sid that was asked for. *)
Theorem get_content_by_transport_id_held (w : world) (transport_id : string)
    (content : prof_jingle_content_t) :
  get_content_by_transport_id w transport_id = Some content ->
  exists key session, holds_transport w key session content transport_id.
Proof.
  unfold get_content_by_transport_id.
  destruct (_get_item_by_transport_id w transport_id) as [[[k s] c]|] eqn:Hitem;
    [|discriminate].
  intros [= <-]. exists k, s. by apply _get_item_by_transport_id_Some.
Qed.

End Lookup.

(** ** Marking a content finished *)

Section Mark.
Import Jingle.
Context (E : Env).

(** The test the loop of [set_content_state_by_transport_id] makes, content
    by content. *)
Lemma all_downloads_finished_spec (contents : gmap string prof_jingle_content_t) :
  forallb (fun kv => is_finished (read_state E (snd kv))) (map_to_list contents) = true
  <-> forall name content,
        contents !! name = Some content ->
        read_state E content = PROF_JINGLE_STATE_TRANSFER_FINISHED.
Proof.
  rewrite forallb_forall. split.
  - intros Hall name content Hin.
    specialize (Hall (name, content)). cbn [snd] in Hall.
    destruct (read_state E content); try reflexivity;
      (enough (false = true) by discriminate; apply Hall;
       by apply list_elem_of_In, elem_of_map_to_list).
  - intros Hall [name content] Hin. apply list_elem_of_In, elem_of_map_to_list in Hin.
    cbn [snd]. by rewrite (Hall name content Hin).
Qed.

Lemma set_state_finished (transport_id : string) (content : prof_jingle_content_t) :
  read_state E (set_state transport_id PROF_JINGLE_STATE_TRANSFER_FINISHED content)
  = PROF_JINGLE_STATE_TRANSFER_FINISHED
  <-> transport_sid (content_transport content) = transport_id \/
      read_state E content = PROF_JINGLE_STATE_TRANSFER_FINISHED.
Proof.
  unfold set_state.
  destruct (String.eqb_spec (transport_sid (content_transport content)) transport_id).
  - split; [by left | reflexivity].
  - split; [by right | by intros [?|?]].
Qed.

(** [set_content_state_by_transport_id] leaves the transfers and the files
    alone and sends at most one envelope. *)
Lemma set_content_state_by_transport_id_frame (w w' : world) (transport_id : string)
    (state : prof_jingle_state_t) :
  set_content_state_by_transport_id E w transport_id state = Done w' ->
  ibb_sessions w' = ibb_sessions w /\ files w' = files w /\
  exists more, outbox w' = outbox w ++ more.
Proof.
  unfold set_content_state_by_transport_id.
  destruct (_get_item_by_transport_id w transport_id) as [[[key session] content]|];
    [|discriminate].
  destruct (forallb _ _); intros [= <-]; cbn; repeat split.
  - by eexists.
  - exists []. by rewrite app_nil_r.
Qed.

(** X6: [set_content_state_by_transport_id] with [TRANSFER_FINISHED]
    (jingle.c:129-152), for a transport that a session stored under its own
    sid carries: when every other content of the session is finished, a
    session-terminate goes out and the session leaves the registry; when
    one is not, nothing goes out and the session stays, with the contents
    of the transport marked. *)
Theorem set_content_state_by_transport_id_finished (w : world) (transport_id : string)
    (session : prof_jingle_session_t) (content : prof_jingle_content_t) :
  _get_item_by_transport_id w transport_id = Some (jingle_sid session, session, content) ->
  let finished := PROF_JINGLE_STATE_TRANSFER_FINISHED in
  let others_finished :=
    forall name other,
      content_table session !! name = Some other ->
      transport_sid (content_transport other) <> transport_id ->
      read_state E other = finished in
  (others_finished ->
   exists w' terminate,
     set_content_state_by_transport_id E w transport_id finished = Done w' /\
     outbox w' = outbox w ++ [terminate] /\
     jingle_action terminate = Some "session-terminate" /\
     Strophe.xmpp_stanza_get_attribute terminate "to" = Some (initiator session) /\
     jingle_sessions w' = delete (jingle_sid session) (jingle_sessions w)) /\
  (~ others_finished ->
   set_content_state_by_transport_id E w transport_id finished
   = Done (set_jingle_sessions w
             (<[jingle_sid session := marked transport_id finished session]>
                (jingle_sessions w)))).
Proof.
  intros Hitem finished others_finished.
  assert (Hall : forallb (fun kv => is_finished (read_state E (snd kv)))
                   (map_to_list (set_state transport_id finished <$> content_table session))
                 = true <-> others_finished).
  { rewrite all_downloads_finished_spec. split.
    - intros Hall name other Hin Hne.
      specialize (Hall name (set_state transport_id finished other)).
      rewrite lookup_fmap, Hin in Hall. specialize (Hall eq_refl).
      apply set_state_finished in Hall as [?|?]; done.
    - intros Hothers name marked_content. rewrite lookup_fmap.
      destruct (content_table session !! name) as [other|] eqn:Hin; [|discriminate].
      intros [= <-]. apply set_state_finished.
      destruct (decide (transport_sid (content_transport other) = transport_id));
        [by left | right; by eapply Hothers]. }
  unfold set_content_state_by_transport_id. rewrite Hitem. split.
  - intros Hothers. rewrite (proj2 Hall Hothers).
    eexists _, _. split; [reflexivity|]. cbn. repeat split. apply delete_insert_eq.
  - intros Hnot. destruct (forallb _ _) eqn:Hb; [|reflexivity].
    exfalso. apply Hnot. by apply Hall.
Qed.

End Mark.

(** The registry of scenario 1 holds [kitten_session] under ["s1"]. *)
Lemma offered_kitten_session :
  jingle_sessions offered !! "s1" = Some kitten_session /\
  jingle_sessions opened !! "s1" = Some kitten_session /\
  jingle_sessions receiving !! "s1" = Some kitten_session.
Proof. repeat split; evaluate. Qed.

Lemma kitten_holds_t1 : holds_transport offered "s1" kitten_session kitten_content "t1".
Proof.
  split; [apply offered_kitten_session|]. split; [|reflexivity].
  exists "a". apply lookup_singleton_eq.
Qed.

Lemma kitten_alone (w : world) (key : string) (session : prof_jingle_session_t)
    (content : prof_jingle_content_t) (transport_id : string) :
  jingle_sessions w = jingle_sessions offered ->
  holds_transport w key session content transport_id -> content = kitten_content.
Proof.
  intros Hsame (Hsession & [name Hcontent] & _). rewrite Hsame in Hsession.
  assert (Hreg : jingle_sessions offered = {["s1" := kitten_session]}) by evaluate.
  rewrite Hreg in Hsession. apply lookup_singleton_Some in Hsession as [_ <-].
  cbn [content_table kitten_session] in Hcontent.
  by apply lookup_singleton_Some in Hcontent as [_ <-].
Qed.

Lemma get_content_by_transport_id_unique_witness :
  Jingle.get_content_by_transport_id offered "t1" = Some kitten_content.
Proof.
  apply (get_content_by_transport_id_unique offered "t1" "s1" kitten_session kitten_content).
  - apply kitten_holds_t1.
  - intros key' session' content'. by apply kitten_alone.
Defined.

Lemma get_content_by_transport_id_held_witness :
  exists key session, holds_transport offered key session kitten_content "t1".
Proof. apply get_content_by_transport_id_held. evaluate. Defined.

Lemma set_content_state_by_transport_id_finished_witness :
  exists w' terminate,
    Jingle.set_content_state_by_transport_id juliet offered "t1"
      PROF_JINGLE_STATE_TRANSFER_FINISHED = Done w' /\
    outbox w' = outbox offered ++ [terminate] /\
    jingle_action terminate = Some "session-terminate" /\
    Strophe.xmpp_stanza_get_attribute terminate "to" = Some Peer.romeo /\
    jingle_sessions w' = delete "s1" (jingle_sessions offered).
Proof.
  apply (proj1 (set_content_state_by_transport_id_finished juliet offered "t1"
                  kitten_session kitten_content ltac:(evaluate))).
  intros name other Hin Hne. exfalso. apply Hne.
  cbn [content_table kitten_session] in Hin.
  by apply lookup_singleton_Some in Hin as [_ <-].
Defined.

(** ** Opening and closing a bytestream: the refusals *)

Section Refusals.
Import Strophe.

(** X7: [_on_bytestream_open] (ibb.c:148-154): an open for a sid that is in the
    transfer registry is answered with cancel / not-acceptable, and nothing
    else changes: the transfer that is registered is not touched. *)
Theorem open_for_registered_sid (w : world) (stanza ibb_stanza : xmpp_stanza_t)
    (id from sid : string) (session : ibb_session_t) :
  xmpp_stanza_get_id stanza = Some id ->
  xmpp_stanza_get_from stanza = Some from ->
  xmpp_stanza_get_child_by_ns stanza STANZA_NS_IBB = Some ibb_stanza ->
  xmpp_stanza_get_attribute ibb_stanza "sid" = Some sid ->
  ibb_sessions w !! sid = Some session ->
  Ibb._on_bytestream_open w stanza
  = Done (iq_send_stanza w (error_iq id from "cancel" "not-acceptable")).
Proof.
  intros Hid Hfrom Hibb Hsid Hsession. unfold Ibb._on_bytestream_open.
  rewrite Hibb, Hsid, Hid, Hfrom, Hsession.
  rewrite bool_decide_eq_true_2 by by eexists. by rewrite _send_error_error_iq.
Qed.

(** X8: [_on_bytestream_open] (ibb.c:156-162): an open for a sid that no
    content of a registered session has as its transport sid is answered
    with cancel / not-acceptable, and no transfer is registered. *)
Theorem open_for_unknown_transport (w : world) (stanza ibb_stanza : xmpp_stanza_t)
    (id from sid : string) :
  xmpp_stanza_get_id stanza = Some id ->
  xmpp_stanza_get_from stanza = Some from ->
  xmpp_stanza_get_child_by_ns stanza STANZA_NS_IBB = Some ibb_stanza ->
  xmpp_stanza_get_attribute ibb_stanza "sid" = Some sid ->
  ibb_sessions w !! sid = None ->
  (forall key session content, ~ holds_transport w key session content sid) ->
  Ibb._on_bytestream_open w stanza
  = Done (iq_send_stanza w (error_iq id from "cancel" "not-acceptable")).
Proof.
  intros Hid Hfrom Hibb Hsid Hnone Hunknown. unfold Ibb._on_bytestream_open.
  rewrite Hibb, Hsid, Hid, Hfrom, Hnone.
  rewrite bool_decide_eq_false_2 by (intros [? ?]; discriminate).
  unfold Jingle.get_content_by_transport_id.
  destruct (Jingle._get_item_by_transport_id w sid) as [[[key session] content]|] eqn:Hitem.
  - apply _get_item_by_transport_id_Some in Hitem. by apply Hunknown in Hitem.
  - by rewrite _send_error_error_iq.
Qed.

(** X9: [_on_bytestream_close] (ibb.c:301-312): a close without a sid, or with
    a sid that is not in the transfer registry, is answered with
    cancel / item-not-found, and nothing else changes. *)
Theorem close_for_unknown_sid (E : Env) (w : world) (stanza close_stanza : xmpp_stanza_t)
    (id from : string) :
  xmpp_stanza_get_id stanza = Some id ->
  xmpp_stanza_get_from stanza = Some from ->
  xmpp_stanza_get_child_by_name stanza "close" = Some close_stanza ->
  (forall sid, xmpp_stanza_get_attribute close_stanza "sid" = Some sid ->
               ibb_sessions w !! sid = None) ->
  Ibb._on_bytestream_close E w stanza
  = Done (iq_send_stanza w (error_iq id from "cancel" "item-not-found")).
Proof.
  intros Hid Hfrom Hclose Hunknown. unfold Ibb._on_bytestream_close.
  rewrite Hclose, Hid, Hfrom.
  destruct (xmpp_stanza_get_attribute close_stanza "sid") as [sid|];
    [rewrite (Hunknown sid eq_refl)|]; by rewrite _send_error_error_iq.
Qed.

End Refusals.

Lemma open_for_registered_sid_witness :
  Ibb._on_bytestream_open opened (Peer.open "o2" "t1" "4096")
  = Done (iq_send_stanza opened (error_iq "o2" Peer.romeo "cancel" "not-acceptable")).
Proof.
  apply (open_for_registered_sid opened (Peer.open "o2" "t1" "4096")
           (XMPP_STANZA_TAG "open"
              [("xmlns", STANZA_NS_IBB); ("block-size", "4096"); ("sid", "t1");
               ("stanza", "iq")] [])
           "o2" Peer.romeo "t1" {| file := kitten; seq := 0; stream := None |});
    evaluate.
Defined.

Lemma open_for_unknown_transport_witness :
  Ibb._on_bytestream_open offered (Peer.open "o1" "bogus" "4096")
  = Done (iq_send_stanza offered (error_iq "o1" Peer.romeo "cancel" "not-acceptable")).
Proof.
  apply (open_for_unknown_transport offered (Peer.open "o1" "bogus" "4096")
           (XMPP_STANZA_TAG "open"
              [("xmlns", STANZA_NS_IBB); ("block-size", "4096"); ("sid", "bogus");
               ("stanza", "iq")] [])
           "o1" Peer.romeo "bogus"); try evaluate.
  intros key session content Hholds.
  assert (content = kitten_content) as -> by (by eapply kitten_alone).
  by destruct Hholds as (_ & _ & ?).
Defined.

Lemma close_for_unknown_sid_witness :
  Ibb._on_bytestream_close juliet offered close_t1
  = Done (iq_send_stanza offered (error_iq "c1" Peer.romeo "cancel" "item-not-found")).
Proof.
  apply (close_for_unknown_sid juliet offered close_t1
           (XMPP_STANZA_TAG "close" [("xmlns", STANZA_NS_IBB); ("sid", "t1")] [])
           "c1" Peer.romeo); evaluate.
Defined.

(** ** Closing a registered transfer *)

Section Closing.
Import Strophe.
Context (E : Env).

(** Removing a transfer does not change what the sessions hold. *)
Lemma _get_item_by_transport_id_remove_session (w : world) (sid transport_id : string)
    (session : ibb_session_t) :
  Jingle._get_item_by_transport_id (Ibb.remove_session w sid session) transport_id
  = Jingle._get_item_by_transport_id w transport_id.
Proof.
  unfold Jingle._get_item_by_transport_id, Ibb.remove_session, Ibb._ibb_session_destroy.
  by destruct (stream session).
Qed.



(** X11: [_on_bytestream_close] (ibb.c:315-316, jingle.c:132-137) for a
    registered transfer whose sid no content of a registered session has
    is a fault: the transfer is taken out of the registry, and
    [set_content_state_by_transport_id] reads the content table of the
    session it did not find. *)
Theorem close_for_orphaned_transfer (w : world) (stanza close_stanza : xmpp_stanza_t)
    (sid : string) (session : ibb_session_t) :
  xmpp_stanza_get_child_by_name stanza "close" = Some close_stanza ->
  xmpp_stanza_get_attribute close_stanza "sid" = Some sid ->
  ibb_sessions w !! sid = Some session ->
  Jingle._get_item_by_transport_id w sid = None ->
  Ibb._on_bytestream_close E w stanza = Segfault.
Proof.
  intros Hclose Hsid Hsession Hnone. unfold Ibb._on_bytestream_close.
  rewrite Hclose, Hsid, Hsession. unfold Jingle.set_content_state_by_transport_id.
  by rewrite _get_item_by_transport_id_remove_session, Hnone.
Qed.

End Closing.


(** The second offer displaces the session that offered ["t1"] while the
    bytestream is open. *)
Lemma orphaned_reached :
  Jingle._handle_session_init juliet opened second_offer = Done orphaned.
Proof. evaluate. Qed.

Lemma close_for_orphaned_transfer_witness :
  Ibb._on_bytestream_close juliet orphaned close_t1 = Segfault.
Proof.
  apply (close_for_orphaned_transfer juliet orphaned close_t1
           (XMPP_STANZA_TAG "close" [("xmlns", STANZA_NS_IBB); ("sid", "t1")] [])
           "t1" {| file := kitten; seq := 0; stream := None |}); evaluate.
Defined.

(** ** Data blocks: the paths of [_on_bytestream_data] *)

Section Blocks.
Import Strophe.
Context (E : Env).






End Blocks.

Lemma note_receiving_reached :
  Ibb.handle_ibb juliet
    (left_by (on_jingle_iq juliet boot (Peer.offer "note.txt" "6")))
    (Peer.open "o1" "t1" "4096") = Done note_opened /\
  Ibb.handle_ibb juliet note_opened (Peer.data "d0" "t1" "0" "QUJD") = Done note_receiving.
Proof. split; evaluate. Qed.



Section FirstBlock.
Import Strophe.
Context (E : Env).




End FirstBlock.



Lemma sizeless_opened_reached :
  Ibb.handle_ibb juliet
    (left_by (on_jingle_iq juliet boot (Peer.offer "kitten.jpg" "lots")))
    (Peer.open "o1" "t1" "4096") = Done sizeless_opened.
Proof. evaluate. Qed.


Section WithoutId.
Import Strophe.
Context (E : Env).



End WithoutId.


(** ** The streams of the registered transfers *)

Section Streams.
Implicit Types (transfers : gmap string ibb_session_t) (streams : list FILE).

Lemma owned_insert_kept transfers streams (sid : string) (session next : ibb_session_t) :
  owned transfers streams -> transfers !! sid = Some session ->
  stream next = stream session \/ stream next = None ->
  owned (<[sid := next]> transfers) streams.
Proof.
  intros [Hopen Hapart] Hsession Hkept.
  assert (Hnext : forall handle, stream next = Some handle -> stream session = Some handle).
  { intros handle Hh. destruct Hkept as [<-|Hnone]; [done | congruence]. }
  split.
  - intros sid' s handle Hin Hh. destruct (decide (sid = sid')) as [<-|Hne].
    + rewrite lookup_insert_eq in Hin. injection Hin as <-. eauto.
    + rewrite lookup_insert_ne in Hin by done. eauto.
  - intros sid1 sid2 s1 s2 handle H1 H2 Hh1 Hh2.
    destruct (decide (sid = sid1)) as [<-|Hne1], (decide (sid = sid2)) as [<-|Hne2];
      try done.
    + rewrite lookup_insert_eq in H1. injection H1 as <-.
      rewrite lookup_insert_ne in H2 by done. eauto.
    + rewrite lookup_insert_eq in H2. injection H2 as <-.
      rewrite lookup_insert_ne in H1 by done. eauto.
    + rewrite lookup_insert_ne in H1, H2 by done. eauto.
Qed.

Lemma owned_insert_new transfers streams (sid : string) (next : ibb_session_t) :
  owned transfers streams -> transfers !! sid = None -> stream next = None ->
  owned (<[sid := next]> transfers) streams.
Proof.
  intros [Hopen Hapart] Hnone Hstream. split.
  - intros sid' s handle Hin Hh. destruct (decide (sid = sid')) as [<-|Hne].
    + rewrite lookup_insert_eq in Hin. injection Hin as <-. congruence.
    + rewrite lookup_insert_ne in Hin by done. eauto.
  - intros sid1 sid2 s1 s2 handle H1 H2 Hh1 Hh2.
    destruct (decide (sid = sid1)) as [<-|Hne1].
    { rewrite lookup_insert_eq in H1. injection H1 as <-. congruence. }
    destruct (decide (sid = sid2)) as [<-|Hne2].
    { rewrite lookup_insert_eq in H2. injection H2 as <-. congruence. }
    rewrite lookup_insert_ne in H1, H2 by done. eauto.
Qed.

Lemma owned_insert_opened transfers streams (sid : string) (next : ibb_session_t) :
  owned transfers streams -> stream next = Some (length streams) ->
  owned (<[sid := next]> transfers) (streams ++ [{| written := []; closed := false |}]).
Proof.
  intros [Hopen Hapart] Hstream.
  assert (Hold : forall sid' s handle,
            transfers !! sid' = Some s -> stream s = Some handle ->
            (handle < length streams)%nat).
  { intros sid' s handle Hin Hh. destruct (Hopen _ _ _ Hin Hh) as (f & Hf & _).
    by eapply lookup_lt_Some. }
  split.
  - intros sid' s handle Hin Hh. destruct (decide (sid = sid')) as [<-|Hne].
    + rewrite lookup_insert_eq in Hin. injection Hin as <-.
      rewrite Hstream in Hh. injection Hh as <-.
      exists {| written := []; closed := false |}. split; [|reflexivity].
      by rewrite lookup_app_r, Nat.sub_diag by lia.
    + rewrite lookup_insert_ne in Hin by done.
      destruct (Hopen _ _ _ Hin Hh) as (f & Hf & Hc). exists f. split; [|done].
      rewrite lookup_app_l; [done | by eapply lookup_lt_Some].
  - intros sid1 sid2 s1 s2 handle H1 H2 Hh1 Hh2.
    destruct (decide (sid = sid1)) as [<-|Hne1], (decide (sid = sid2)) as [<-|Hne2];
      try done.
    + rewrite lookup_insert_eq in H1. injection H1 as <-.
      rewrite lookup_insert_ne in H2 by done.
      pose proof (Hold _ _ _ H2 Hh2). assert (handle = length streams) by congruence. lia.
    + rewrite lookup_insert_eq in H2. injection H2 as <-.
      rewrite lookup_insert_ne in H1 by done.
      pose proof (Hold _ _ _ H1 Hh1). assert (handle = length streams) by congruence. lia.
    + rewrite lookup_insert_ne in H1, H2 by done. eauto.
Qed.

Lemma owned_fprintf transfers streams (data : list byte) (handle : nat) :
  owned transfers streams -> owned transfers (alter (Ibb.fprintf data) handle streams).
Proof.
  intros [Hopen Hapart]. split; [|exact Hapart].
  intros sid s h Hin Hh. destruct (Hopen _ _ _ Hin Hh) as (f & Hf & Hc).
  destruct (decide (h = handle)) as [->|Hne].
  - exists (Ibb.fprintf data f). by rewrite list_lookup_alter_eq, Hf.
  - exists f. by rewrite list_lookup_alter_ne.
Qed.

Lemma owned_remove transfers streams (sid : string) (session : ibb_session_t) :
  owned transfers streams -> transfers !! sid = Some session ->
  owned (delete sid transfers)
    (match stream session with
     | Some handle => alter Ibb.fclose handle streams
     | None => streams
     end).
Proof.
  intros [Hopen Hapart] Hsession. split.
  - intros sid' s h Hin Hh.
    apply lookup_delete_Some in Hin as [Hne Hin].
    destruct (Hopen _ _ _ Hin Hh) as (f & Hf & Hc).
    destruct (stream session) as [handle|] eqn:Hstream; [|by exists f].
    exists f. split; [|done]. rewrite list_lookup_alter_ne; [done|].
    intros <-. apply Hne. by eapply Hapart.
  - intros sid1 sid2 s1 s2 handle H1 H2.
    apply lookup_delete_Some in H1 as [_ H1]. apply lookup_delete_Some in H2 as [_ H2].
    by eapply Hapart.
Qed.

End Streams.

Section StreamsOwned.
Import Strophe.
Context (E : Env).

Lemma _send_ack_tables (w : world) (id target : option string) :
  ibb_sessions (Ibb._send_ack w id target) = ibb_sessions w /\
  files (Ibb._send_ack w id target) = files w.
Proof. by destruct id, target. Qed.

Lemma _send_error_tables (w : world) (id target : option string)
    (error_type error_name : string) :
  ibb_sessions (Ibb._send_error w id target error_type error_name) = ibb_sessions w /\
  files (Ibb._send_error w id target error_type error_name) = files w.
Proof. by destruct id, target. Qed.

Lemma streams_owned_tables (w w' : world) :
  ibb_sessions w' = ibb_sessions w /\ files w' = files w ->
  streams_owned w -> streams_owned w'.
Proof. unfold streams_owned. by intros [-> ->]. Qed.

Lemma remove_session_owned (w w' : world) (sid : string) (session : ibb_session_t) :
  streams_owned w -> ibb_sessions w !! sid = Some session ->
  Jingle.set_content_state_by_transport_id E (Ibb.remove_session w sid session) sid
    PROF_JINGLE_STATE_TRANSFER_FINISHED = Done w' ->
  streams_owned w'.
Proof.
  intros Howned Hsession Hmark.
  destruct (set_content_state_by_transport_id_frame E _ _ _ _ Hmark) as (Hibb & Hfiles & _).
  unfold streams_owned. rewrite Hibb, Hfiles.
  pose proof (owned_remove _ _ _ _ Howned Hsession) as Hrest.
  unfold Ibb.remove_session, Ibb._ibb_session_destroy.
  by destruct (stream session).
Qed.

Lemma _send_close_owned (w w' : world) (id target sid : option string) :
  streams_owned w -> Ibb._send_close E w id target sid = Done w' -> streams_owned w'.
Proof.
  intros Howned. unfold Ibb._send_close.
  destruct id as [id|], target as [target|], sid as [sid|];
    try (intros [= <-]; exact Howned).
  cbn [ibb_sessions iq_send_stanza].
  destruct (ibb_sessions w !! sid) as [session|] eqn:Hsession.
  - apply remove_session_owned; [exact Howned | exact Hsession].
  - intros [= <-]. exact Howned.
Qed.

Lemma write_data_owned (w w' : world) (id from : option string) (sid : string)
    (session : ibb_session_t) (data : list byte) :
  streams_owned w -> Ibb.write_data E w id from sid session data = Done w' ->
  streams_owned w'.
Proof.
  intros Howned. unfold Ibb.write_data.
  destruct (stream session) as [handle|]; [|by apply _send_close_owned].
  destruct (string_to_ul E (file_size (file session))) as [size|];
    [|by apply _send_close_owned].
  assert (Hwritten : streams_owned
            (Ibb._send_ack (set_files w (alter (Ibb.fprintf data) handle (files w))) id from)).
  { eapply streams_owned_tables; [apply _send_ack_tables|].
    by apply owned_fprintf. }
  destruct (_ >=? _); [by apply _send_close_owned | by intros [= <-]].
Qed.

End StreamsOwned.

Section JingleTables.
Import Strophe.
Context (E : Env).

Lemma _handle_session_init_tables (w w' : world) (stanza : xmpp_stanza_t) :
  Jingle._handle_session_init E w stanza = Done w' ->
  ibb_sessions w' = ibb_sessions w /\ files w' = files w.
Proof.
  intros Hdone.
  assert (Hsame : Done w = Done w' -> ibb_sessions w' = ibb_sessions w /\ files w' = files w)
    by (by intros [= <-]).
  destruct (xmpp_stanza_get_child_by_name_and_ns stanza "jingle" STANZA_NS_JINGLE)
    as [jingle|] eqn:Hjingle.
  2: { unfold Jingle._handle_session_init in Hdone. by rewrite Hjingle in Hdone. }
  destruct (xmpp_stanza_get_attribute jingle "sid") as [sid|] eqn:Hsid.
  2: { unfold Jingle._handle_session_init in Hdone. rewrite Hjingle, Hsid in Hdone.
       by apply Hsame. }
  destruct (xmpp_stanza_get_attribute jingle "initiator") as [initiator|] eqn:Hinit.
  2: { unfold Jingle._handle_session_init in Hdone. rewrite Hjingle, Hsid, Hinit in Hdone.
       by apply Hsame. }
  destruct (decide (Some initiator = xmpp_stanza_get_from stanza)) as [Hfrom|Hfrom].
  2: { unfold Jingle._handle_session_init in Hdone. rewrite Hjingle, Hsid, Hinit in Hdone.
       rewrite bool_decide_eq_false_2 in Hdone by done. by apply Hsame. }
  by destruct (session_initiate_outcome E w stanza jingle sid initiator
                 Hjingle Hsid Hinit (eq_sym Hfrom) w' Hdone) as (? & ? & _).
Qed.

Lemma on_jingle_iq_tables (w w' : world) (stanza : xmpp_stanza_t) :
  on_jingle_iq E w stanza = Done w' ->
  ibb_sessions w' = ibb_sessions w /\ files w' = files w.
Proof.
  unfold on_jingle_iq, Jingle.handle_jingle_iq.
  destruct (xmpp_stanza_get_child_by_name_and_ns stanza "jingle" STANZA_NS_JINGLE)
    as [jingle|]; [|by intros [= <-]].
  destruct (xmpp_stanza_get_attribute jingle "action") as [action|]; [|by intros [= <-]].
  destruct (String.eqb action "session-initiate").
  - destruct (Jingle._handle_session_init E w stanza) as [w1| |] eqn:Hinit; try discriminate.
    intros [= <-]. by apply (_handle_session_init_tables w w1 stanza).
  - destruct (String.eqb action "session-terminate"); by intros [= <-].
Qed.

End JingleTables.

Section StreamsKept.
Import Strophe.
Context (E : Env).

Lemma _on_bytestream_open_owned (w w' : world) (stanza : xmpp_stanza_t) :
  streams_owned w -> Ibb._on_bytestream_open w stanza = Done w' -> streams_owned w'.
Proof.
  intros Howned. unfold Ibb._on_bytestream_open.
  assert (Herror : forall id from error_type error_name,
            Done (Ibb._send_error w id from error_type error_name) = Done w' ->
            streams_owned w').
  { intros id from error_type error_name [= <-].
    eapply streams_owned_tables; [apply _send_error_tables | exact Howned]. }
  destruct (xmpp_stanza_get_child_by_ns stanza STANZA_NS_IBB) as [ibb_stanza|];
    [|discriminate].
  destruct (xmpp_stanza_get_attribute ibb_stanza "sid") as [sid|]; [|discriminate].
  destruct (bool_decide (is_Some (ibb_sessions w !! sid))) eqn:Hknown; [by eauto|].
  apply bool_decide_eq_false_1 in Hknown.
  destruct (Jingle.get_content_by_transport_id w sid) as [content|]; [|by eauto].
  destruct (transport_type (content_transport content)); [|by eauto].
  destruct (negb _); [by eauto|]. intros [= <-].
  eapply streams_owned_tables; [apply _send_ack_tables|].
  apply owned_insert_new; [exact Howned | | reflexivity].
  destruct (ibb_sessions w !! sid) eqn:Hsid; [|done]. by destruct Hknown.
Qed.

Lemma _on_bytestream_data_owned (w w' : world) (stanza : xmpp_stanza_t) :
  streams_owned w -> Ibb._on_bytestream_data E w stanza = Done w' -> streams_owned w'.
Proof.
  intros Howned. unfold Ibb._on_bytestream_data.
  destruct (xmpp_stanza_get_child_by_name_and_ns stanza "data" XMPP_FEATURE_IBB)
    as [data_stanza|]; [|by intros [= <-]].
  destruct (xmpp_stanza_get_attribute data_stanza "sid") as [sid|]; [|by intros [= <-]].
  destruct (xmpp_stanza_get_attribute data_stanza "seq" ≫= Ibb._convert_str_to_uint16)
    as [seq_|]; [|by intros [= <-]].
  destruct (g_base64_decode E <$> xmpp_stanza_get_text data_stanza) as [data|].
  2: { intros [= <-]. eapply streams_owned_tables; [apply _send_error_tables | done]. }
  destruct (ibb_sessions w !! sid) as [session|] eqn:Hsession.
  2: { intros [= <-]. eapply streams_owned_tables; [apply _send_error_tables | done]. }
  destruct (seq_ =? 0).
  - destruct (negb (seq session =? 0)); [by apply _send_close_owned|].
    destruct (fopen_download E (file_name (file session))).
    + apply write_data_owned. by apply owned_insert_opened.
    + apply _send_close_owned. by eapply owned_insert_kept; [| |right].
  - destruct (negb _); [by apply _send_close_owned|].
    apply write_data_owned. by eapply owned_insert_kept; [| |left].
Qed.

Lemma _on_bytestream_close_owned (w w' : world) (stanza : xmpp_stanza_t) :
  streams_owned w -> Ibb._on_bytestream_close E w stanza = Done w' -> streams_owned w'.
Proof.
  intros Howned. unfold Ibb._on_bytestream_close.
  destruct (xmpp_stanza_get_child_by_name stanza "close") as [close_stanza|];
    [|discriminate].
  destruct (xmpp_stanza_get_attribute close_stanza "sid") as [sid|].
  2: { intros [= <-]. eapply streams_owned_tables; [apply _send_error_tables | done]. }
  destruct (ibb_sessions w !! sid) as [session|] eqn:Hsession.
  2: { intros [= <-]. eapply streams_owned_tables; [apply _send_error_tables | done]. }
  destruct (Jingle.set_content_state_by_transport_id E _ sid _) as [w1| |] eqn:Hmark;
    [|discriminate..].
  intros [= <-]. eapply streams_owned_tables; [apply _send_ack_tables|].
  by eapply remove_session_owned.
Qed.

(** X18: [handle_jingle_iq] and [handle_ibb] (jingle.c:161-193; ibb.c:96-319,
    432-448): when every stream that a registered transfer holds is in the
    store and open, and no two transfers hold the same one, this is so
    again after any stanza that either handler returns from. *)
Theorem handlers_keep_streams_owned (w w' : world) (stanza : xmpp_stanza_t) :
  streams_owned w ->
  on_jingle_iq E w stanza = Done w' \/ Ibb.handle_ibb E w stanza = Done w' ->
  streams_owned w'.
Proof.
  intros Howned [Hjingle|Hibb].
  { eapply streams_owned_tables; [by eapply on_jingle_iq_tables | exact Howned]. }
  revert Hibb. unfold Ibb.handle_ibb.
  destruct (xmpp_stanza_get_child_by_ns stanza STANZA_NS_IBB) as [ibb_stanza|];
    [|by intros [= <-]].
  destruct (xmpp_stanza_get_name ibb_stanza) as [tag_name|]; [|by intros [= <-]].
  destruct (String.eqb tag_name "open"); [by apply _on_bytestream_open_owned|].
  destruct (String.eqb tag_name "data"); [by apply _on_bytestream_data_owned|].
  destruct (String.eqb tag_name "close"); [by apply _on_bytestream_close_owned|].
  by intros [= <-].
Qed.

End StreamsKept.

Lemma receiving_owned : streams_owned receiving.
Proof.
  assert (Hboot : owned ∅ []) by (split; intros *; by rewrite lookup_empty).
  pose proof (owned_fprintf _ _ (g_base64_decode juliet "QUJD") 0
                (owned_insert_opened ∅ [] "t1"
                   {| file := kitten; seq := 0; stream := Some 0%nat |} Hboot eq_refl))
    as Howned.
  unfold streams_owned.
  assert (Htransfers :
            ibb_sessions receiving =
            <["t1" := {| file := kitten; seq := 0; stream := Some 0%nat |}]> ∅) by evaluate.
  assert (Hstreams :
            files receiving =
            alter (Ibb.fprintf (g_base64_decode juliet "QUJD")) 0%nat
              ([] ++ [{| written := []; closed := false |}])) by evaluate.
  rewrite Htransfers, Hstreams. exact Howned.
Qed.

Lemma handlers_keep_streams_owned_witness :
  streams_owned (left_by (Ibb.handle_ibb juliet receiving (Peer.data "d1" "t1" "1" "REVG"))).
Proof.
  apply (handlers_keep_streams_owned juliet receiving _
           (Peer.data "d1" "t1" "1" "REVG") receiving_owned).
  right. evaluate.
Defined.

(** ** Session-initiates that are dropped, and those that never end *)

Section Initiate.
Import Strophe Jingle.
Context (E : Env).

(** X19: [handle_jingle_iq] and [_handle_session_init] (jingle.c:161-193,
    225-240): a session-initiate whose jingle element has no sid or no
    initiator, or whose initiator is not the sender of the stanza, is
    reported as handled and is otherwise dropped: no acknowledgement and no
    error goes out, and nothing is registered. *)
Theorem session_initiate_malformed (w : world) (stanza jingle : xmpp_stanza_t) :
  xmpp_stanza_get_child_by_name_and_ns stanza "jingle" STANZA_NS_JINGLE = Some jingle ->
  xmpp_stanza_get_attribute jingle "action" = Some "session-initiate" ->
  xmpp_stanza_get_attribute jingle "sid" = None \/
  xmpp_stanza_get_attribute jingle "initiator" = None \/
  xmpp_stanza_get_attribute jingle "initiator" <> xmpp_stanza_get_from stanza ->
  handle_jingle_iq E w stanza = Done (true, w).
Proof.
  intros Hjingle Haction Hmalformed.
  unfold handle_jingle_iq. rewrite Hjingle, Haction. cbn [String.eqb Ascii.eqb Bool.eqb].
  unfold _handle_session_init. rewrite Hjingle.
  destruct (xmpp_stanza_get_attribute jingle "sid") as [sid|]; [|reflexivity].
  destruct (xmpp_stanza_get_attribute jingle "initiator") as [initiator|]; [|reflexivity].
  destruct Hmalformed as [?|[?|Hfrom]]; [discriminate..|].
  by rewrite bool_decide_eq_false_2.
Qed.

(** X20: [_handle_session_init] (jingle.c:242-283): a content child without a
    description or without a transport, reached by the loop over the
    children, is examined again and again: however many turns the loop is
    given it is not left, and the handler does not return. *)
Theorem content_without_description_stalls (w : world) (stanza jingle : xmpp_stanza_t)
    (sid initiator : string) (before next : list xmpp_stanza_t)
    (content_stanza : xmpp_stanza_t) :
  xmpp_stanza_get_child_by_name_and_ns stanza "jingle" STANZA_NS_JINGLE = Some jingle ->
  xmpp_stanza_get_attribute jingle "sid" = Some sid ->
  xmpp_stanza_get_attribute jingle "initiator" = Some initiator ->
  xmpp_stanza_get_from stanza = Some initiator ->
  xmpp_stanza_get_children jingle = before ++ content_stanza :: next ->
  Forall (fun child => exists inserted, content_iteration child = Next inserted) before ->
  xmpp_stanza_get_name content_stanza = Some "content" ->
  xmpp_stanza_get_child_by_name content_stanza "description" = None \/
  xmpp_stanza_get_child_by_name content_stanza "transport" = None ->
  (forall turns, content_loop_turns turns (xmpp_stanza_get_children jingle) ∅ = None) /\
  _handle_session_init E w stanza = Hang.
Proof.
  intros Hjingle Hsid Hinit Hfrom Hchildren Hbefore Hname Hbare.
  assert (Hagain : content_iteration content_stanza = Again).
  { unfold content_iteration. rewrite Hname. cbn [String.eqb Ascii.eqb Bool.eqb negb].
    destruct Hbare as [->| ->]; [reflexivity|].
    by destruct (xmpp_stanza_get_child_by_name content_stanza "description"). }
  assert (Hloop : forall contents,
            content_loop (before ++ content_stanza :: next) contents = Hang).
  { clear Hchildren. induction Hbefore as [|child before [inserted Hchild] _ IH];
      intros contents; cbn [app content_loop].
    - by rewrite Hagain.
    - rewrite Hchild. by destruct inserted. }
  split.
  - intros turns. rewrite Hchildren. by apply content_loop_turns_hang.
  - unfold _handle_session_init. rewrite Hjingle, Hsid, Hinit, Hfrom.
    rewrite bool_decide_eq_true_2 by done. cbn [negb]. rewrite Hchildren.
    destruct (before ++ content_stanza :: next) eqn:Happ;
      [by destruct before|].
    cbn [content_table]. by rewrite Hloop.
Qed.

End Initiate.

Lemma session_initiate_malformed_witness :
  Jingle.handle_jingle_iq juliet boot forged_offer = Done (true, boot).
Proof.
  apply (session_initiate_malformed juliet boot forged_offer
           (XMPP_STANZA_TAG "jingle"
              [("xmlns", STANZA_NS_JINGLE); ("action", "session-initiate");
               ("initiator", "tybalt@capulet.net/yard"); ("sid", "s1")]
              [Peer.content "a" "initiator" STANZA_NS_JINGLE_TRANSPORTS_IBB "t1" "4096"
                 "kitten.jpg" "8192"])).
  - reflexivity.
  - reflexivity.
  - right. right. vm_compute. discriminate.
Defined.

Lemma content_without_description_stalls_witness :
  (forall turns,
     Jingle.content_loop_turns turns (jingle_children stalling_offer) ∅ = None) /\
  Jingle._handle_session_init juliet boot stalling_offer = Hang.
Proof.
  apply (content_without_description_stalls juliet boot stalling_offer
           (XMPP_STANZA_TAG "jingle"
              [("xmlns", STANZA_NS_JINGLE); ("action", "session-initiate");
               ("initiator", Peer.romeo); ("sid", "s1")]
              [Peer.content "a" "initiator" STANZA_NS_JINGLE_TRANSPORTS_IBB "t1" "4096"
                 "kitten.jpg" "8192";
               bare_content])
           "s1" Peer.romeo
           [Peer.content "a" "initiator" STANZA_NS_JINGLE_TRANSPORTS_IBB "t1" "4096"
              "kitten.jpg" "8192"]
           [] bare_content); try reflexivity.
  - constructor; [|constructor]. eexists. vm_compute. reflexivity.
  - by left.
Defined.

(** ** What the registry of sessions holds between two stanzas *)

Section Accepted.
Import Strophe Jingle.
Context (E : Env).

Lemma content_iteration_file_over_ibb (stanza : xmpp_stanza_t)
    (content : prof_jingle_content_t) :
  content_iteration stanza = Next (Some content) ->
  file_over_ibb (content_name content) content.
Proof.
  unfold content_iteration.
  destruct (xmpp_stanza_get_name stanza) as [tag|]; [|discriminate].
  destruct (negb (String.eqb tag "content")); [discriminate|].
  destruct (xmpp_stanza_get_child_by_name stanza "description") as [description_stanza|];
    [|discriminate].
  destruct (xmpp_stanza_get_child_by_name stanza "transport") as [transport_stanza|];
    [|discriminate].
  destruct (xmpp_stanza_get_ns transport_stanza) as [transport_ns|]; [|discriminate].
  destruct (xmpp_stanza_get_ns description_stanza) as [description_ns|]; [|discriminate].
  destruct (negb (String.eqb description_ns STANZA_NS_JINGLE_FT5)); [discriminate|].
  destruct (xmpp_stanza_get_attribute stanza "name") as [name|]; [|discriminate].
  destruct (_parse_content_creator _) eqn:Hcreator; [| |discriminate].
  all: destruct (xmpp_stanza_get_child_by_name description_stanza "file"); [|discriminate].
  all: destruct (negb (String.eqb transport_ns _)); [discriminate|].
  all: destruct (xmpp_stanza_get_attribute transport_stanza "block-size"); [|discriminate].
  all: destruct (xmpp_stanza_get_attribute transport_stanza "sid"); [|discriminate].
  all: intros [= <-]; by repeat split.
Qed.

Lemma content_loop_file_over_ibb (children : list xmpp_stanza_t) :
  forall contents contents' : gmap string prof_jingle_content_t,
    map_Forall file_over_ibb contents ->
    content_loop children contents = Done contents' ->
    map_Forall file_over_ibb contents'.
Proof.
  induction children as [|stanza next IH]; intros contents contents' Hall Hloop.
  - by injection Hloop as <-.
  - cbn [content_loop] in Hloop.
    destruct (content_iteration stanza) as [[inserted|]| |] eqn:Hturn; try discriminate.
    + refine (IH _ _ _ Hloop). apply map_Forall_insert_2; [|done].
      by apply content_iteration_file_over_ibb in Hturn.
    + by apply (IH _ _ Hall Hloop).
Qed.

Lemma set_state_file_over_ibb (transport_id name : string) (state : prof_jingle_state_t)
    (content : prof_jingle_content_t) :
  file_over_ibb name content -> file_over_ibb name (set_state transport_id state content).
Proof. unfold set_state. by destruct (String.eqb _ _). Qed.

Lemma set_content_state_by_transport_id_accepted (w w' : world) (transport_id : string)
    (state : prof_jingle_state_t) :
  sessions_accepted w ->
  set_content_state_by_transport_id E w transport_id state = Done w' ->
  sessions_accepted w'.
Proof.
  intros Haccepted. unfold set_content_state_by_transport_id.
  destruct (_get_item_by_transport_id w transport_id) as [[[key session] content]|] eqn:Hitem;
    [|discriminate].
  apply _get_item_by_transport_id_Some in Hitem as (Hsession & _ & _).
  destruct (Haccepted _ _ Hsession) as (Hsid & Hstate & Hcontents).
  assert (Hmarked :
            map_Forall session_accepted
              (<[key := {| jingle_sid := jingle_sid session; initiator := initiator session;
                           session_state := session_state session;
                           content_table :=
                             set_state transport_id state <$> content_table session |}]>
                 (jingle_sessions w))).
  { apply map_Forall_insert_2; [|done]. split; [done|]. split; [done|].
    cbn [content_table]. intros name marked_content. rewrite lookup_fmap.
    destruct (content_table session !! name) as [found|] eqn:Hfound; [|discriminate].
    intros [= <-]. apply set_state_file_over_ibb. by apply Hcontents. }
  destruct (forallb _ _); intros [= <-]; unfold sessions_accepted; cbn.
  - by apply map_Forall_delete.
  - done.
Qed.

Lemma _handle_session_init_accepted (w w' : world) (stanza : xmpp_stanza_t) :
  sessions_accepted w -> _handle_session_init E w stanza = Done w' -> sessions_accepted w'.
Proof.
  intros Haccepted Hdone.
  assert (Hsame : Done w = Done w' -> sessions_accepted w') by (by intros [= <-]).
  destruct (xmpp_stanza_get_child_by_name_and_ns stanza "jingle" STANZA_NS_JINGLE)
    as [jingle|] eqn:Hjingle.
  2: { unfold _handle_session_init in Hdone. by rewrite Hjingle in Hdone. }
  destruct (xmpp_stanza_get_attribute jingle "sid") as [sid|] eqn:Hsid.
  2: { unfold _handle_session_init in Hdone. rewrite Hjingle, Hsid in Hdone. by apply Hsame. }
  destruct (xmpp_stanza_get_attribute jingle "initiator") as [initiator|] eqn:Hinit.
  2: { unfold _handle_session_init in Hdone. rewrite Hjingle, Hsid, Hinit in Hdone.
       by apply Hsame. }
  destruct (decide (Some initiator = xmpp_stanza_get_from stanza)) as [Hfrom|Hfrom].
  2: { unfold _handle_session_init in Hdone. rewrite Hjingle, Hsid, Hinit in Hdone.
       rewrite bool_decide_eq_false_2 in Hdone by done. by apply Hsame. }
  destruct (session_initiate_outcome E w stanza jingle sid initiator
              Hjingle Hsid Hinit (eq_sym Hfrom) w' Hdone)
    as (_ & _ & reply & _ & [(_ & _ & Hsessions)|(contents & _ & Hloop & _ & Hsessions)]);
    unfold sessions_accepted; rewrite Hsessions.
  - by apply map_Forall_delete.
  - apply map_Forall_insert_2; [|done]. split; [done|]. split; [done|].
    cbn [content_table]. by eapply content_loop_file_over_ibb; [apply map_Forall_empty|].
Qed.

Lemma marks_at_most_accepted (w w' : world) :
  sessions_accepted w -> marks_at_most E w w' -> sessions_accepted w'.
Proof.
  unfold sessions_accepted.
  intros Haccepted [->|(w1 & w2 & transport_id & Hsame & Hmark & ->)]; [done|].
  eapply set_content_state_by_transport_id_accepted; [|exact Hmark].
  unfold sessions_accepted. by rewrite Hsame.
Qed.

Lemma marks_at_most_same (w w' : world) :
  jingle_sessions w' = jingle_sessions w -> marks_at_most E w w'.
Proof. by left. Qed.

Lemma _send_ack_sessions (w : world) (id target : option string) :
  jingle_sessions (Ibb._send_ack w id target) = jingle_sessions w.
Proof. by destruct id, target. Qed.

Lemma _send_error_sessions (w : world) (id target : option string)
    (error_type error_name : string) :
  jingle_sessions (Ibb._send_error w id target error_type error_name) = jingle_sessions w.
Proof. by destruct id, target. Qed.

Lemma remove_session_sessions (w : world) (sid : string) (session : ibb_session_t) :
  jingle_sessions (Ibb.remove_session w sid session) = jingle_sessions w.
Proof. unfold Ibb.remove_session, Ibb._ibb_session_destroy. by destruct (stream session). Qed.

Lemma _send_close_marks_at_most (w0 w w' : world) (id target sid : option string) :
  jingle_sessions w = jingle_sessions w0 ->
  Ibb._send_close E w id target sid = Done w' -> marks_at_most E w0 w'.
Proof.
  intros Hsame. unfold Ibb._send_close.
  destruct id as [id|], target as [target|], sid as [sid|];
    try (intros [= <-]; by left).
  cbn [ibb_sessions iq_send_stanza].
  destruct (ibb_sessions w !! sid) as [session|]; [|intros [= <-]; by left].
  intros Hmark. right. eexists _, w', sid. split; [|split; [exact Hmark | reflexivity]].
  by rewrite remove_session_sessions.
Qed.

Lemma write_data_marks_at_most (w0 w w' : world) (id from : option string) (sid : string)
    (session : ibb_session_t) (data : list byte) :
  jingle_sessions w = jingle_sessions w0 ->
  Ibb.write_data E w id from sid session data = Done w' -> marks_at_most E w0 w'.
Proof.
  intros Hsame. unfold Ibb.write_data.
  destruct (stream session) as [handle|]; [|by apply _send_close_marks_at_most].
  destruct (string_to_ul E (file_size (file session))) as [size|];
    [|by apply _send_close_marks_at_most].
  destruct (_ >=? _).
  - apply _send_close_marks_at_most. by rewrite _send_ack_sessions.
  - intros [= <-]. left. by rewrite _send_ack_sessions.
Qed.

Lemma handle_ibb_marks_at_most (w w' : world) (stanza : xmpp_stanza_t) :
  Ibb.handle_ibb E w stanza = Done w' -> marks_at_most E w w'.
Proof.
  unfold Ibb.handle_ibb.
  destruct (xmpp_stanza_get_child_by_ns stanza STANZA_NS_IBB) as [ibb_stanza|] eqn:Hibb;
    [|intros [= <-]; by left].
  destruct (xmpp_stanza_get_name ibb_stanza) as [tag_name|]; [|intros [= <-]; by left].
  destruct (String.eqb tag_name "open"); [|destruct (String.eqb tag_name "data");
    [|destruct (String.eqb tag_name "close"); [|intros [= <-]; by left]]].
  - unfold Ibb._on_bytestream_open. rewrite Hibb.
    destruct (xmpp_stanza_get_attribute ibb_stanza "sid") as [sid|]; [|discriminate].
    destruct (bool_decide _);
      [intros [= <-]; left; apply _send_error_sessions|].
    destruct (get_content_by_transport_id w sid) as [content|];
      [|intros [= <-]; left; apply _send_error_sessions].
    destruct (transport_type (content_transport content));
      [|intros [= <-]; left; apply _send_error_sessions].
    destruct (negb _); intros [= <-]; left;
      [apply _send_error_sessions | by rewrite _send_ack_sessions].
  - unfold Ibb._on_bytestream_data.
    destruct (xmpp_stanza_get_child_by_name_and_ns stanza "data" XMPP_FEATURE_IBB)
      as [data_stanza|]; [|intros [= <-]; by left].
    destruct (xmpp_stanza_get_attribute data_stanza "sid") as [sid|];
      [|intros [= <-]; by left].
    destruct (xmpp_stanza_get_attribute data_stanza "seq" ≫= Ibb._convert_str_to_uint16)
      as [seq_|]; [|intros [= <-]; by left].
    destruct (g_base64_decode E <$> xmpp_stanza_get_text data_stanza) as [data|];
      [|intros [= <-]; left; apply _send_error_sessions].
    destruct (ibb_sessions w !! sid) as [session|];
      [|intros [= <-]; left; apply _send_error_sessions].
    destruct (seq_ =? 0).
    + destruct (negb (seq session =? 0)); [by apply _send_close_marks_at_most|].
      destruct (fopen_download E (file_name (file session)));
        [by apply write_data_marks_at_most | by apply _send_close_marks_at_most].
    + destruct (negb _);
        [by apply _send_close_marks_at_most | by apply write_data_marks_at_most].
  - unfold Ibb._on_bytestream_close.
    destruct (xmpp_stanza_get_child_by_name stanza "close") as [close_stanza|];
      [|discriminate].
    destruct (xmpp_stanza_get_attribute close_stanza "sid") as [sid|];
      [|intros [= <-]; left; apply _send_error_sessions].
    destruct (ibb_sessions w !! sid) as [session|];
      [|intros [= <-]; left; apply _send_error_sessions].
    destruct (set_content_state_by_transport_id E _ sid _) as [w1| |] eqn:Hmark;
      [|discriminate..].
    intros [= <-]. right. eexists _, w1, sid.
    split; [|split; [exact Hmark | apply _send_ack_sessions]].
    apply remove_session_sessions.
Qed.

(** X21: [handle_jingle_iq] and [handle_ibb] (jingle.c:129-152, 161-193,
    219-378, 394-507; ibb.c:96-319): when every registered session is
    stored under its own sid, is in the state accepted and holds, each
    under its name, only file transfers over an in-band bytestream whose
    creator is known, this is so again after any stanza that either
    handler returns from: the state initiated does not outlast
    [_handle_session_init], and no content over SOCKS5, of an RTP
    description or of an unknown creator is stored. *)
Theorem handlers_keep_sessions_accepted (w w' : world) (stanza : xmpp_stanza_t) :
  sessions_accepted w ->
  on_jingle_iq E w stanza = Done w' \/ Ibb.handle_ibb E w stanza = Done w' ->
  sessions_accepted w'.
Proof.
  intros Haccepted [Hjingle|Hibb].
  - unfold on_jingle_iq, handle_jingle_iq in Hjingle.
    assert (Hsame : snd <$> Done (true, w) = Done w' -> sessions_accepted w')
      by (by intros [= <-]).
    destruct (xmpp_stanza_get_child_by_name_and_ns stanza "jingle" STANZA_NS_JINGLE)
      as [jingle|]; [|by injection Hjingle as <-].
    destruct (xmpp_stanza_get_attribute jingle "action") as [action|];
      [|by injection Hjingle as <-].
    destruct (String.eqb action "session-initiate").
    + destruct (_handle_session_init E w stanza) as [w1| |] eqn:Hinit; try discriminate.
      injection Hjingle as <-. by eapply _handle_session_init_accepted.
    + destruct (String.eqb action "session-terminate"); by apply Hsame.
  - eapply marks_at_most_accepted; [exact Haccepted|].
    by apply (handle_ibb_marks_at_most w w' stanza).
Qed.

End Accepted.

Lemma handlers_keep_sessions_accepted_witness : sessions_accepted offered.
Proof.
  apply (handlers_keep_sessions_accepted juliet boot offered (Peer.offer "kitten.jpg" "8192")).
  - apply map_Forall_empty.
  - left. evaluate.
Defined.

(** ** The session-accept of an offer *)

Section Accept.
Import Strophe Jingle.
Context (E : Env).

Lemma accept_content_file_texts (jingle_stanza : xmpp_stanza_t)
    (content : prof_jingle_content_t) :
  description_type (content_description content) = PROF_JINGLE_DESCRIPTION_TYPE_FILETRANSFER ->
  if file_texts content
  then exists jingle', accept_content jingle_stanza content = Done jingle'
  else accept_content jingle_stanza content = Segfault.
Proof.
  intros Htype. unfold accept_content, file_texts. rewrite Htype.
  destruct (file_name _) as [name|]; [|reflexivity].
  destruct (file_type _) as [type|]; [|reflexivity].
  destruct (file_date _) as [date|]; [|reflexivity].
  destruct (file_size _) as [size|]; [|reflexivity].
  destruct (file_hash _) as [hash|]; by eexists.
Qed.

Lemma accept_loop_file_texts (contents : list (string * prof_jingle_content_t)) :
  Forall (fun kv => file_over_ibb (fst kv) (snd kv)) contents ->
  forall jingle_stanza,
    if forallb (fun kv => file_texts (snd kv)) contents
    then exists jingle', accept_loop contents jingle_stanza = Done jingle'
    else accept_loop contents jingle_stanza = Segfault.
Proof.
  induction 1 as [|[key content] contents (_ & Htype & _) _ IH]; intros jingle_stanza.
  - by eexists.
  - cbn [accept_loop forallb snd].
    pose proof (accept_content_file_texts jingle_stanza content Htype) as Hone.
    destruct (file_texts content); cbn [andb].
    + destruct Hone as [jingle' ->]. cbn [mbind outcome_bind]. apply IH.
    + by rewrite Hone.
Qed.

(** X22: [_handle_session_init] with [_accept_session] and
    [_add_child_with_text] (jingle.c:242-378, 394-476, 537-551): for a
    valid session-initiate whose children the loop gets through, the
    handler returns when every content it stored has the name, the media
    type, the date and the size of its file; when one content lacks one of
    the four, writing the session-accept copies a text that is not there,
    which is a fault. *)
Theorem session_initiate_needs_file_texts (w : world) (stanza jingle : xmpp_stanza_t)
    (sid initiator : string) (contents : gmap string prof_jingle_content_t) :
  xmpp_stanza_get_child_by_name_and_ns stanza "jingle" STANZA_NS_JINGLE = Some jingle ->
  xmpp_stanza_get_attribute jingle "sid" = Some sid ->
  xmpp_stanza_get_attribute jingle "initiator" = Some initiator ->
  xmpp_stanza_get_from stanza = Some initiator ->
  content_loop (xmpp_stanza_get_children jingle) ∅ = Done contents ->
  (map_Forall (fun _ content => file_texts content = true) contents ->
   exists w', _handle_session_init E w stanza = Done w') /\
  (forall name content,
     contents !! name = Some content -> file_texts content = false ->
     _handle_session_init E w stanza = Segfault).
Proof.
  intros Hjingle Hsid Hinit Hfrom Hloop.
  assert (Hcontents : Forall (fun kv => file_over_ibb (fst kv) (snd kv)) (map_to_list contents)).
  { apply Forall_forall. intros [name content] Hin. apply elem_of_map_to_list in Hin.
    by eapply (content_loop_file_over_ibb _ ∅ contents); [apply map_Forall_empty| |]. }
  unfold _handle_session_init. rewrite Hjingle, Hsid, Hinit, Hfrom.
  rewrite bool_decide_eq_true_2 by done. cbn [negb].
  destruct (xmpp_stanza_get_children jingle) as [|child children].
  { injection Hloop as <-. split; [by eexists|]. intros name content Hin.
    by rewrite lookup_empty in Hin. }
  cbn [content_table]. rewrite Hloop. cbn [mbind outcome_bind].
  unfold _accept_session. cbn [create_stanza_id content_table].
  match goal with
  | |- context [accept_loop _ ?jingle_stanza] =>
      pose proof (accept_loop_file_texts _ Hcontents jingle_stanza) as Haccept
  end.
  destruct (forallb _ _) eqn:Hall.
  - split; [|intros name content Hin Hnone].
    + intros _. destruct Haccept as [jingle' ->]. by eexists.
    + rewrite forallb_forall in Hall.
      assert (Htexts := Hall (name, content)). cbn [snd] in Htexts.
      rewrite Htexts in Hnone; [discriminate|].
      by apply list_elem_of_In, elem_of_map_to_list.
  - split; [|intros _ _ _ _; by rewrite Haccept].
    intros Htexts. assert (forallb (fun kv => file_texts (snd kv)) (map_to_list contents) = true)
      as Htrue; [|by rewrite Htrue in Hall].
    apply forallb_forall. intros [name content] Hin. cbn [snd].
    by apply list_elem_of_In, elem_of_map_to_list, Htexts in Hin.
Qed.

End Accept.

Lemma session_initiate_needs_file_texts_witness :
  Jingle._handle_session_init juliet boot undated_offer = Segfault.
Proof.
  refine (proj2 (session_initiate_needs_file_texts juliet boot undated_offer
    (XMPP_STANZA_TAG "jingle"
       [("xmlns", STANZA_NS_JINGLE); ("action", "session-initiate");
        ("initiator", Peer.romeo); ("sid", "s1")]
       (jingle_children undated_offer))
    "s1" Peer.romeo {["a" := undated_content]} _ _ _ _ _) "a" undated_content _ _);
    evaluate.
Defined.

(** ** A child with a text, added and read *)

Section ChildText.
Import Strophe Jingle.

Lemma find_last {A : Type} (f : A -> bool) (l : list A) (x : A) :
  List.find f l = None -> List.find f (l ++ [x]) = if f x then Some x else None.
Proof.
  induction l as [|y l IH]; [reflexivity|]. cbn [List.find app].
  destruct (f y); [discriminate | exact IH].
Qed.

(** X23: [_add_child_with_text] and [_get_child_text] (jingle.c:527-551): the
    text added under a name that no child of the element has yet is the
    text read under that name afterwards, except the empty text, which is
    read as no text. *)
Theorem _add_child_with_text_read_back (parent : xmpp_stanza_t) (name child_name text : string) :
  xmpp_stanza_get_name parent = Some name ->
  xmpp_stanza_get_child_by_name parent child_name = None ->
  exists parent',
    _add_child_with_text parent child_name (Some text) = Done parent' /\
    _get_child_text parent' child_name
    = if String.eqb text EmptyString then None else Some text.
Proof.
  intros Hname Hnone. destruct parent as [data|tag attributes children]; [discriminate|].
  eexists. split; [reflexivity|].
  unfold _get_child_text, xmpp_stanza_get_child_by_name in *.
  cbn [xmpp_stanza_add_child xmpp_stanza_new xmpp_stanza_get_children app] in *.
  rewrite (find_last _ _ _ Hnone).
  unfold has_name. cbn [xmpp_stanza_get_name]. rewrite String.eqb_refl.
  reflexivity.
Qed.

End ChildText.

Lemma _add_child_with_text_read_back_witness :
  exists parent',
    Jingle._add_child_with_text (Peer.file_element "kitten.jpg" "8192") "hash" (Some "c0ffee")
    = Done parent' /\
    Jingle._get_child_text parent' "hash" = Some "c0ffee".
Proof.
  apply (_add_child_with_text_read_back (Peer.file_element "kitten.jpg" "8192") "file"
           "hash" "c0ffee"); reflexivity.
Defined.

(** ** Streams that no transfer holds *)

Section Unheld.
Import Strophe.
Context (E : Env) (handle : nat) (f : FILE).

Lemma unheld_tables (w w' : world) :
  ibb_sessions w' = ibb_sessions w /\ files w' = files w ->
  unheld handle f w -> unheld handle f w'.
Proof. unfold unheld. by intros [-> ->]. Qed.

Lemma store_unheld (w : world) (sid : string) (next : ibb_session_t) :
  unheld handle f w ->
  stream next = None \/
  (exists session, ibb_sessions w !! sid = Some session /\ stream next = stream session) ->
  unheld handle f (Ibb.store w sid next).
Proof.
  intros [Hfile Hnone] Hnext. split; [exact Hfile|].
  intros sid' session. cbn [Ibb.store ibb_sessions set_ibb_sessions].
  destruct (decide (sid = sid')) as [<-|Hne].
  - rewrite lookup_insert_eq. intros [= <-].
    destruct Hnext as [->|(session & Hsession & ->)]; [done | by eapply Hnone].
  - rewrite lookup_insert_ne by done. apply Hnone.
Qed.

Lemma fopen_unheld (w : world) (sid : string) (next : ibb_session_t) :
  unheld handle f w -> stream next = Some (length (files w)) ->
  unheld handle f
    (Ibb.store (set_files w (files w ++ [{| written := []; closed := false |}])) sid next).
Proof.
  intros [Hfile Hnone] Hnext. pose proof (lookup_lt_Some _ _ _ Hfile) as Hlt. split.
  - cbn [Ibb.store files set_ibb_sessions set_files]. by rewrite lookup_app_l.
  - intros sid' session. cbn [Ibb.store ibb_sessions set_ibb_sessions set_files].
    destruct (decide (sid = sid')) as [<-|Hne].
    + rewrite lookup_insert_eq. intros [= <-]. rewrite Hnext. intros [= Heq]. lia.
    + rewrite lookup_insert_ne by done. apply Hnone.
Qed.

Lemma fprintf_unheld (w : world) (sid : string) (session : ibb_session_t)
    (held : nat) (data : list byte) :
  unheld handle f w -> ibb_sessions w !! sid = Some session -> stream session = Some held ->
  unheld handle f (set_files w (alter (Ibb.fprintf data) held (files w))).
Proof.
  intros [Hfile Hnone] Hsession Hheld. split; [|exact Hnone].
  cbn [files set_files]. rewrite list_lookup_alter_ne; [done|].
  intros ->. by eapply Hnone.
Qed.

Lemma remove_session_unheld (w : world) (sid : string) (session : ibb_session_t) :
  unheld handle f w -> ibb_sessions w !! sid = Some session ->
  unheld handle f (Ibb.remove_session w sid session).
Proof.
  intros [Hfile Hnone] Hsession. unfold Ibb.remove_session, Ibb._ibb_session_destroy.
  cbn [stream files ibb_sessions set_ibb_sessions].
  destruct (stream session) as [held|] eqn:Hheld; split;
    cbn [files ibb_sessions set_files set_ibb_sessions].
  - rewrite list_lookup_alter_ne; [done|]. intros ->. by eapply Hnone.
  - intros sid' session' Hin. apply lookup_delete_Some in Hin as [_ Hin]. by eapply Hnone.
  - done.
  - intros sid' session' Hin. apply lookup_delete_Some in Hin as [_ Hin]. by eapply Hnone.
Qed.

Lemma _send_close_unheld (w w' : world) (id target sid : option string) :
  unheld handle f w -> Ibb._send_close E w id target sid = Done w' -> unheld handle f w'.
Proof.
  intros Hunheld. unfold Ibb._send_close.
  destruct id as [id|], target as [target|], sid as [sid|];
    try (intros [= <-]; exact Hunheld).
  cbn [ibb_sessions iq_send_stanza].
  destruct (ibb_sessions w !! sid) as [session|] eqn:Hsession;
    [|intros [= <-]; exact Hunheld].
  intros Hmark.
  destruct (set_content_state_by_transport_id_frame E _ _ _ _ Hmark) as (Hibb & Hfiles & _).
  eapply unheld_tables; [by split|].
  by apply remove_session_unheld.
Qed.

Lemma write_data_unheld (w w' : world) (id from : option string) (sid : string)
    (session : ibb_session_t) (data : list byte) :
  unheld handle f w -> ibb_sessions w !! sid = Some session ->
  Ibb.write_data E w id from sid session data = Done w' -> unheld handle f w'.
Proof.
  intros Hunheld Hsession. unfold Ibb.write_data.
  destruct (stream session) as [held|] eqn:Hheld; [|by apply _send_close_unheld].
  destruct (string_to_ul E (file_size (file session))) as [size|];
    [|by apply _send_close_unheld].
  assert (Hwritten : unheld handle f
            (Ibb._send_ack (set_files w (alter (Ibb.fprintf data) held (files w))) id from)).
  { eapply unheld_tables; [apply _send_ack_tables|]. by eapply fprintf_unheld. }
  destruct (_ >=? _); [by apply _send_close_unheld | by intros [= <-]].
Qed.

(** X24: [handle_jingle_iq] and [handle_ibb] (jingle.c:161-193; ibb.c:96-319,
    432-448): a stream that no registered transfer holds is left as it is
    by any stanza that either handler returns from, and no transfer holds
    it afterwards.  It is not written to and it is not closed: a stream
    that a transfer has let go of while it was open stays open. *)
Theorem handlers_leave_unheld_streams (w w' : world) (stanza : xmpp_stanza_t) :
  unheld handle f w ->
  on_jingle_iq E w stanza = Done w' \/ Ibb.handle_ibb E w stanza = Done w' ->
  unheld handle f w'.
Proof.
  intros Hunheld [Hjingle|Hibb].
  { eapply unheld_tables; [by eapply on_jingle_iq_tables | exact Hunheld]. }
  revert Hibb. unfold Ibb.handle_ibb.
  assert (Herror : forall id from error_type error_name,
            Done (Ibb._send_error w id from error_type error_name) = Done w' ->
            unheld handle f w').
  { intros id from error_type error_name [= <-].
    eapply unheld_tables; [apply _send_error_tables | exact Hunheld]. }
  destruct (xmpp_stanza_get_child_by_ns stanza STANZA_NS_IBB) as [ibb_stanza|] eqn:Hchild;
    [|by intros [= <-]].
  destruct (xmpp_stanza_get_name ibb_stanza) as [tag_name|]; [|by intros [= <-]].
  destruct (String.eqb tag_name "open"); [|destruct (String.eqb tag_name "data");
    [|destruct (String.eqb tag_name "close"); [|by intros [= <-]]]].
  - unfold Ibb._on_bytestream_open. rewrite Hchild.
    destruct (xmpp_stanza_get_attribute ibb_stanza "sid") as [sid|]; [|discriminate].
    destruct (bool_decide _); [by eauto|].
    destruct (Jingle.get_content_by_transport_id w sid) as [content|]; [|by eauto].
    destruct (transport_type (content_transport content)); [|by eauto].
    destruct (negb _); [by eauto|]. intros [= <-].
    eapply unheld_tables; [apply _send_ack_tables|].
    apply (store_unheld w sid); [exact Hunheld | by left].
  - unfold Ibb._on_bytestream_data.
    destruct (xmpp_stanza_get_child_by_name_and_ns stanza "data" XMPP_FEATURE_IBB)
      as [data_stanza|]; [|by intros [= <-]].
    destruct (xmpp_stanza_get_attribute data_stanza "sid") as [sid|]; [|by intros [= <-]].
    destruct (xmpp_stanza_get_attribute data_stanza "seq" ≫= Ibb._convert_str_to_uint16)
      as [seq_|]; [|by intros [= <-]].
    destruct (g_base64_decode E <$> xmpp_stanza_get_text data_stanza) as [data|];
      [|by eauto].
    destruct (ibb_sessions w !! sid) as [session|] eqn:Hsession; [|by eauto].
    destruct (seq_ =? 0).
    + destruct (negb (seq session =? 0)); [by apply _send_close_unheld|].
      destruct (fopen_download E (file_name (file session))).
      * apply write_data_unheld; [by apply fopen_unheld|].
        cbn [Ibb.store ibb_sessions set_ibb_sessions set_files]. apply lookup_insert_eq.
      * apply _send_close_unheld. apply store_unheld; [exact Hunheld | by left].
    + destruct (negb _); [by apply _send_close_unheld|].
      apply write_data_unheld.
      * apply store_unheld; [exact Hunheld|]. right. by exists session.
      * cbn [Ibb.store ibb_sessions set_ibb_sessions]. apply lookup_insert_eq.
  - unfold Ibb._on_bytestream_close.
    destruct (xmpp_stanza_get_child_by_name stanza "close") as [close_stanza|];
      [|discriminate].
    destruct (xmpp_stanza_get_attribute close_stanza "sid") as [sid|]; [|by eauto].
    destruct (ibb_sessions w !! sid) as [session|] eqn:Hsession; [|by eauto].
    destruct (Jingle.set_content_state_by_transport_id E _ sid _) as [w1| |] eqn:Hmark;
      [|discriminate..].
    intros [= <-]. eapply unheld_tables; [apply _send_ack_tables|].
    destruct (set_content_state_by_transport_id_frame E _ _ _ _ Hmark) as (Hibb & Hfiles & _).
    eapply unheld_tables; [by split|]. by apply remove_session_unheld.
Qed.

End Unheld.

Lemma reopened_unheld :
  unheld 0 {| written := [x41; x42; x43]; closed := false |} reopened.
Proof.
  split; [evaluate|].
  assert (Htransfers :
            ibb_sessions reopened
            = {["t1" := {| file := kitten; seq := 0; stream := Some 1%nat |}]}) by evaluate.
  rewrite Htransfers. intros sid session Hin.
  apply lookup_singleton_Some in Hin as [_ <-]. discriminate.
Qed.

Lemma handlers_leave_unheld_streams_witness :
  unheld 0 {| written := [x41; x42; x43]; closed := false |}
    (left_by (Ibb.handle_ibb juliet reopened (Peer.data "d2" "t1" "1" "R0hJ"))).
Proof.
  apply (handlers_leave_unheld_streams juliet _ _ reopened _
           (Peer.data "d2" "t1" "1" "R0hJ") reopened_unheld).
  right. evaluate.
Defined.
